(** * Cyberdark: settings sanitizer and style controller

    A shallow embedding of the settings-validation layer ([validate.js]),
    of the configuration helpers ([config.js]) and of the decision and
    injection logic of the content script ([content.js]), together with the
    properties of the written specification that concern them.

    The file is organised as the extension is:
    - [JS]        the fragment of the host language the code relies on
                  (values, coercions, strings, regular expressions, JSON text);
    - [Validate]  [validate.js];
    - [Config]    [config.js];
    - [Dom]       the part of the document tree the controller touches;
    - [Content]   [content.js];
    - [Samples]   concrete settings, envelopes and pages;
    - [Spec]      the notions the specification speaks in;
    - [Builtins]  further methods of the host language;
    - [Options]   the colour and blacklist fields of [options.js];
    - [Background] the caches and the message handler of [background.js];
    - [Bookmarks] the bookmark sanitizers of [validate.js];
    - [Popup]     the blacklist button of [popup.js];
    - [Shape]     the shapes of sanitized values;
    - [Cases]     more concrete inputs;
    followed by the properties, numbered as the claims they settle, and by
    further properties of the code, numbered from X1. *)

From Stdlib Require Import ZArith QArith List String Ascii Bool Lia Lqa.
From Stdlib Require Import DecimalString HexadecimalString.
Import ListNotations.

Local Open Scope string_scope.
Local Open Scope Z_scope.

Set Warnings "-register-all".

(* ------------------------------------------------------------------------- *)
(** * The host language                                                        *)
(* ------------------------------------------------------------------------- *)

Module JS.

(** ** Outcomes

    A call either returns or raises.  Promises of [async] functions are
    modelled by the same type: [Ok] is a fulfilled promise, [Throw] a
    rejected one. *)

Inductive error : Type := TypeError | SyntaxError.

Inductive result (A : Type) : Type :=
| Ok (a : A)
| Throw (e : error).

Arguments Ok {A} a.
Arguments Throw {A} e.

Definition bind {A B : Type} (c : result A) (k : A -> result B) : result B :=
  match c with
  | Ok a => k a
  | Throw e => Throw e
  end.

Definition returns {A : Type} (c : result A) : bool :=
  match c with Ok _ => true | Throw _ => false end.

(** ** Strings

    A string is its sequence of code units; the model keeps the code units
    below 256, which covers every character the sanitizers accept. *)

Definition code (c : ascii) : Z := Z.of_N (N_of_ascii c).

Definition in_range (lo hi : string) (c : ascii) : bool :=
  match lo, hi with
  | String l EmptyString, String h EmptyString =>
      (code l <=? code c) && (code c <=? code h)
  | _, _ => false
  end.

Definition is_digit (c : ascii) : bool := in_range "0" "9" c.

(** WhiteSpace and LineTerminator code units: TAB, LF, VT, FF, CR, SP, NBSP. *)
Definition is_space (c : ascii) : bool :=
  let n := code c in
  ((9 <=? n) && (n <=? 13)) || (n =? 32) || (n =? 160).

Fixpoint trimStart (s : string) : string :=
  match s with
  | String c rest => if is_space c then trimStart rest else s
  | EmptyString => EmptyString
  end.

Fixpoint rev_string (s acc : string) : string :=
  match s with
  | String c rest => rev_string rest (String c acc)
  | EmptyString => acc
  end.

Definition trimEnd (s : string) : string :=
  rev_string (trimStart (rev_string s "")) "".

(** [String.prototype.trim] *)
Definition trim (s : string) : string := trimEnd (trimStart s).

Definition lower_char (c : ascii) : ascii :=
  let n := code c in
  if ((65 <=? n) && (n <=? 90))
     || ((192 <=? n) && (n <=? 222) && negb (n =? 215))
  then ascii_of_N (Z.to_N (n + 32)) else c.

(** [String.prototype.toLowerCase] *)
Fixpoint toLowerCase (s : string) : string :=
  match s with
  | String c rest => String (lower_char c) (toLowerCase rest)
  | EmptyString => EmptyString
  end.

Definition str_length (s : string) : Z := Z.of_nat (String.length s).

(** [String.prototype.split] with a one-character separator *)
Fixpoint split_on (sep : ascii) (s cur : string) : list string :=
  match s with
  | EmptyString => [rev_string cur ""]
  | String c rest =>
      if Ascii.eqb c sep then rev_string cur "" :: split_on sep rest ""
      else split_on sep rest (String c cur)
  end.

Definition split (sep : ascii) (s : string) : list string := split_on sep s "".

Definition CR : ascii := ascii_of_N 13.
Definition LF : ascii := ascii_of_N 10.

(** [s.split(/\r?\n/)]: a line feed separates, and swallows a carriage
    return that stands immediately before it. *)
Fixpoint split_lines_on (s cur : string) : list string :=
  match s with
  | EmptyString => [rev_string cur ""]
  | String c rest =>
      if Ascii.eqb c LF then
        let cur' := match cur with
                    | String p before => if Ascii.eqb p CR then before else cur
                    | EmptyString => cur
                    end in
        rev_string cur' "" :: split_lines_on rest ""
      else split_lines_on rest (String c cur)
  end.

Definition split_lines (s : string) : list string := split_lines_on s "".

Fixpoint is_prefix (p s : string) : bool :=
  match p, s with
  | EmptyString, _ => true
  | String a p', String b s' => Ascii.eqb a b && is_prefix p' s'
  | String _ _, EmptyString => false
  end.

(** [String.prototype.endsWith] *)
Definition endsWith (s suffix : string) : bool :=
  is_prefix (rev_string suffix "") (rev_string s "").

(** [String.prototype.includes] *)
Fixpoint includes (s needle : string) : bool :=
  is_prefix needle s ||
  match s with
  | String _ rest => includes rest needle
  | EmptyString => false
  end.

Fixpoint join (sep : string) (parts : list string) : string :=
  match parts with
  | [] => ""
  | [p] => p
  | p :: rest => (p ++ sep ++ join sep rest)%string
  end.

Definition decimal_of_pos (p : positive) : string :=
  DecimalString.NilEmpty.string_of_uint (Pos.to_uint p).

Definition decimal_of_nat (n : nat) : string :=
  match n with
  | O => "0"
  | S _ => decimal_of_pos (Pos.of_nat n)
  end.

Definition hex_of_pos (p : positive) : string :=
  HexadecimalString.NilEmpty.string_of_uint (Pos.to_hex_uint p).

(** ** Regular expressions

    The patterns of the sanitizers are anchored at both ends, so [test] is a
    whole-string match; it is decided by derivatives. *)

Inductive regex : Type :=
| Void
| Eps
| Class (accept : ascii -> bool)
| Cat (r1 r2 : regex)
| Alt (r1 r2 : regex)
| Star (r : regex).

Fixpoint nullable (r : regex) : bool :=
  match r with
  | Void => false
  | Eps => true
  | Class _ => false
  | Cat r1 r2 => nullable r1 && nullable r2
  | Alt r1 r2 => nullable r1 || nullable r2
  | Star _ => true
  end.

Fixpoint deriv (c : ascii) (r : regex) : regex :=
  match r with
  | Void => Void
  | Eps => Void
  | Class accept => if accept c then Eps else Void
  | Cat r1 r2 =>
      if nullable r1 then Alt (Cat (deriv c r1) r2) (deriv c r2)
      else Cat (deriv c r1) r2
  | Alt r1 r2 => Alt (deriv c r1) (deriv c r2)
  | Star r1 => Cat (deriv c r1) (Star r1)
  end.

(** Derivatives of [Void] are pruned so that the expression stays small. *)
Fixpoint prune (r : regex) : regex :=
  match r with
  | Cat r1 r2 =>
      match prune r1, prune r2 with
      | Void, _ => Void
      | _, Void => Void
      | Eps, r2' => r2'
      | r1', r2' => Cat r1' r2'
      end
  | Alt r1 r2 =>
      match prune r1, prune r2 with
      | Void, r2' => r2'
      | r1', Void => r1'
      | r1', r2' => Alt r1' r2'
      end
  | _ => r
  end.

Fixpoint test (r : regex) (s : string) : bool :=
  match s with
  | EmptyString => nullable r
  | String c rest => test (prune (deriv c r)) rest
  end.

Definition chr (c : string) : regex :=
  Class (fun x => match c with
                  | String a EmptyString => Ascii.eqb x a
                  | _ => false
                  end).

Definition lit (s : string) : regex :=
  (fix go (s : string) : regex :=
     match s with
     | EmptyString => Eps
     | String c rest => Cat (Class (Ascii.eqb c)) (go rest)
     end) s.

(** A literal under the [i] flag *)
Definition lit_nocase (s : string) : regex :=
  (fix go (s : string) : regex :=
     match s with
     | EmptyString => Eps
     | String c rest =>
         Cat (Class (fun x => Ascii.eqb (lower_char x) (lower_char c))) (go rest)
     end) s.

Definition plus (r : regex) : regex := Cat r (Star r).

Fixpoint times (n : nat) (r : regex) : regex :=
  match n with
  | O => Eps
  | S n' => Cat r (times n' r)
  end.

(** [r{n,}] *)
Definition at_least (n : nat) (r : regex) : regex := Cat (times n r) (Star r).

(** ** Numbers

    A finite number is kept as an exact decimal fraction [m * 10^e]; every
    binary64 value is one.  Rounding of the mantissa is not modelled, the
    passage to [Infinity] on overflow and to zero on underflow is. *)

Inductive number : Type :=
| NaN
| PosInf
| NegInf
| Fin (m e : Z).

Definition toQ (m e : Z) : Q :=
  if 0 <=? e then inject_Z (m * 10 ^ e)
  else Qmake m (Z.to_pos (10 ^ (- e))).

(** Magnitudes from [2^1024 - 2^970] on round to an infinity, those up to
    [2^-1075] to zero. *)
Definition overflow_bound : Z := 2 ^ 1024 - 2 ^ 970.

Definition finite (m e : Z) : number :=
  if 0 <=? e then
    if overflow_bound <=? Z.abs m * 10 ^ e
    then (if m <? 0 then NegInf else PosInf)
    else Fin m e
  else
    if overflow_bound * 10 ^ (- e) <=? Z.abs m
    then (if m <? 0 then NegInf else PosInf)
    else if Z.abs m * 2 ^ 1075 <=? 10 ^ (- e) then Fin 0 0
    else Fin m e.

Definition of_Z (z : Z) : number := Fin z 0.

Definition lt_fin (m1 e1 m2 e2 : Z) : bool :=
  match Qcompare (toQ m1 e1) (toQ m2 e2) with
  | Lt => true
  | _ => false
  end.

(** [a < b] *)
Definition lt (a b : number) : bool :=
  match a, b with
  | NaN, _ | _, NaN => false
  | PosInf, _ => false
  | _, NegInf => false
  | NegInf, _ => true
  | _, PosInf => true
  | Fin m1 e1, Fin m2 e2 => lt_fin m1 e1 m2 e2
  end.

Definition is_nan (a : number) : bool :=
  match a with NaN => true | _ => false end.

(** [a >= b] *)
Definition ge (a b : number) : bool :=
  negb (is_nan a) && negb (is_nan b) && negb (lt a b).

(** [a <= b] *)
Definition le (a b : number) : bool :=
  negb (is_nan a) && negb (is_nan b) && negb (lt b a).

Definition isNaN (a : number) : bool := is_nan a.

Definition isFinite (a : number) : bool :=
  match a with Fin _ _ => true | _ => false end.

(** [Math.min(a, b)] and [Math.max(a, b)] *)
Definition Math_min (a b : number) : number :=
  if is_nan a || is_nan b then NaN else if lt b a then b else a.

Definition Math_max (a b : number) : number :=
  if is_nan a || is_nan b then NaN else if lt a b then b else a.

Definition neg (a : number) : number :=
  match a with
  | NaN => NaN
  | PosInf => NegInf
  | NegInf => PosInf
  | Fin m e => Fin (- m) e
  end.

Definition is_zero (a : number) : bool :=
  match a with Fin m _ => m =? 0 | _ => false end.

Definition sign_neg (a : number) : bool :=
  match a with
  | NegInf => true
  | Fin m _ => m <? 0
  | _ => false
  end.

(** [a * b] *)
Definition mul (a b : number) : number :=
  match a, b with
  | NaN, _ | _, NaN => NaN
  | Fin m1 e1, Fin m2 e2 => finite (m1 * m2) (e1 + e2)
  | _, _ =>
      if is_zero a || is_zero b then NaN
      else if xorb (sign_neg a) (sign_neg b) then NegInf else PosInf
  end.

(** [a + b] *)
Definition add (a b : number) : number :=
  match a, b with
  | NaN, _ | _, NaN => NaN
  | PosInf, NegInf | NegInf, PosInf => NaN
  | PosInf, _ | _, PosInf => PosInf
  | NegInf, _ | _, NegInf => NegInf
  | Fin m1 e1, Fin m2 e2 =>
      let e := Z.min e1 e2 in
      finite (m1 * 10 ^ (e1 - e) + m2 * 10 ^ (e2 - e)) e
  end.

(** [Number::toString]: the digits [s] of the magnitude without trailing
    zeros, their count [k] and the position [n] of the decimal point. *)
Fixpoint strip_zeros (fuel : nat) (m e : Z) : Z * Z :=
  match fuel with
  | O => (m, e)
  | S fuel' =>
      if (negb (m =? 0)) && (m mod 10 =? 0)
      then strip_zeros fuel' (m / 10) (e + 1)
      else (m, e)
  end.

Fixpoint zeros (n : nat) : string :=
  match n with
  | O => ""
  | S n' => String "0" (zeros n')
  end.

Fixpoint take (n : nat) (s : string) : string :=
  match n, s with
  | S n', String c rest => String c (take n' rest)
  | _, _ => ""
  end.

Fixpoint drop (n : nat) (s : string) : string :=
  match n, s with
  | S n', String _ rest => drop n' rest
  | _, _ => s
  end.

Definition decimal_of_Z (z : Z) : string :=
  match z with
  | Z0 => "0"
  | Zpos p => decimal_of_pos p
  | Zneg p => ("-" ++ decimal_of_pos p)%string
  end.

Definition NumberToString (a : number) : string :=
  match a with
  | NaN => "NaN"
  | PosInf => "Infinity"
  | NegInf => "-Infinity"
  | Fin m e =>
      if m =? 0 then "0" else
      let sign := if m <? 0 then "-" else "" in
      let '(m', e') := strip_zeros (Z.to_nat (Z.log2 (Z.abs m)) + 1) (Z.abs m) e in
      let s := decimal_of_Z m' in
      let k := str_length s in
      let n := k + e' in
      let body :=
        if (k <=? n) && (n <=? 21) then
          String.concat "" [s; zeros (Z.to_nat (n - k))]
        else if (0 <? n) && (n <=? 21) then
          String.concat "" [take (Z.to_nat n) s; "."; drop (Z.to_nat n) s]
        else if (-6 <? n) && (n <=? 0) then
          String.concat "" ["0."; zeros (Z.to_nat (- n)); s]
        else
          let x := n - 1 in
          let exponent :=
            String.concat "" [if x <? 0 then "e-" else "e+"; decimal_of_Z (Z.abs x)] in
          if k =? 1 then String.concat "" [s; exponent]
          else String.concat "" [take 1 s; "."; drop 1 s; exponent] in
      String.concat "" [sign; body]
  end.

(** [StringToNumber]: the StringNumericLiteral grammar. *)
Fixpoint span_while (p : ascii -> bool) (s : string) : string * string :=
  match s with
  | String c rest =>
      if p c then let '(a, b) := span_while p rest in (String c a, b)
      else ("", s)
  | EmptyString => ("", "")
  end.

Definition digit_value (c : ascii) : Z :=
  let n := code c in
  if (48 <=? n) && (n <=? 57) then n - 48
  else if (97 <=? n) && (n <=? 102) then n - 87
  else if (65 <=? n) && (n <=? 70) then n - 55
  else 0.

Fixpoint digits_value (radix : Z) (s : string) (acc : Z) : Z :=
  match s with
  | String c rest => digits_value radix rest (acc * radix + digit_value c)
  | EmptyString => acc
  end.

Definition is_hex_digit (c : ascii) : bool :=
  is_digit c || in_range "a" "f" c || in_range "A" "F" c.

Definition radix_literal (radix : Z) (digit : ascii -> bool) (s : string) : number :=
  let '(ds, rest) := span_while digit s in
  match ds, rest with
  | String _ _, EmptyString => finite (digits_value radix ds 0) 0
  | _, _ => NaN
  end.

(** [ExponentPart opt] at the end of a decimal literal: the exponent, or
    [None] when the rest is not one. *)
Definition exponent_part (s : string) : option Z :=
  match s with
  | EmptyString => Some 0
  | String c rest =>
      if Ascii.eqb c "e" || Ascii.eqb c "E" then
        let '(negative, rest') :=
          match rest with
          | String "+" r => (false, r)
          | String "-" r => (true, r)
          | _ => (false, rest)
          end in
        let '(ds, tail) := span_while is_digit rest' in
        match ds, tail with
        | String _ _, EmptyString =>
            let x := digits_value 10 ds 0 in
            Some (if negative then - x else x)
        | _, _ => None
        end
      else None
  end.

Definition unsigned_decimal (s : string) : number :=
  if String.eqb s "Infinity" then PosInf else
  let '(int_part, rest) := span_while is_digit s in
  let '(frac_part, rest') :=
    match rest with
    | String "." r => span_while is_digit r
    | _ => ("", rest)
    end in
  match int_part, frac_part with
  | EmptyString, EmptyString => NaN
  | _, _ =>
      match exponent_part rest' with
      | Some x =>
          finite (digits_value 10 (int_part ++ frac_part) 0)
                 (x - str_length frac_part)
      | None => NaN
      end
  end.

Definition StringToNumber (text : string) : number :=
  let s := trim text in
  match s with
  | EmptyString => Fin 0 0
  | String "0" (String "x" r) | String "0" (String "X" r) =>
      radix_literal 16 is_hex_digit r
  | String "0" (String "o" r) | String "0" (String "O" r) =>
      radix_literal 8 (in_range "0" "7") r
  | String "0" (String "b" r) | String "0" (String "B" r) =>
      radix_literal 2 (in_range "0" "1") r
  | String "+" r => unsigned_decimal r
  | String "-" r => neg (unsigned_decimal r)
  | _ => unsigned_decimal s
  end.

(** ** Values

    The values that reach the sanitizers: what [JSON.parse], the storage
    area and form fields deliver, and the objects without prototype the
    sanitizer builds itself.  The own properties of an object are listed in
    enumeration order. *)

Inductive proto : Type := ObjectPrototype | NullPrototype.

Inductive value : Type :=
| VUndefined
| VNull
| VBool (b : bool)
| VNumber (n : number)
| VString (s : string)
| VArray (items : list value)
| VObject (p : proto) (props : list (string * value)).

Definition num (z : Z) : value := VNumber (of_Z z).

(** An object literal [{...}] *)
Definition obj (props : list (string * value)) : value :=
  VObject ObjectPrototype props.

Definition typeof (v : value) : string :=
  match v with
  | VUndefined => "undefined"
  | VBool _ => "boolean"
  | VNumber _ => "number"
  | VString _ => "string"
  | VNull | VArray _ | VObject _ _ => "object"
  end.

(** [ToBoolean]: [Boolean(v)], [!!v], [if (v)] *)
Definition truthy (v : value) : bool :=
  match v with
  | VUndefined | VNull => false
  | VBool b => b
  | VNumber n => negb (is_nan n || is_zero n)
  | VString s => negb (String.eqb s "")
  | VArray _ | VObject _ _ => true
  end.

Definition is_undefined (v : value) : bool :=
  match v with VUndefined => true | _ => false end.

Definition is_null (v : value) : bool :=
  match v with VNull => true | _ => false end.

Definition is_object (v : value) : bool := String.eqb (typeof v) "object".

Definition Array_isArray (v : value) : bool :=
  match v with VArray _ => true | _ => false end.

(** [v === s] for a string [s] *)
Definition is_string (s : string) (v : value) : bool :=
  match v with VString s' => String.eqb s' s | _ => false end.

(** [v === b] for a boolean [b] *)
Definition is_bool (b : bool) (v : value) : bool :=
  match v with VBool b' => Bool.eqb b' b | _ => false end.

Fixpoint lookup {A : Type} (k : string) (props : list (string * A)) : option A :=
  match props with
  | [] => None
  | (k', v) :: rest => if String.eqb k' k then Some v else lookup k rest
  end.

Definition has_own (k : string) (props : list (string * value)) : bool :=
  match lookup k props with Some _ => true | None => false end.

(** [o[k] = v]: an existing property keeps its place, a new one goes last. *)
Fixpoint set {A : Type} (k : string) (v : A) (props : list (string * A))
  : list (string * A) :=
  match props with
  | [] => [(k, v)]
  | (k', v') :: rest =>
      if String.eqb k' k then (k', v) :: rest else (k', v') :: set k v rest
  end.

Definition keys {A : Type} (props : list (string * A)) : list string :=
  map fst props.

(** The elements of an array, or the characters of a string, under their
    indices *)
Definition indexed {A : Type} (items : list A) : list (string * A) :=
  combine (map decimal_of_nat (seq 0 (List.length items))) items.

Definition chars (s : string) : list value :=
  map (fun c => VString (String c "")) (list_ascii_of_string s).

(** [v.k] and [v[k]] for a [v] that is neither [undefined] nor [null].  The
    members inherited from [Object.prototype] are functions and accessors,
    not values of this model.  They are accounted for where the code calls
    one ([call_hasOwnProperty]) and where it may find one under a computed
    key (the palette lookup of the content script); found under a host name
    in the override map, they contribute no setting. *)
Definition get (v : value) (k : string) : value :=
  match v with
  | VObject _ props =>
      match lookup k props with Some x => x | None => VUndefined end
  | VArray items =>
      if String.eqb k "length" then num (Z.of_nat (List.length items))
      else match lookup k (indexed items) with
           | Some x => x
           | None => VUndefined
           end
  | VString s =>
      if String.eqb k "length" then num (str_length s)
      else match lookup k (indexed (chars s)) with
           | Some x => x
           | None => VUndefined
           end
  | _ => VUndefined
  end.

(** [v?.k] *)
Definition get_opt (v : value) (k : string) : value :=
  match v with
  | VUndefined | VNull => VUndefined
  | _ => get v k
  end.

(** [v.k] in general: reading a member of [undefined] or [null] raises. *)
Definition member (v : value) (k : string) : result value :=
  match v with
  | VUndefined | VNull => Throw TypeError
  | _ => Ok (get v k)
  end.

(** The own enumerable properties visited by [for (const key in v)], with
    their values. *)
Definition for_in (v : value) : list (string * value) :=
  match v with
  | VObject _ props => props
  | VArray items => indexed items
  | VString s => indexed (chars s)
  | _ => []
  end.

(** [v.hasOwnProperty(key)] for a key that [for ... in] delivered.  The
    method is found on [Object.prototype]; an own property of that name
    shadows it with something that cannot be called, and an object without
    prototype has no such member at all. *)
Definition call_hasOwnProperty (v : value) (key : string) : result bool :=
  match v with
  | VObject p props =>
      if has_own "hasOwnProperty" props then Throw TypeError
      else match p with
           | ObjectPrototype => Ok (has_own key props)
           | NullPrototype => Throw TypeError
           end
  | VUndefined | VNull => Throw TypeError
  | _ => Ok true
  end.

(** [ToPrimitive] then [ToString].  No property of a value of this model is
    callable, so an own [toString] hides the inherited method and the
    conversion of the object raises; so does the conversion of an object
    without prototype. *)
Fixpoint ToString (v : value) : result string :=
  match v with
  | VUndefined => Ok "undefined"
  | VNull => Ok "null"
  | VBool true => Ok "true"
  | VBool false => Ok "false"
  | VNumber n => Ok (NumberToString n)
  | VString s => Ok s
  | VArray items =>
      bind ((fix elements (l : list value) : result (list string) :=
               match l with
               | [] => Ok []
               | x :: rest =>
                   bind (match x with
                         | VUndefined | VNull => Ok ""
                         | _ => ToString x
                         end)
                        (fun s => bind (elements rest) (fun ss => Ok (s :: ss)))
               end) items)
           (fun ss => Ok (join "," ss))
  | VObject ObjectPrototype props =>
      if has_own "toString" props then Throw TypeError
      else Ok "[object Object]"
  | VObject NullPrototype _ => Throw TypeError
  end.

(** [Number(v)] *)
Definition ToNumber (v : value) : result number :=
  match v with
  | VUndefined => Ok NaN
  | VNull => Ok (Fin 0 0)
  | VBool true => Ok (Fin 1 0)
  | VBool false => Ok (Fin 0 0)
  | VNumber n => Ok n
  | VString s => Ok (StringToNumber s)
  | VArray _ | VObject _ _ => bind (ToString v) (fun s => Ok (StringToNumber s))
  end.

(** ** JSON text

    [JSON.stringify(v)]; [None] is the [undefined] it returns for
    [undefined] itself. *)

Definition hex_digit (n : Z) : ascii :=
  if n <? 10 then ascii_of_N (Z.to_N (48 + n)) else ascii_of_N (Z.to_N (87 + n)).

Definition dquote : ascii := ascii_of_N 34.

Definition quote_char (c : ascii) : string :=
  let n := code c in
  if n =? 34 then String "\" (String dquote "")
  else if n =? 92 then "\\"
  else if n =? 8 then "\b"
  else if n =? 9 then "\t"
  else if n =? 10 then "\n"
  else if n =? 12 then "\f"
  else if n =? 13 then "\r"
  else if n <? 32 then
    String.concat "" ["\u00"; String (hex_digit (n / 16)) (String (hex_digit (n mod 16)) "")]
  else String c "".

Definition quote (s : string) : string :=
  String.concat ""
    ([String dquote ""] ++ map quote_char (list_ascii_of_string s)
                        ++ [String dquote ""])%list.

Fixpoint JSON_stringify (v : value) : option string :=
  match v with
  | VUndefined => None
  | VNull => Some "null"
  | VBool true => Some "true"
  | VBool false => Some "false"
  | VNumber n => Some (if isFinite n then NumberToString n else "null")
  | VString s => Some (quote s)
  | VArray items =>
      Some (String.concat ""
              ["["; join "," (map (fun x => match JSON_stringify x with
                                            | Some t => t
                                            | None => "null"
                                            end) items); "]"])
  | VObject _ props =>
      Some (String.concat ""
              ["{";
               join ","
                 ((fix members (l : list (string * value)) : list string :=
                     match l with
                     | [] => []
                     | (k, x) :: rest =>
                         match JSON_stringify x with
                         | Some t => String.concat "" [quote k; ":"; t] :: members rest
                         | None => members rest
                         end
                     end) props);
               "}"])
  end.

(** ** What the platform provides

    [JSON.parse] ([None] when it raises a SyntaxError) and, where
    [crypto.subtle] exists, the SHA-256 digest of the UTF-8 encoding of a
    string, as the sequence of its bytes. *)

Record Host : Type := {
  JSON_parse : string -> option value;
  subtle_digest : option (string -> list Z)
}.

End JS.

Notation "x <- c ;; k" := (JS.bind c (fun x => k))
  (at level 61, c at next level, right associativity).

(* ------------------------------------------------------------------------- *)
(** * validate.js                                                              *)
(* ------------------------------------------------------------------------- *)

Module Validate.
Import JS.

Definition hex : regex :=
  Class (fun c => in_range "0" "9" c || in_range "a" "f" c || in_range "A" "F" c).

(** [/^#([0-9a-fA-F]{3}|[0-9a-fA-F]{6})$/] *)
Definition hexRegex : regex := Cat (chr "#") (Alt (times 3 hex) (times 6 hex)).

Definition sanitizeHexColor (color fallback : value) : value :=
  let fallback := if is_undefined fallback then VString "#000000" else fallback in
  match color with
  | VString c => if test hexRegex c then VString (toLowerCase c) else fallback
  | _ => fallback
  end.

Definition sanitizeColorPalette (palette defaults : value) : result value :=
  d1 <- member defaults "color1" ;;
  d2 <- member defaults "color2" ;;
  d3 <- member defaults "color3" ;;
  d4 <- member defaults "color4" ;;
  Ok (obj [("color1", sanitizeHexColor (get_opt palette "color1") d1);
           ("color2", sanitizeHexColor (get_opt palette "color2") d2);
           ("color3", sanitizeHexColor (get_opt palette "color3") d3);
           ("color4", sanitizeHexColor (get_opt palette "color4") d4)]).

Definition sanitizeNumericRange (value : value) (min max defaultValue : number)
  : result number :=
  if is_null value || is_undefined value || is_string "" value then Ok defaultValue
  else
    num <- ToNumber value ;;
    if isNaN num || negb (isFinite num) then Ok defaultValue
    else Ok (Math_max min (Math_min max num)).

Definition sanitizeFontSize (fontSize : value) : result number :=
  sanitizeNumericRange fontSize (Fin 12 0) (Fin 24 0) (Fin 16 0).

Definition sanitizeLineHeight (lineHeight : value) : result number :=
  sanitizeNumericRange lineHeight (Fin 10 (-1)) (Fin 22 (-1)) (Fin 15 (-1)).

Definition label_char (c : ascii) : bool :=
  in_range "a" "z" c || in_range "A" "Z" c || in_range "0" "9" c || Ascii.eqb c "-".

Definition letter (c : ascii) : bool := in_range "a" "z" c || in_range "A" "Z" c.

(** [/^([a-z0-9-]+\.)*[a-z0-9-]+\.[a-z]{2,}$|^localhost$/i] *)
Definition domainRegex : regex :=
  Alt (Cat (Star (Cat (plus (Class label_char)) (chr ".")))
           (Cat (plus (Class label_char))
                (Cat (chr ".") (at_least 2 (Class letter)))))
      (lit_nocase "localhost").

(** [null] is [None]. *)
Definition sanitizeDomain (domain : value) : option string :=
  match domain with
  | VString d =>
      let domain := toLowerCase (trim d) in
      if String.eqb domain "" then None
      else if 253 <? str_length domain then None
      else if test domainRegex domain then Some domain
      else None
  | _ => None
  end.

Fixpoint drop_nulls (l : list (option string)) : list string :=
  match l with
  | [] => []
  | Some d :: rest => d :: drop_nulls rest
  | None :: rest => drop_nulls rest
  end.

Definition sanitizeDomainList (domains : value) : list string :=
  match domains with
  | VString text =>
      firstn 1000 (drop_nulls (map (fun d => sanitizeDomain (VString d)) (split_lines text)))
  | VArray domainArray =>
      firstn 1000 (drop_nulls (map sanitizeDomain domainArray))
  | _ => []
  end.

Definition two (a b : regex) : regex := Cat a b.

(** [/^([0-1][0-9]|2[0-3]):([0-5][0-9])$/] *)
Definition timeRegex : regex :=
  Cat (Alt (two (Class (in_range "0" "1")) (Class (in_range "0" "9")))
           (two (chr "2") (Class (in_range "0" "3"))))
      (Cat (chr ":") (two (Class (in_range "0" "5")) (Class (in_range "0" "9")))).

Definition sanitizeTimeString (time fallback : value) : value :=
  let fallback := if is_undefined fallback then VString "00:00" else fallback in
  match time with
  | VString t => if test timeRegex t then time else fallback
  | _ => fallback
  end.

Definition validModes : list string :=
  ["none"; "protanopia"; "deuteranopia"; "tritanopia"; "achromatopsia"].

Definition sanitizeColorBlindMode (mode : value) : string :=
  if is_bool true mode then "protanopia"
  else if is_bool false mode then "none"
  else match mode with
       | VString m => if existsb (String.eqb m) validModes then m else "none"
       | _ => "none"
       end.

(** [a || b] *)
Definition or_else (a b : value) : value := if truthy a then a else b.

(** The keys refused as prototype pollution attempts. *)
Definition forbidden_key (key : string) : bool :=
  String.eqb key "__proto__" || String.eqb key "constructor"
  || String.eqb key "prototype".

(** The object stored under one domain: [safe[domain] = Object.create(null)]
    and the assignments of its recognised properties, in their order. *)
Definition override_colors (domainSettings : value) : list (string * value) :=
  let o := [] in
  let o := if truthy (get domainSettings "color1")
           then set "color1" (sanitizeHexColor (get domainSettings "color1") (VString "#00ffff")) o
           else o in
  let o := if truthy (get domainSettings "color2")
           then set "color2" (sanitizeHexColor (get domainSettings "color2") (VString "#00ff00")) o
           else o in
  let o := if truthy (get domainSettings "color3")
           then set "color3" (sanitizeHexColor (get domainSettings "color3") (VString "#ff00ff")) o
           else o in
  let o := if truthy (get domainSettings "color4")
           then set "color4" (sanitizeHexColor (get domainSettings "color4") (VString "#ff0000")) o
           else o in
  o.

Definition override_flags (domainSettings : value) (o : list (string * value))
  : list (string * value) :=
  let o := if negb (is_undefined (get domainSettings "textShadow"))
           then set "textShadow" (VBool (truthy (get domainSettings "textShadow"))) o
           else o in
  let o := if negb (is_undefined (get domainSettings "highContrast"))
           then set "highContrast" (VBool (truthy (get domainSettings "highContrast"))) o
           else o in
  let o := if negb (is_undefined (get domainSettings "focusOutline"))
           then set "focusOutline" (VBool (truthy (get domainSettings "focusOutline"))) o
           else o in
  let o := if negb (is_undefined (get domainSettings "reducedMotion"))
           then set "reducedMotion" (VBool (truthy (get domainSettings "reducedMotion"))) o
           else o in
  o.

Definition override_of (domainSettings : value) : result (list (string * value)) :=
  let o := override_flags domainSettings (override_colors domainSettings) in
  o <- (if truthy (get domainSettings "fontSize")
        then n <- sanitizeFontSize (get domainSettings "fontSize") ;;
             Ok (set "fontSize" (VNumber n) o)
        else Ok o) ;;
  o <- (if truthy (get domainSettings "lineHeight")
        then n <- sanitizeLineHeight (get domainSettings "lineHeight") ;;
             Ok (set "lineHeight" (VNumber n) o)
        else Ok o) ;;
  Ok (if truthy (get domainSettings "colorBlindMode")
      then set "colorBlindMode"
               (VString (sanitizeColorBlindMode (get domainSettings "colorBlindMode"))) o
      else o).

(** The body of [for (const key in parsed)], over the keys still to visit;
    [safe] is the object under construction. *)
Fixpoint overrides_loop (parsed : value) (pending : list string)
                        (safe : list (string * value))
  : result (list (string * value)) :=
  match pending with
  | [] => Ok safe
  | key :: rest =>
      own <- call_hasOwnProperty parsed key ;;
      if negb own then overrides_loop parsed rest safe
      else if forbidden_key key then overrides_loop parsed rest safe
      else match sanitizeDomain (VString key) with
           | None => overrides_loop parsed rest safe
           | Some domain =>
               let domainSettings := get parsed key in
               if negb (is_object domainSettings) || is_null domainSettings
               then overrides_loop parsed rest safe
               else
                 o <- override_of domainSettings ;;
                 overrides_loop parsed rest (set domain (VObject NullPrototype o) safe)
           end
  end.

(** [domains.slice(0, 100).forEach(d => { limited[d] = safe[d]; })] *)
Definition limit (safe : list (string * value)) : list (string * value) :=
  fold_left (fun limited d => set d (get (VObject NullPrototype safe) d) limited)
            (firstn 100 (keys safe)) [].

Definition sanitize_parsed (parsed : value) : result value :=
  safe <- overrides_loop parsed (keys (for_in parsed)) [] ;;
  let domains := keys safe in
  if (100 <? Z.of_nat (List.length domains))
  then Ok (VObject NullPrototype (limit safe))
  else Ok (VObject NullPrototype safe).

Definition sanitizePerSiteOverrides (host : Host) (overrides : value) : result value :=
  match overrides with
  | VString text =>
      match JSON_parse host text with
      | Some parsed => sanitize_parsed parsed
      | None => Ok (VObject NullPrototype [])
      end
  | _ =>
      if is_object overrides && negb (is_null overrides)
      then sanitize_parsed overrides
      else Ok (VObject NullPrototype [])
  end.

(** [Object.assign(target, source)] for one source.  An assignment to
    [__proto__] adds no property (it reaches the accessor of
    [Object.prototype]); the prototype it may install is not modelled. *)
Definition Object_assign (target : list (string * value)) (source : value)
  : list (string * value) :=
  fold_left (fun t '(k, v) => if String.eqb k "__proto__" then t else set k v t)
            (for_in source) target.

Definition strings (l : list string) : value := VArray (map VString l).

Definition validateSettingsObject (host : Host) (settings defaults : value)
  : result value :=
  if negb (truthy settings) || negb (is_object settings)
  then Ok (obj (Object_assign [] defaults))
  else
    d1 <- member defaults "color1" ;;
    d2 <- member defaults "color2" ;;
    d3 <- member defaults "color3" ;;
    d4 <- member defaults "color4" ;;
    fontSize <- sanitizeFontSize (get settings "fontSize") ;;
    lineHeight <- sanitizeLineHeight (get settings "lineHeight") ;;
    perSiteOverrides <-
      sanitizePerSiteOverrides host (or_else (get settings "perSiteOverrides") (obj [])) ;;
    let validated :=
      [("color1", sanitizeHexColor (get settings "color1") d1);
       ("color2", sanitizeHexColor (get settings "color2") d2);
       ("color3", sanitizeHexColor (get settings "color3") d3);
       ("color4", sanitizeHexColor (get settings "color4") d4);
       ("textShadow", VBool (truthy (get settings "textShadow")));
       ("highContrast", VBool (truthy (get settings "highContrast")));
       ("focusOutline", VBool (truthy (get settings "focusOutline")));
       ("reducedMotion", VBool (truthy (get settings "reducedMotion")));
       ("fontSize", VNumber fontSize);
       ("lineHeight", VNumber lineHeight);
       ("colorBlindMode", VString (sanitizeColorBlindMode (get settings "colorBlindMode")));
       ("blacklist", strings (sanitizeDomainList (or_else (get settings "blacklist") (VArray []))));
       ("perSiteOverrides", perSiteOverrides);
       ("debugMode", VBool (truthy (get settings "debugMode")))] in
    let schedule := get settings "schedule" in
    if truthy schedule && is_object schedule then
      Ok (obj (set "schedule"
                 (obj [("enabled", VBool (truthy (get schedule "enabled")));
                       ("start", sanitizeTimeString (get schedule "start") (VString "20:00"));
                       ("end", sanitizeTimeString (get schedule "end") (VString "06:00"))])
                 validated))
    else
      Ok (obj (set "schedule"
                 (or_else (get defaults "schedule")
                    (obj [("enabled", VBool false);
                          ("start", VString "20:00");
                          ("end", VString "06:00")]))
                 validated)).

(** ** Integrity of exported settings *)

(** [ToInt32] *)
Definition toInt32 (z : Z) : Z := (z + 2 ^ 31) mod 2 ^ 32 - 2 ^ 31.

(** The fallback checksum: [hash = ((hash << 5) - hash) + char; hash = hash & hash]. *)
Fixpoint rolling (str : string) (hash : Z) : Z :=
  match str with
  | EmptyString => hash
  | String c rest =>
      let char := code c in
      let hash := (toInt32 (Z.shiftl (toInt32 hash) 5) - hash) + char in
      let hash := toInt32 (Z.land (toInt32 hash) (toInt32 hash)) in
      rolling rest hash
  end.

(** [n.toString(16)] for an integer *)
Definition hex_of_Z (z : Z) : string :=
  match z with
  | Z0 => "0"
  | Zpos p => hex_of_pos p
  | Zneg p => String "-" (hex_of_pos p)
  end.

(** [b.toString(16).padStart(2, '0')] *)
Definition hex_byte (b : Z) : string :=
  let t := hex_of_Z b in
  if str_length t <? 2 then String "0" t else t.

Definition calculateChecksum (host : Host) (data : value) : result string :=
  let str := JSON_stringify data in
  match subtle_digest host with
  | Some digest =>
      (* [encoder.encode(undefined)] is the empty sequence *)
      let hashArray := digest (match str with Some t => t | None => "" end) in
      Ok (String.concat "" (map hex_byte hashArray))
  | None =>
      match str with
      | Some t => Ok (hex_of_Z (rolling t 0))
      | None => Throw TypeError
      end
  end.

Definition signSettings (host : Host) (settings : value) : result value :=
  checksum <- calculateChecksum host settings ;;
  Ok (obj [("version", VString "1.0");
           ("checksum", VString checksum);
           ("data", settings)]).

Definition verifySettings (host : Host) (signedSettings : value) : result value :=
  if negb (truthy signedSettings) || negb (is_object signedSettings) then Ok VNull
  else if negb (truthy (get signedSettings "version"))
          && negb (truthy (get signedSettings "checksum"))
  then Ok signedSettings
  else
    let checksum := get signedSettings "checksum" in
    let data := get signedSettings "data" in
    if negb (truthy data) then Ok VNull
    else
      calculatedChecksum <- calculateChecksum host data ;;
      if is_string calculatedChecksum checksum then Ok data
      else Ok VNull.

End Validate.

(* ------------------------------------------------------------------------- *)
(** * config.js                                                                *)
(* ------------------------------------------------------------------------- *)

Module Config.
Import JS.

Definition DEFAULT_SETTINGS : value :=
  obj [("color1", VString "#00ffff");
       ("color2", VString "#00ff00");
       ("color3", VString "#ff00ff");
       ("color4", VString "#ff0000");
       ("textShadow", VBool true);
       ("highContrast", VBool true);
       ("focusOutline", VBool true);
       ("reducedMotion", VBool false);
       ("fontSize", num 16);
       ("lineHeight", VNumber (Fin 15 (-1)));
       ("colorBlindMode", VString "none");
       ("blacklist", VArray []);
       ("perSiteOverrides", obj []);
       ("enabled", VBool true);
       ("schedule", obj [("enabled", VBool false);
                         ("start", VString "20:00");
                         ("end", VString "06:00")]);
       ("resourceMonitorEnabled", VBool true);
       ("debugMode", VBool false)].

Definition PROBLEMATIC_SITES : list string :=
  ["docs.google.com"; "sheets.google.com"; "slides.google.com";
   "figma.com"; "chrome.google.com"].

Definition palette (c1 c2 c3 c4 : string) : value :=
  obj [("color1", VString c1); ("color2", VString c2);
       ("color3", VString c3); ("color4", VString c4)].

Definition COLORBLIND_PALETTES : value :=
  obj [("protanopia", palette "#0072ce" "#f0e442" "#56b4e9" "#e69f00");
       ("deuteranopia", palette "#0072ce" "#f0e442" "#56b4e9" "#d55e00");
       ("tritanopia", palette "#d55e00" "#009e73" "#f0e442" "#cc79a7");
       ("achromatopsia", palette "#ffffff" "#aaaaaa" "#888888" "#444444")].

(** Exact host or subdomain of the pattern *)
Definition hostMatches (hostname pattern : value) : result bool :=
  if negb (truthy hostname) || negb (truthy pattern) then Ok false
  else
    h <- ToString hostname ;;
    p <- ToString pattern ;;
    let h := toLowerCase h in
    let p := toLowerCase p in
    Ok (String.eqb h p || endsWith h (String "." p)).

(** [Array.prototype.some] with a callback that may raise *)
Fixpoint some {A : Type} (f : A -> result bool) (l : list A) : result bool :=
  match l with
  | [] => Ok false
  | x :: rest => b <- f x ;; if b then Ok true else some f rest
  end.

(** The whole body stands in a [try]; a raise answers [false]. *)
Definition isBlacklisted (domain blacklist : value) : bool :=
  match
    (listed <- match blacklist with
               | VArray items => some (hostMatches domain) items
               | _ => Ok false
               end ;;
     if listed then Ok true
     else some (fun d => hostMatches domain (VString d)) PROBLEMATIC_SITES)
  with
  | Ok b => b
  | Throw _ => false
  end.

(** The members of the global [CyberdarkConfig] that the content script
    uses; the palettes are [undefined] where a configuration has none. *)
Record t : Type := {
  default_settings : value;
  is_blacklisted : value -> value -> result bool;
  colorblind_palettes : value
}.

Definition CyberdarkConfig : t :=
  {| default_settings := DEFAULT_SETTINGS;
     is_blacklisted := fun d b => Ok (isBlacklisted d b);
     colorblind_palettes := COLORBLIND_PALETTES |}.

End Config.

(* ------------------------------------------------------------------------- *)
(** * The document                                                             *)
(* ------------------------------------------------------------------------- *)

Module Dom.

Inductive element : Type :=
| Element (tagName : string) (attributes : list (string * string))
          (textContent : string) (childNodes : list element).

Definition tagName (e : element) : string :=
  match e with Element t _ _ _ => t end.

Definition attributes (e : element) : list (string * string) :=
  match e with Element _ a _ _ => a end.

Definition childNodes (e : element) : list element :=
  match e with Element _ _ _ c => c end.

Definition getAttribute (e : element) (name : string) : option string :=
  JS.lookup name (attributes e).

(** Induction over a tree, with the property known for the children *)
Fixpoint element_induction (P : element -> Prop)
  (step : forall t a x kids, Forall P kids -> P (Element t a x kids))
  (e : element) : P e :=
  match e with
  | Element t a x kids =>
      step t a x kids
        ((fix all (l : list element) : Forall P l :=
            match l with
            | [] => Forall_nil P
            | k :: rest => Forall_cons k (element_induction P step k) (all rest)
            end) kids)
  end.

(** A selector that looks at the tag and the attributes only *)
Definition shallow (sel : element -> bool) : Prop :=
  forall t a x kids x' kids',
    sel (Element t a x kids) = sel (Element t a x' kids').

(** A document is its root element, if it has one. *)
Record document : Type := { documentElement : option element }.

Definition is_head (e : element) : bool := String.eqb (tagName e) "head".

(** [document.head]: the first [head] child of an [html] root *)
Definition head (d : document) : option element :=
  match documentElement d with
  | Some root =>
      if String.eqb (tagName root) "html"
      then find is_head (childNodes root)
      else None
  | None => None
  end.

(** [document.body]: the first [body] or [frameset] child of an [html] root *)
Definition body (d : document) : option element :=
  match documentElement d with
  | Some root =>
      if String.eqb (tagName root) "html"
      then find (fun e => String.eqb (tagName e) "body"
                          || String.eqb (tagName e) "frameset") (childNodes root)
      else None
  | None => None
  end.

(** The elements of a forest that satisfy a selector, at any depth *)
Fixpoint count_in (sel : element -> bool) (e : element) : nat :=
  match e with
  | Element _ _ _ kids =>
      ((if sel e then 1 else 0)
       + (fix forest (l : list element) : nat :=
            match l with
            | [] => 0
            | k :: rest => count_in sel k + forest rest
            end) kids)%nat
  end.

Definition count (sel : element -> bool) (forest : list element) : nat :=
  fold_right (fun k n => (count_in sel k + n)%nat) 0%nat forest.

(** [node.querySelector]: the first match among the descendants, in
    document order *)
Fixpoint first_in (sel : element -> bool) (e : element) : option element :=
  if sel e then Some e
  else match e with
       | Element _ _ _ kids =>
           (fix forest (l : list element) : option element :=
              match l with
              | [] => None
              | k :: rest =>
                  match first_in sel k with
                  | Some x => Some x
                  | None => forest rest
                  end
              end) kids
       end.

Fixpoint querySelector (sel : element -> bool) (forest : list element)
  : option element :=
  match forest with
  | [] => None
  | k :: rest =>
      match first_in sel k with
      | Some x => Some x
      | None => querySelector sel rest
      end
  end.

(** [node.querySelector(sel).remove()]: the forest without its first match
    and what hangs below it *)
Fixpoint remove_in (sel : element -> bool) (e : element) : option element :=
  match e with
  | Element t a x kids =>
      match
        (fix forest (l : list element) : option (list element) :=
           match l with
           | [] => None
           | k :: rest =>
               if sel k then Some rest
               else match remove_in sel k with
                    | Some k' => Some (k' :: rest)
                    | None =>
                        match forest rest with
                        | Some rest' => Some (k :: rest')
                        | None => None
                        end
                    end
           end) kids
      with
      | Some kids' => Some (Element t a x kids')
      | None => None
      end
  end.

Fixpoint remove_first (sel : element -> bool) (forest : list element)
  : option (list element) :=
  match forest with
  | [] => None
  | k :: rest =>
      if sel k then Some rest
      else match remove_in sel k with
           | Some k' => Some (k' :: rest)
           | None =>
               match remove_first sel rest with
               | Some rest' => Some (k :: rest')
               | None => None
               end
           end
  end.

(** The forest after [const x = node.querySelector(sel); if (x) x.remove();] *)
Definition without_first (sel : element -> bool) (forest : list element)
  : list element :=
  match remove_first sel forest with
  | Some forest' => forest'
  | None => forest
  end.

(** Replace the first child that satisfies [p]. *)
Fixpoint replace_first (p : element -> bool) (e' : element) (l : list element)
  : list element :=
  match l with
  | [] => []
  | k :: rest => if p k then e' :: rest else k :: replace_first p e' rest
  end.

(** [document.head || document.documentElement], with the document as a
    function of the children given to that element *)
Definition target (d : document)
  : option (list element * (list element -> document)) :=
  match documentElement d with
  | None => None
  | Some (Element t a x kids as root) =>
      match head d with
      | Some (Element ht ha hx hkids) =>
          Some (hkids,
                fun hkids' =>
                  {| documentElement :=
                       Some (Element t a x
                               (replace_first is_head
                                  (Element ht ha hx hkids') kids)) |})
      | None =>
          Some (kids, fun kids' => {| documentElement := Some (Element t a x kids') |})
      end
  end.

(** Every element of the document that satisfies a selector *)
Definition count_all (sel : element -> bool) (d : document) : nat :=
  match documentElement d with
  | Some root => count_in sel root
  | None => 0%nat
  end.

End Dom.

(* ------------------------------------------------------------------------- *)
(** * content.js                                                               *)
(* ------------------------------------------------------------------------- *)

Module Content.
Import JS.

(** What the page context holds when the script runs: the platform, whether
    the globals [CyberdarkConfig] and [CyberdarkValidate] are defined, and
    [window.location.hostname]. *)
Record Globals : Type := {
  host : Host;
  CyberdarkConfig_defined : bool;
  CyberdarkValidate_defined : bool;
  hostname : string
}.

(** The configuration used when [CyberdarkConfig] is not defined:
    [isBlacklisted: (d, b) => b.some(x => d.includes(x))]. *)
Definition fallback_config : Config.t :=
  {| Config.default_settings :=
       obj [("color1", VString "#00ffff");
            ("color2", VString "#00ff00");
            ("color3", VString "#ff00ff");
            ("color4", VString "#ff0000");
            ("textShadow", VBool true);
            ("highContrast", VBool true);
            ("focusOutline", VBool true);
            ("reducedMotion", VBool false);
            ("fontSize", num 16);
            ("lineHeight", VNumber (Fin 15 (-1)));
            ("colorBlindMode", VBool false);
            ("blacklist", VArray []);
            ("perSiteOverrides", obj []);
            ("enabled", VBool true)];
     Config.is_blacklisted :=
       fun d b =>
         match d, b with
         | VString d, VArray items =>
             Config.some (fun x => t <- ToString x ;; Ok (includes d t)) items
         | _, _ => Throw TypeError
         end;
     Config.colorblind_palettes := VUndefined |}.

Definition config (g : Globals) : Config.t :=
  if CyberdarkConfig_defined g then Config.CyberdarkConfig else fallback_config.

Definition cyberdarkDefaults (g : Globals) : value :=
  Config.default_settings (config g).

(** The names every ordinary object answers to through [Object.prototype];
    what is found there is truthy and has no colour of its own. *)
Definition object_prototype_members : list string :=
  ["constructor"; "__proto__"; "hasOwnProperty"; "isPrototypeOf";
   "propertyIsEnumerable"; "toLocaleString"; "toString"; "valueOf";
   "__defineGetter__"; "__defineSetter__"; "__lookupGetter__";
   "__lookupSetter__"].

(** The palette and, from it, the four colours of the style sheet
    (the opening lines of [applyCyberdarkStyles]) *)
Definition palette_of (g : Globals) (settings : value) : result value :=
  colorBlindMode <- member settings "colorBlindMode" ;;
  let palette := obj [("color1", get settings "color1");
                      ("color2", get settings "color2");
                      ("color3", get settings "color3");
                      ("color4", get settings "color4")] in
  let mode := if is_bool true colorBlindMode then VString "protanopia"
              else colorBlindMode in
  palette <-
    (if truthy mode && negb (is_string "none" mode)
        && truthy (Config.colorblind_palettes (config g))
     then
       key <- ToString mode ;;
       let found := get (Config.colorblind_palettes (config g)) key in
       if truthy found then Ok found
       else if existsb (String.eqb key) object_prototype_members then Ok (obj [])
       else Ok palette
     else Ok palette) ;;
  if CyberdarkValidate_defined g
  then Validate.sanitizeColorPalette palette (cyberdarkDefaults g)
  else Ok palette.

(** The text of the main style sheet: its fixed rules are left out, the
    places where it depends on the settings are kept, in their order. *)
Definition main_css (settings palette : value) : result string :=
  neon1 <- ToString (get palette "color1") ;;
  neon2 <- ToString (get palette "color2") ;;
  neon3 <- ToString (get palette "color3") ;;
  neon4 <- ToString (get palette "color4") ;;
  Ok (String.concat ""
        [":focus {";
         (if truthy (get settings "focusOutline")
          then "outline: 2px solid var(--link-color) !important; outline-offset: 2px;"
          else "");
         "} :root { --neon-color-1: "; neon1;
         "; --neon-color-2: "; neon2;
         "; --neon-color-3: "; neon3;
         "; --neon-color-4: "; neon4; "; } ";
         (if truthy (get settings "reducedMotion")
          then "* { animation: none !important; transition: none !important; }"
          else "")]).

(** [style[data-cyberdark="main"]] *)
Definition main_selector (e : Dom.element) : bool :=
  String.eqb (Dom.tagName e) "style"
  && match Dom.getAttribute e "data-cyberdark" with
     | Some v => String.eqb v "main"
     | None => false
     end.

(** [style[data-cyberdark-structural]] *)
Definition structural_selector (e : Dom.element) : bool :=
  String.eqb (Dom.tagName e) "style"
  && match Dom.getAttribute e "data-cyberdark-structural" with
     | Some _ => true
     | None => false
     end.

Definition main_style (css : string) : Dom.element :=
  Dom.Element "style"
    [("data-cyberdark", "main");
     ("aria-label", "Cyberdark enforced dark mode and accessibility styles");
     ("role", "presentation")]
    css [].

(** The body of the function stands in a [try]: a raise leaves the document
    as it is at that point. *)
Definition applyCyberdarkStyles (g : Globals) (settings : value) (d : Dom.document)
  : Dom.document :=
  match palette_of g settings with
  | Throw _ => d
  | Ok palette =>
      match Dom.target d with
      | None => d
      | Some (kids, rebuild) =>
          let kids := Dom.without_first main_selector kids in
          match main_css settings palette with
          | Throw _ => rebuild kids
          | Ok css =>
              match Dom.querySelector main_selector kids with
              | Some _ => rebuild kids
              | None => rebuild (kids ++ [main_style css])%list
              end
          end
      end
  end.

Definition structural_style : Dom.element :=
  Dom.Element "style" [("data-cyberdark-structural", "true")] "" [].

Definition injectStructuralDarkCSS (d : Dom.document) : Dom.document :=
  match Dom.target d with
  | None => d
  | Some (kids, rebuild) =>
      match Dom.querySelector structural_selector kids with
      | Some _ => d
      | None => rebuild (kids ++ [structural_style])%list
      end
  end.

(** The page as the controller sees it.  Of what the controller injects the
    model keeps the style elements of the injection target and the two
    observers; frames, shadow roots, inline overrides and the emergency
    sheet are left out. *)
Record Page : Type := {
  document : Dom.document;
  structuralObserver : bool;
  mediaObserver : bool
}.

Definition removeCyberdarkStyles (p : Page) : Page :=
  match Dom.target (document p) with
  | None => p
  | Some (kids, rebuild) =>
      let kids := Dom.without_first main_selector kids in
      let kids := Dom.without_first structural_selector kids in
      {| document := rebuild kids;
         structuralObserver := false;
         mediaObserver := mediaObserver p |}
  end.

(** The answer of [chrome.storage.sync.get(['cyberdarkEnabled',
    'cyberdarkSettings'], ...)] *)
Record Stored : Type := {
  cyberdarkEnabled : value;
  cyberdarkSettings : value
}.

(** [now.getHours()] and [now.getMinutes()] *)
Record Clock : Type := { hours : Z; minutes : Z }.

(** The first lines of both callbacks: [enabled], [finalSettings] and
    [blacklisted]. *)
Definition resolve (g : Globals) (res : Stored) : result (bool * value * bool) :=
  let enabled := is_bool true (cyberdarkEnabled res) in
  let settings :=
    obj (Validate.Object_assign
           (Validate.Object_assign [] (cyberdarkDefaults g))
           (Validate.or_else (cyberdarkSettings res) (obj []))) in
  let domain := hostname g in
  let perSite := get settings "perSiteOverrides" in
  let overrides :=
    Validate.or_else (if truthy perSite then get perSite domain else perSite) (obj []) in
  let finalSettings :=
    obj (Validate.Object_assign (Validate.Object_assign [] settings) overrides) in
  blacklisted <-
    Config.is_blacklisted (config g) (VString domain) (get finalSettings "blacklist") ;;
  Ok (enabled, finalSettings, blacklisted).

(** [const [h, m] = text.split(':').map(Number); h * 60 + m] *)
Definition minutes_of (text : value) : result number :=
  match text with
  | VString t =>
      let parts := map StringToNumber (split ":" t) in
      Ok (add (mul (nth 0 parts NaN) (of_Z 60)) (nth 1 parts NaN))
  | _ => Throw TypeError
  end.

(** The scheduling check of the load callback *)
Definition scheduled (finalSettings : value) (now : Clock) : result bool :=
  let currentTime := add (mul (of_Z (hours now)) (of_Z 60)) (of_Z (minutes now)) in
  schedule_start <- member (get finalSettings "schedule") "start" ;;
  startTime <- minutes_of schedule_start ;;
  endTime <- minutes_of (get (get finalSettings "schedule") "end") ;;
  if lt startTime endTime
  then Ok (ge currentTime startTime && lt currentTime endTime)
  else Ok (ge currentTime startTime || lt currentTime endTime).

(** [shouldApply] as the callback of the initial load computes it *)
Definition shouldApply_onLoad (g : Globals) (now : Clock) (res : Stored)
  : result (bool * value) :=
  r <- resolve g res ;;
  let '(enabled, finalSettings, blacklisted) := r in
  let shouldApply := enabled && negb blacklisted in
  if shouldApply && truthy (get finalSettings "schedule")
     && truthy (get (get finalSettings "schedule") "enabled")
  then
    shouldApply <- scheduled finalSettings now ;;
    Ok (shouldApply, finalSettings)
  else Ok (shouldApply, finalSettings).

(** The condition of the storage listener: [enabled && !blacklisted] *)
Definition shouldApply_onChanged (g : Globals) (res : Stored)
  : result (bool * value) :=
  r <- resolve g res ;;
  let '(enabled, finalSettings, blacklisted) := r in
  Ok (enabled && negb blacklisted, finalSettings).

Definition has_body (d : Dom.document) : bool :=
  match Dom.body d with Some _ => true | None => false end.

Definition disabled (p : Page) : Page :=
  let p := removeCyberdarkStyles p in
  {| document := document p;
     structuralObserver := structuralObserver p;
     mediaObserver := false |}.

(** The callback of the initial load.  A raise inside it ends the callback
    and leaves the page as it was. *)
Definition onLoad (g : Globals) (now : Clock) (res : Stored) (p : Page)
  : result Page :=
  r <- shouldApply_onLoad g now res ;;
  let '(shouldApply, finalSettings) := r in
  if shouldApply then
    let d := applyCyberdarkStyles g finalSettings (document p) in
    let d := injectStructuralDarkCSS d in
    Ok {| document := d;
          structuralObserver := true;
          mediaObserver := mediaObserver p || has_body d |}
  else Ok (disabled p).

(** The callback of a change of [cyberdarkSettings] or [cyberdarkEnabled]
    in the [sync] area *)
Definition onChanged (g : Globals) (res : Stored) (p : Page) : result Page :=
  r <- shouldApply_onChanged g res ;;
  let '(shouldApply, finalSettings) := r in
  if shouldApply then
    let d := applyCyberdarkStyles g finalSettings (document p) in
    let d := injectStructuralDarkCSS d in
    Ok {| document := d;
          structuralObserver := true;
          mediaObserver := mediaObserver p |}
  else Ok (disabled p).

End Content.

(* ------------------------------------------------------------------------- *)
(** * Concrete inputs                                                          *)
(* ------------------------------------------------------------------------- *)

Module Samples.
Import JS.

(** A platform without [crypto.subtle] whose [JSON.parse] knows one text. *)
Definition parses_as (text : string) (v : value) : Host :=
  {| JSON_parse := fun t => if String.eqb t text then Some v else None;
     subtle_digest := None |}.

Definition plain_host : Host := parses_as "{}" (obj []).

(** A page of [example.com] with both globals defined *)
Definition globals (h : Host) : Content.Globals :=
  {| Content.host := h;
     Content.CyberdarkConfig_defined := true;
     Content.CyberdarkValidate_defined := true;
     Content.hostname := "example.com" |}.

(** Settings as the options page hands them over: one per-site override *)
Definition with_override : value :=
  obj [("perSiteOverrides", obj [("example.com", obj [("fontSize", num 18)])])].

(** An envelope whose two signature fields are present and empty *)
Definition blank_signature : value :=
  obj [("version", VString ""); ("checksum", VString ""); ("data", obj [])].

(** The envelope signed for ["Aa"] under the fallback checksum, and the same
    envelope after its data was changed to ["BB"] *)
Definition signed_Aa : value :=
  obj [("version", VString "1.0"); ("checksum", VString "107480");
       ("data", VString "Aa")].

Definition tampered_BB : value :=
  obj [("version", VString "1.0"); ("checksum", VString "107480");
       ("data", VString "BB")].

(** A map that carries the three refused keys next to a real domain *)
Definition polluted : value :=
  obj [("__proto__", obj [("polluted", VBool true)]);
       ("constructor", obj [("color1", VString "#000")]);
       ("prototype", obj []);
       ("Example.com", obj [("color1", VString "#ABCDEF")])].

Definition polluted_text : string := "the serialized map".

(** An override with falsy values in the fields that are kept when truthy *)
Definition falsy_override : value :=
  obj [("example.com",
        obj [("fontSize", num 0);
             ("colorBlindMode", VBool false);
             ("color1", VString "");
             ("textShadow", VNull);
             ("reducedMotion", VUndefined);
             ("lineHeight", VString "9")])].



Definition schedule (start finish : string) : value :=
  obj [("enabled", VBool true); ("start", VString start); ("end", VString finish)].

Definition stored (start finish : string) : Content.Stored :=
  {| Content.cyberdarkEnabled := VBool true;
     Content.cyberdarkSettings := obj [("schedule", schedule start finish)] |}.


Definition at_time (h m : Z) : Content.Clock :=
  {| Content.hours := h; Content.minutes := m |}.

Definition html (head_children : list Dom.element) : Dom.document :=
  {| Dom.documentElement :=
       Some (Dom.Element "html" []  ""
               [Dom.Element "head" [] "" head_children;
                Dom.Element "body" [] "" []]) |}.

Definition page (d : Dom.document) : Content.Page :=
  {| Content.document := d;
     Content.structuralObserver := false;
     Content.mediaObserver := false |}.

(** A page that brings four elements of its own that answer to the
    selector of the main style sheet *)
Definition four_sheets : Dom.document :=
  html [Content.main_style "a"; Content.main_style "b";
        Content.main_style "c"; Content.main_style "d"].

(** A document whose root element was removed *)
Definition rootless : Dom.document := {| Dom.documentElement := None |}.

(** The page after an earlier application of the styles *)
Definition styled : Dom.document :=
  Content.applyCyberdarkStyles (globals plain_host) Config.DEFAULT_SETTINGS (html []).

End Samples.

(* ------------------------------------------------------------------------- *)
(** * The words of the specification                                           *)
(* ------------------------------------------------------------------------- *)

Module Spec.
Import JS.

(** A number brought into [[min, max]] *)
Definition clamp (min max n : number) : number :=
  if lt min n then (if lt n max then n else max) else min.

(** Neither a number nor a string, hence not numeric under any reading *)
Definition not_numeric (v : value) : bool :=
  match v with
  | VNumber _ | VString _ => false
  | _ => true
  end.

(** An envelope that has the property [k] *)
Definition has_field (k : string) (v : value) : bool :=
  match v with
  | VObject _ props => has_own k props
  | _ => negb (is_undefined (get v k))
  end.

(** The stored checksum is the digest of the stored data. *)
Definition digest_matches (h : Host) (x : value) : bool :=
  match Validate.calculateChecksum h (get x "data") with
  | Ok c => is_string c (get x "checksum")
  | Throw _ => false
  end.

(** Verification in the words of the specification: an envelope that lacks
    both fields passes unchanged, any other yields its data when the
    checksum matches and the failure signal otherwise. *)
Definition verify_as_specified (h : Host) (x : value) : value :=
  if negb (has_field "version" x) && negb (has_field "checksum" x) then x
  else if digest_matches h x then get x "data"
  else VNull.

(** What the code takes for an unsigned envelope: no truthy [version] and
    no truthy [checksum]. *)
Definition legacy (x : value) : bool :=
  negb (truthy (get x "version")) && negb (truthy (get x "checksum")).

(** What the override sanitizer reads its entries from: the object itself,
    or what [JSON.parse] makes of the text. *)
Definition parsed_input (h : Host) (overrides : value) : value :=
  match overrides with
  | VString text =>
      match JSON_parse h text with
      | Some parsed => parsed
      | None => VUndefined
      end
  | _ => overrides
  end.

(** An entry [d : v] of the sanitized map stems from the entry [key] of the
    input. *)
Definition stems_from (parsed : value) (pending : list string)
           (d : string) (v : value) : Prop :=
  exists key o,
    In key pending
    /\ Validate.sanitizeDomain (VString key) = Some d
    /\ Validate.override_of (get parsed key) = Ok o
    /\ v = VObject NullPrototype o.

(** The recognised properties of an override: those kept when truthy and
    the flags kept when defined *)
Definition truthy_fields : list string :=
  ["color1"; "color2"; "color3"; "color4"; "fontSize"; "lineHeight";
   "colorBlindMode"].

Definition flag_fields : list string :=
  ["textShadow"; "highContrast"; "focusOutline"; "reducedMotion"].



(** An input on which no step of the loop raises: its [hasOwnProperty] can
    be called and the numeric properties of its entries can be converted. *)
Definition benign (parsed : value) : bool :=
  forallb (fun key => returns (call_hasOwnProperty parsed key)
                      && returns (Validate.override_of (get parsed key)))
          (keys (for_in parsed)).

(** A regular expression without any match, the characters an expression
    can consume, and an expression whose classes do not tell a letter from
    its lower case *)
Fixpoint void (r : regex) : bool :=
  match r with
  | Void => true
  | Cat a b => void a || void b
  | Alt a b => void a && void b
  | _ => false
  end.

Fixpoint accepts_char (r : regex) (c : ascii) : bool :=
  match r with
  | Class f => f c
  | Cat a b | Alt a b => accepts_char a c || accepts_char b c
  | Star a => accepts_char a c
  | _ => false
  end.

Fixpoint case_blind (r : regex) : Prop :=
  match r with
  | Class f => forall c, f (lower_char c) = f c
  | Cat a b | Alt a b => case_blind a /\ case_blind b
  | Star a => case_blind a
  | _ => True
  end.

(** The validated record by its fields, and the schedule that validation
    puts into it *)
Definition record (c1 c2 c3 c4 ts hc fo rm fs lh cb bl pso dm sch : value) : value :=
  obj [("color1", c1); ("color2", c2); ("color3", c3); ("color4", c4);
       ("textShadow", ts); ("highContrast", hc); ("focusOutline", fo);
       ("reducedMotion", rm); ("fontSize", fs); ("lineHeight", lh);
       ("colorBlindMode", cb); ("blacklist", bl); ("perSiteOverrides", pso);
       ("debugMode", dm); ("schedule", sch)].

Definition sanitized_schedule (settings defaults : value) : value :=
  let schedule := get settings "schedule" in
  if truthy schedule && is_object schedule then
    obj [("enabled", VBool (truthy (get schedule "enabled")));
         ("start", Validate.sanitizeTimeString (get schedule "start") (VString "20:00"));
         ("end", Validate.sanitizeTimeString (get schedule "end") (VString "06:00"))]
  else Validate.or_else (get defaults "schedule")
         (obj [("enabled", VBool false); ("start", VString "20:00"); ("end", VString "06:00")]).

(** The style text of the settings can be produced. *)
Definition renders (g : Content.Globals) (settings : value) : bool :=
  match Content.palette_of g settings with
  | Ok palette => returns (Content.main_css settings palette)
  | Throw _ => false
  end.

(** The document has an injection target, and its main style sheets, at
    most one, all lie under that target. *)
Definition kept_under_target (d : Dom.document) : bool :=
  match Dom.target d with
  | Some (kids, _) =>
      Nat.eqb (Dom.count Content.main_selector kids)
              (Dom.count_all Content.main_selector d)
      && Nat.leb (Dom.count_all Content.main_selector d) 1
  | None => false
  end.

(** The text [HH:MM] of an hour and a minute *)
Definition two_digits (n : Z) : string :=
  String (hex_digit (n / 10)) (String (hex_digit (n mod 10)) "").

Definition clock (h m : Z) : string :=
  String.concat ":" [two_digits h; two_digits m].

(** The time sanitizer accepts the text of [h] and [m], and the controller
    reads it as [h * 60 + m] minutes. *)
Definition clock_checked (h m : Z) : bool :=
  test Validate.timeRegex (clock h m)
  && match Content.minutes_of (VString (clock h m)) with
     | Ok (Fin v 0) => v =? h * 60 + m
     | _ => false
     end.

End Spec.

(* ------------------------------------------------------------------------- *)
(** * More of the host language                                                *)
(* ------------------------------------------------------------------------- *)

Module Builtins.
Import JS.

(** A callback applied to every element, left to right, until one raises *)
Fixpoint traverse {A B : Type} (f : A -> result B) (l : list A) : result (list B) :=
  match l with
  | [] => Ok []
  | x :: rest => y <- f x ;; ys <- traverse f rest ;; Ok (y :: ys)
  end.

(** [Array.prototype.join]: [undefined] and [null] elements count as empty. *)
Definition Array_join (sep : string) (items : list value) : result string :=
  parts <- traverse (fun x => match x with
                              | VUndefined | VNull => Ok ""
                              | _ => ToString x
                              end) items ;;
  Ok (join sep parts).

(** [Array.prototype.filter] with a callback that may raise *)
Fixpoint Array_filter {A : Type} (f : A -> result bool) (l : list A) : result (list A) :=
  match l with
  | [] => Ok []
  | x :: rest =>
      keep <- f x ;;
      kept <- Array_filter f rest ;;
      Ok (if keep then x :: kept else kept)
  end.

(** [a === b] where one side is known to be a string or [null] *)
Definition same_primitive (a b : value) : bool :=
  match a, b with
  | VString x, VString y => String.eqb x y
  | VNull, VNull => true
  | _, _ => false
  end.

End Builtins.

(* ------------------------------------------------------------------------- *)
(** * options.js                                                               *)
(* ------------------------------------------------------------------------- *)

Module Options.
Import JS Builtins.

(** [/^#(?:[0-9a-fA-F]{3}){1,2}$/] *)
Definition hexPattern : regex :=
  Cat (chr "#") (Cat (times 3 Validate.hex) (Alt (times 3 Validate.hex) Eps)).

Definition isHexColor (str : value) : result bool :=
  text <- ToString str ;; Ok (test hexPattern text).

(** The colour that [saveSettings] stores for a colour field:
    [validate ? validate.sanitizeHexColor(raw, fallback)
              : (isHexColor(raw) ? raw : fallback)] *)
Definition colour_of_field (validate : bool) (raw fallback : value) : result value :=
  if validate then Ok (Validate.sanitizeHexColor raw fallback)
  else accepted <- isHexColor raw ;; Ok (if accepted then raw else fallback).

(** The text that [restoreSettings] puts into the blacklist field:
    [(settings.blacklist || []).join('\n')] *)
Definition blacklist_text (settings : value) : result string :=
  match Validate.or_else (get settings "blacklist") (VArray []) with
  | VArray items => Array_join (String LF "") items
  | _ => Throw TypeError
  end.

(** The blacklist that [saveSettings] reads from that field, whose value is
    a string or [null]: through the sanitizer where [CyberdarkValidate] is
    defined, and else by
    [.toString().split(/\r?\n/).map(s => s.trim()).filter(Boolean)] *)
Definition blacklist_of_field (validate : bool) (field : value) : result (list string) :=
  if validate then Ok (Validate.sanitizeDomainList (Validate.or_else field (VString "")))
  else
    text <- ToString (Validate.or_else field (VString "")) ;;
    Ok (filter (fun s => negb (String.eqb s "")) (map trim (split_lines text))).

End Options.

(* ------------------------------------------------------------------------- *)
(** * background.js                                                            *)
(* ------------------------------------------------------------------------- *)

Module Background.
Import JS Builtins.

(** The two in-memory caches of the service worker *)
Record State : Type := {
  enabledStateCache : value;
  blacklistCache : value
}.

(** [let enabledStateCache = null; let blacklistCache = [];] *)
Definition start : State :=
  {| enabledStateCache := VNull; blacklistCache := VArray [] |}.

Definition PROBLEMATIC_SITES : list string :=
  ["docs.google.com"; "sheets.google.com"; "slides.google.com";
   "figma.com"; "chrome.google.com"].

Definition hostMatches (hostname pattern : value) : result bool :=
  if negb (truthy hostname) || negb (truthy pattern) then Ok false
  else
    h <- ToString hostname ;;
    p <- ToString pattern ;;
    let h := toLowerCase h in
    let p := toLowerCase p in
    Ok (String.eqb h p || endsWith h (String "." p)).

(** [[...v]]: the elements of an array, the characters of a string; any
    other value of this model is not iterable. *)
Definition spread (v : value) : result (list value) :=
  match v with
  | VArray items => Ok items
  | VString s => Ok (chars s)
  | _ => Throw TypeError
  end.

Definition isBlacklisted (s : State) (hostname : value) : result bool :=
  cached <- spread (blacklistCache s) ;;
  let allBlacklisted := (cached ++ map VString PROBLEMATIC_SITES)%list in
  Config.some (fun pattern => hostMatches hostname pattern) allBlacklisted.

(** The callback of the start-up read of the storage area *)
Definition onStored (result : Content.Stored) : State :=
  {| enabledStateCache := VBool (is_bool true (Content.cyberdarkEnabled result));
     blacklistCache :=
       Validate.or_else (get_opt (Content.cyberdarkSettings result) "blacklist")
                        (VArray []) |}.

(** One entry of the [changes] that [chrome.storage.onChanged] delivers *)
Record StorageChange : Type := { oldValue : value; newValue : value }.

Definition onChanged (s : State) (changes : list (string * StorageChange))
                     (area : string) : State :=
  if String.eqb area "sync" then
    let s :=
      match lookup "cyberdarkEnabled" changes with
      | Some change =>
          {| enabledStateCache := VBool (is_bool true (newValue change));
             blacklistCache := blacklistCache s |}
      | None => s
      end in
    match lookup "cyberdarkSettings" changes with
    | Some change =>
        {| enabledStateCache := enabledStateCache s;
           blacklistCache :=
             Validate.or_else (get_opt (newValue change) "blacklist") (VArray []) |}
    | None => s
    end
  else s.

(** The message handler: the response it sends, if it sends one. *)
Definition onMessage (s : State) (request : value) : result (option value) :=
  type <- member request "type" ;;
  if is_string "getEnabledState" type then
    let hostname := Validate.or_else (get request "hostname") (VString "") in
    blacklisted <- (if truthy hostname then isBlacklisted s hostname else Ok false) ;;
    Ok (Some (obj [("enabled", enabledStateCache s);
                   ("blacklisted", VBool blacklisted)]))
  else Ok None.

(** The question a content script puts for its page *)
Definition getEnabledState (hostname : string) : value :=
  obj [("type", VString "getEnabledState"); ("hostname", VString hostname)].

End Background.

(* ------------------------------------------------------------------------- *)
(** * validate.js: bookmarks                                                   *)
(* ------------------------------------------------------------------------- *)

Module Bookmarks.
Import JS Builtins.

(** [BOOKMARK_LIMITS] *)
Definition TITLE_MAX : Z := 500.
Definition EXCERPT_MAX : Z := 1000.
Definition TEXT_MAX : Z := 100000.
Definition URL_MAX : Z := 2048.
Definition SITE_NAME_MAX : Z := 100.
Definition WORD_COUNT_MAX : Z := 1000000.

(** What the bookmark functions take from the platform: the [URL]
    constructor, as the [protocol] and the [href] of the parsed URL or
    [None] where it raises; [Date.now()]; and [crypto], if it is defined,
    with [randomUUID], if it has one, and the bytes that [getRandomValues]
    delivers. *)
Record Crypto : Type := {
  randomUUID : option string;
  getRandomValues : nat -> Z
}.

Record Platform : Type := {
  URL_parse : string -> option (string * string);
  Date_now : Z;
  crypto : option Crypto
}.

(** ** Extracted text *)

(** [s.replace(/<[^>]*>/g, '')].  A [<] opens a tag when a [>] follows
    anywhere behind it, and the tag ends at the first such [>].  The
    function returns the text without its tags and, where the text holds a
    [>], the same for what follows the first one. *)
Fixpoint strip_tags_from (s : string) : string * option string :=
  match s with
  | EmptyString => (EmptyString, None)
  | String c rest =>
      let '(plain, behind) := strip_tags_from rest in
      (if Ascii.eqb c "<"
       then match behind with
            | Some after_tag => after_tag
            | None => String c plain
            end
       else String c plain,
       if Ascii.eqb c ">" then Some plain else behind)
  end.

Definition strip_tags (s : string) : string := fst (strip_tags_from s).

(** [s.replace(/[...]/g, '')] for a class of characters *)
Fixpoint remove (class : ascii -> bool) (s : string) : string :=
  match s with
  | EmptyString => EmptyString
  | String c rest => if class c then remove class rest else String c (remove class rest)
  end.

(** [\0] *)
Definition is_null_byte (c : ascii) : bool := code c =? 0.

(** [[\x00-\x08\x0b\x0c\x0e-\x1f\x7f]] *)
Definition is_control (c : ascii) : bool :=
  let n := code c in
  ((0 <=? n) && (n <=? 8)) || (n =? 11) || (n =? 12)
  || ((14 <=? n) && (n <=? 31)) || (n =? 127).

(** [[^\S\n]]: white space other than the line feed *)
Definition is_blank (c : ascii) : bool := is_space c && negb (Ascii.eqb c LF).

(** [s.replace(/[^\S\n]+/g, ' ')]; [in_run] tells that the character before
    was a blank. *)
Fixpoint blanks_to_space (in_run : bool) (s : string) : string :=
  match s with
  | EmptyString => EmptyString
  | String c rest =>
      if is_blank c
      then (if in_run then blanks_to_space true rest
            else String " " (blanks_to_space true rest))
      else String c (blanks_to_space false rest)
  end.

(** [s.replace(/\n{3,}/g, '\n\n')]; [seen] counts the line feeds kept of the
    current run. *)
Fixpoint squeeze_newlines (seen : nat) (s : string) : string :=
  match s with
  | EmptyString => EmptyString
  | String c rest =>
      if Ascii.eqb c LF
      then (if Nat.ltb seen 2 then String c (squeeze_newlines (S seen) rest)
            else squeeze_newlines seen rest)
      else String c (squeeze_newlines 0 rest)
  end.

(** [ToIntegerOrInfinity] of a number that is below some length *)
Definition integer_below (n : number) : Z :=
  match n with
  | Fin m e => if 0 <=? e then m * 10 ^ e else Z.quot m (10 ^ (- e))
  | _ => 0
  end.

(** [s.substring(0, n)] *)
Definition substring_to (n : number) (s : string) : string :=
  take (Z.to_nat (Z.max 0 (integer_below n))) s.

Definition sanitizeExtractedText (text : value) (maxLength : option number) : string :=
  let maxLength := match maxLength with
                   | Some n => n
                   | None => of_Z TEXT_MAX
                   end in
  match text with
  | VString t =>
      let safe := strip_tags t in
      let safe := remove is_null_byte safe in
      let safe := remove is_control safe in
      let safe := blanks_to_space false safe in
      let safe := squeeze_newlines 0 safe in
      let safe := trim safe in
      if lt maxLength (of_Z (str_length safe)) then substring_to maxLength safe
      else safe
  | _ => ""
  end.

(** ** URLs *)

(** [null] is [None]. *)
Definition sanitizeBookmarkUrl (p : Platform) (url : value) : option string :=
  match url with
  | VString u =>
      let url := trim u in
      if String.eqb url "" then None
      else if URL_MAX <? str_length url then None
      else match URL_parse p url with
           | Some (protocol, href) =>
               if negb (String.eqb protocol "http:") && negb (String.eqb protocol "https:")
               then None
               else
                 let lowercaseHref := toLowerCase href in
                 if includes lowercaseHref "javascript:"
                    || includes lowercaseHref "data:"
                    || includes lowercaseHref "vbscript:"
                 then None
                 else Some href
           | None => None
           end
  | _ => None
  end.

(** ** Metadata *)

(** [sanitizeExtractedText(v, max) || fallback] *)
Definition text_or (fallback : string) (v : value) (max : Z) : value :=
  Validate.or_else (VString (sanitizeExtractedText v (Some (of_Z max))))
                   (VString fallback).

Definition sanitizeBookmarkMetadata (p : Platform) (metadata : value) : result value :=
  if negb (truthy metadata) || negb (is_object metadata) || Array_isArray metadata
  then Ok (VObject NullPrototype
             [("title", VString "Untitled"); ("excerpt", VString "");
              ("url", VString ""); ("siteName", VString "");
              ("wordCount", num 0); ("extractedAt", num (Date_now p))])
  else
    let title := text_or "Untitled" (get metadata "title") TITLE_MAX in
    let excerpt := text_or "" (get metadata "excerpt") EXCERPT_MAX in
    let url := match sanitizeBookmarkUrl p (get metadata "url") with
               | Some href => Validate.or_else (VString href) (VString "")
               | None => VString ""
               end in
    let siteName := text_or "" (get metadata "siteName") SITE_NAME_MAX in
    wordCount <- Validate.sanitizeNumericRange (get metadata "wordCount")
                   (of_Z 0) (of_Z WORD_COUNT_MAX) (of_Z 0) ;;
    let now := of_Z (Date_now p) in
    let maxFutureTime := add now (of_Z 86400000) in
    let minPastTime := of_Z 0 in
    extractedAt <- Validate.sanitizeNumericRange (get metadata "extractedAt")
                     minPastTime maxFutureTime now ;;
    Ok (VObject NullPrototype
          [("title", title); ("excerpt", excerpt); ("url", url);
           ("siteName", siteName); ("wordCount", VNumber wordCount);
           ("extractedAt", VNumber extractedAt)]).

(** ** Identifiers *)

(** [bytes[i] = v] *)
Fixpoint store (i : nat) (v : Z) (bytes : list Z) : list Z :=
  match bytes, i with
  | [], _ => []
  | _ :: rest, O => v :: rest
  | b :: rest, S i' => b :: store i' v rest
  end.

(** [s.slice(from, to)] for positions within the string *)
Definition slice (from to : nat) (s : string) : string :=
  take (to - from) (drop from s).

(** [None]: [crypto] is not defined, and the call raises a ReferenceError. *)
Definition generateBookmarkId (p : Platform) : option string :=
  match crypto p with
  | Some c =>
      match randomUUID c with
      | Some uuid => Some uuid
      | None =>
          (* a [Uint8Array] of 16 elements keeps each value modulo 256 *)
          let bytes := map (fun i => getRandomValues c i mod 256) (seq 0 16) in
          let bytes := store 6 (Z.lor (Z.land (nth 6 bytes 0) 15) 64) bytes in
          let bytes := store 8 (Z.lor (Z.land (nth 8 bytes 0) 63) 128) bytes in
          let hex := String.concat "" (map Validate.hex_byte bytes) in
          Some (String.concat "-"
                  [slice 0 8 hex; slice 8 12 hex; slice 12 16 hex; slice 16 20 hex;
                   drop 20 hex])
      end
  | None => None
  end.

End Bookmarks.

(* ------------------------------------------------------------------------- *)
(** * popup.js: the blacklist button                                           *)
(* ------------------------------------------------------------------------- *)

Module Popup.
Import JS Builtins.

(** [validate ? validate.sanitizeDomain(d) : d]; [validate] tells whether
    [CyberdarkValidate] is defined. *)
Definition pattern_of (validate : bool) (d : value) : value :=
  if validate then
    match Validate.sanitizeDomain d with
    | Some safe => VString safe
    | None => VNull
    end
  else d.

(** [safeDomain === pattern || safeDomain.endsWith('.' + pattern)] for a
    [safeDomain] that is a string or [null]; the call of a method of [null]
    raises. *)
Definition listed (safeDomain pattern : value) : result bool :=
  if same_primitive safeDomain pattern then Ok true
  else
    match safeDomain with
    | VString s => suffix <- ToString pattern ;; Ok (endsWith s ("." ++ suffix))
    | _ => Throw TypeError
    end.

(** [checkCurrentSiteBlacklist(blacklist)] for the host name [domain] of
    the active tab: [Some true] where the button then offers to remove the
    site, [Some false] where it offers to blacklist it, [None] where the
    function leaves the button as it is.  [config] tells whether
    [CyberdarkConfig.hostMatches] is defined.  The body stands in a [try]
    whose [catch] is empty. *)
Definition checkCurrentSiteBlacklist (validate config : bool) (domain : string)
                                     (blacklist : value) : option bool :=
  let safeDomain := pattern_of validate (VString domain) in
  if negb (truthy safeDomain) then None
  else
    match
      Config.some
        (fun d =>
           let pattern := pattern_of validate d in
           if negb (truthy pattern) then Ok false
           else if config then Config.hostMatches safeDomain pattern
           else listed safeDomain pattern)
        (match blacklist with VArray items => items | _ => [] end)
    with
    | Ok isListed => Some isListed
    | Throw _ => None
    end.

(** The click on the blacklist button, for the host name [domain] of the
    active tab and for what the storage area holds under
    [cyberdarkSettings]: the blacklist that the handler puts into the
    settings it stores, shows in the form and hands to
    [checkCurrentSiteBlacklist].  [defaultSettings] is the object of that
    name as it stands at the click; with nothing stored it is this object
    that receives the new blacklist. *)
Definition toggle (validate : bool) (defaultSettings : value) (domain : string)
                  (stored : value) : result (list value) :=
  let settings := Validate.or_else stored defaultSettings in
  held <- member settings "blacklist" ;;
  match Validate.or_else held (VArray []) with
  | VArray blacklist =>
      let safeDomain := pattern_of validate (VString domain) in
      isListed <- Config.some (fun d => listed safeDomain (pattern_of validate d))
                              blacklist ;;
      if isListed
      then Array_filter (fun d => found <- listed safeDomain (pattern_of validate d) ;;
                                  Ok (negb found))
                        blacklist
      else Ok (blacklist ++ [safeDomain])%list
  | _ => Throw TypeError
  end.

End Popup.

(* ------------------------------------------------------------------------- *)
(** * The shapes of sanitized values                                           *)
(* ------------------------------------------------------------------------- *)

Module Shape.
Import JS.

(** The strings a regular expression denotes *)
Inductive Matches : regex -> string -> Prop :=
| MEps : Matches Eps ""
| MClass f c : f c = true -> Matches (Class f) (String c "")
| MCat r1 r2 s1 s2 :
    Matches r1 s1 -> Matches r2 s2 -> Matches (Cat r1 r2) (s1 ++ s2)
| MAltL r1 r2 s : Matches r1 s -> Matches (Alt r1 r2) s
| MAltR r1 r2 s : Matches r2 s -> Matches (Alt r1 r2) s
| MStar0 r : Matches (Star r) ""
| MStarS r s1 s2 :
    Matches r s1 -> Matches (Star r) s2 -> Matches (Star r) (s1 ++ s2).

Definition every (p : ascii -> bool) (s : string) : bool :=
  forallb p (list_ascii_of_string s).

Fixpoint same (a b : list string) : bool :=
  match a, b with
  | [], [] => true
  | x :: a', y :: b' => String.eqb x y && same a' b'
  | _, _ => false
  end.

(** [#hhh] or [#hhhhhh] over the digits [digit] *)
Definition colour_over (digit : ascii -> bool) (s : string) : bool :=
  match s with
  | String c ds =>
      Ascii.eqb c "#"
      && (Nat.eqb (String.length ds) 3 || Nat.eqb (String.length ds) 6)
      && every digit ds
  | EmptyString => false
  end.

(** A colour as the sanitizer accepts it, and as it hands it on *)
Definition written_colour : string -> bool := colour_over is_hex_digit.

Definition lower_hex (c : ascii) : bool := is_digit c || in_range "a" "f" c.

Definition hex_colour : string -> bool := colour_over lower_hex.

Definition is_hex_colour (v : value) : bool :=
  match v with VString c => hex_colour c | _ => false end.

Definition colours : list string := ["color1"; "color2"; "color3"; "color4"].

(** A finite number of the closed interval [[lo, hi]] *)
Definition within (lo hi : number) (n : number) : bool :=
  isFinite n && le lo n && le n hi.

Definition is_within (lo hi : number) (v : value) : bool :=
  match v with VNumber n => within lo hi n | _ => false end.

(** The characters of a sanitized domain: [a-z], [0-9], [-] and [.] *)
Definition lower_letter (c : ascii) : bool := in_range "a" "z" c.

Definition domain_char (c : ascii) : bool :=
  lower_letter c || is_digit c || Ascii.eqb c "-" || Ascii.eqb c ".".

(** Neither a line feed nor a carriage return *)
Definition clean (c : ascii) : bool := negb (Ascii.eqb c LF) && negb (Ascii.eqb c CR).

(** A domain in the form the sanitizer hands on: it is its own sanitized
    form. *)
Definition sanitized_domain (d : string) : bool :=
  match Validate.sanitizeDomain (VString d) with
  | Some d' => String.eqb d' d
  | None => false
  end.

(** An object that is not an array *)
Definition is_record (v : value) : bool :=
  match v with VObject _ _ => true | _ => false end.

(** A host name is a pattern or one of its subdomains: the same name, or a
    name that ends in a dot and the pattern, letter case apart. *)
Definition subdomain (h p : string) : Prop :=
  h <> "" /\ p <> ""
  /\ (toLowerCase h = toLowerCase p
      \/ exists sub, toLowerCase h = (sub ++ "." ++ toLowerCase p)%string).

(** The answer of [hostMatches], [false] where it raises *)
Definition matches (hostname pattern : value) : bool :=
  match Config.hostMatches hostname pattern with
  | Ok b => b
  | Throw _ => false
  end.

Definition is_boolean (v : value) : bool :=
  match v with VBool _ => true | _ => false end.

Definition valid_mode (v : value) : bool :=
  match v with
  | VString m => existsb (String.eqb m) Validate.validModes
  | _ => false
  end.

(** What a property of a sanitized override may hold *)
Definition sanitized_field (f : string) (v : value) : bool :=
  if existsb (String.eqb f) colours
  then is_hex_colour v
  else if existsb (String.eqb f) Spec.flag_fields then is_boolean v
  else if String.eqb f "fontSize" then is_within (Fin 12 0) (Fin 24 0) v
  else if String.eqb f "lineHeight" then is_within (Fin 10 (-1)) (Fin 22 (-1)) v
  else if String.eqb f "colorBlindMode" then valid_mode v
  else false.

Definition fields_sanitized (o : list (string * value)) : Prop :=
  forall f x, In (f, x) o -> sanitized_field f x = true.

(** A time of day [HH:MM] *)
Definition is_time (v : value) : bool :=
  match v with VString t => test Validate.timeRegex t | _ => false end.

Definition is_schedule (v : value) : bool :=
  match v with
  | VObject ObjectPrototype props =>
      same (keys props) ["enabled"; "start"; "end"]
      && is_boolean (get v "enabled")
      && is_time (get v "start") && is_time (get v "end")
  | _ => false
  end.

Definition is_domain_list (v : value) : bool :=
  match v with
  | VArray items =>
      Nat.leb (List.length items) 1000
      && forallb (fun x => match x with
                           | VString d => sanitized_domain d
                           | _ => false
                           end) items
  | _ => false
  end.

Definition is_override_map (v : value) : bool :=
  match v with
  | VObject NullPrototype safe =>
      forallb (fun entry =>
                 sanitized_domain (fst entry)
                 && match snd entry with
                    | VObject NullPrototype props =>
                        forallb (fun p => sanitized_field (fst p) (snd p)) props
                    | _ => false
                    end) safe
  | _ => false
  end.

(** The record that validation is meant to deliver: its fifteen properties,
    in their order, each in sanitized form *)
Definition validated_settings (v : value) : bool :=
  match v with
  | VObject ObjectPrototype props =>
      same (keys props)
           ["color1"; "color2"; "color3"; "color4"; "textShadow"; "highContrast";
            "focusOutline"; "reducedMotion"; "fontSize"; "lineHeight";
            "colorBlindMode"; "blacklist"; "perSiteOverrides"; "debugMode";
            "schedule"]
      && forallb (fun k => is_hex_colour (get v k)) colours
      && forallb (fun k => is_boolean (get v k))
                 ["textShadow"; "highContrast"; "focusOutline"; "reducedMotion";
                  "debugMode"]
      && is_within (Fin 12 0) (Fin 24 0) (get v "fontSize")
      && is_within (Fin 10 (-1)) (Fin 22 (-1)) (get v "lineHeight")
      && valid_mode (get v "colorBlindMode")
      && is_domain_list (get v "blacklist")
      && is_override_map (get v "perSiteOverrides")
      && is_schedule (get v "schedule")
  | _ => false
  end.

(** ** Plain text *)

Fixpoint has_char (a : ascii) (s : string) : bool :=
  match s with
  | EmptyString => false
  | String c rest => Ascii.eqb c a || has_char a rest
  end.

(** No [<] of the text is followed, anywhere behind it, by a [>]: the text
    holds nothing that reads as a tag. *)
Fixpoint tag_free (s : string) : bool :=
  match s with
  | EmptyString => true
  | String c rest => (negb (Ascii.eqb c "<") || negb (has_char ">" rest)) && tag_free rest
  end.

(** A character of sanitized text: no control character but the line feed,
    and no white space but the line feed and the space *)
Definition plain_char (c : ascii) : bool :=
  Ascii.eqb c LF || Ascii.eqb c " "
  || (negb (is_space c) && negb ((code c <? 32) || (code c =? 127))).

(** No space directly behind a space, and no line feed directly behind two
    line feeds; [after_space] and [newlines] describe what stands before
    the text. *)
Fixpoint well_spaced (after_space : bool) (newlines : nat) (s : string) : bool :=
  match s with
  | EmptyString => true
  | String c rest =>
      if Ascii.eqb c " " then negb after_space && well_spaced true 0 rest
      else if Ascii.eqb c LF then Nat.ltb newlines 2 && well_spaced false (S newlines) rest
      else well_spaced false 0 rest
  end.

Definition spaced (s : string) : bool := well_spaced false 0 s.

(** No white space at either end *)
Definition trimmed (s : string) : bool :=
  match s with
  | EmptyString => true
  | String c _ =>
      negb (is_space c)
      && match rev_string s "" with
         | String z _ => negb (is_space z)
         | EmptyString => true
         end
  end.

(** [t] is [s] with some characters taken out and some replaced by a
    space. *)
Inductive thinned : string -> string -> Prop :=
| thinned_nil : thinned "" ""
| thinned_drop c s t : thinned s t -> thinned (String c s) t
| thinned_keep c s t : thinned s t -> thinned (String c s) (String c t)
| thinned_space c s t : thinned s t -> thinned (String c s) (String " " t).

(** ** Identifiers *)

(** The digit that carries the variant: [8], [9], [a] or [b] *)
Definition variant_digit (c : ascii) : bool :=
  in_range "8" "9" c || in_range "a" "b" c.

(** [xxxxxxxx-xxxx-4xxx-yxxx-xxxxxxxxxxxx]: the text of a version 4 UUID in
    lower case *)
Definition uuid_v4 : regex :=
  let x := Class lower_hex in
  Cat (times 8 x) (Cat (chr "-")
  (Cat (times 4 x) (Cat (chr "-")
  (Cat (chr "4") (Cat (times 3 x) (Cat (chr "-")
  (Cat (Class variant_digit) (Cat (times 3 x) (Cat (chr "-")
  (times 12 x)))))))))).

(** ** The blacklist of the popup *)


End Shape.

(* ------------------------------------------------------------------------- *)
(** * More concrete inputs                                                     *)
(* ------------------------------------------------------------------------- *)

Module Cases.
Import JS.

(** Settings as an import may bring them, and what validation makes of
    them *)
Definition untidy_settings : value :=
  obj [("color1", VString "#FFF"); ("color2", VString "blue");
       ("fontSize", VString "11"); ("lineHeight", VBool true);
       ("colorBlindMode", VBool true);
       ("blacklist",
        VString (String.concat (String LF "") [" Example.com"; "not a domain"]));
       ("schedule", obj [("start", VString "25:00"); ("end", VString "07:30")]);
       ("resourceMonitorEnabled", VBool false); ("analytics", obj [])].

Definition tidied_settings : value :=
  Spec.record (VString "#fff") (VString "#00ff00") (VString "#ff00ff") (VString "#ff0000")
              (VBool false) (VBool false) (VBool false) (VBool false)
              (VNumber (Fin 12 0)) (VNumber (Fin 10 (-1))) (VString "protanopia")
              (Validate.strings ["example.com"]) (VObject NullPrototype [])
              (VBool false)
              (obj [("enabled", VBool false); ("start", VString "20:00");
                    ("end", VString "07:30")]).



(** A platform whose clock stands in November 2023, and the metadata of a
    page as a content script may send them *)
Definition clock_platform : Bookmarks.Platform :=
  {| Bookmarks.URL_parse := fun url => Some ("https:", url);
     Bookmarks.Date_now := 1700000000000;
     Bookmarks.crypto := None |}.

Definition raw_metadata : value :=
  obj [("title", VString "  <b>Night</b>   reading ");
       ("excerpt", VNull);
       ("url", VString " https://example.com/a ");
       ("siteName", num 7);
       ("wordCount", VString "1200");
       ("extractedAt", num (-5));
       ("extra", VBool true)].

Definition safe_metadata : value :=
  VObject NullPrototype
    [("title", VString "Night reading"); ("excerpt", VString "");
     ("url", VString "https://example.com/a"); ("siteName", VString "");
     ("wordCount", VNumber (Fin 1200 0)); ("extractedAt", VNumber (Fin 0 0))].

(** Stored settings with a blacklist of two domains *)
Definition listing_settings : value :=
  obj [("color1", VString "#00ffff");
       ("blacklist", VArray [VString "example.com"; VString "other.org"])].

End Cases.

(* ------------------------------------------------------------------------- *)
(** * Properties                                                               *)
(* ------------------------------------------------------------------------- *)

Import JS.

(** ** Raising sanitizers *)

(** C1.  Validation cannot be applied to its own result as soon as one
    per-site override survives: the first call returns a record whose
    override map has no prototype, and the second call, which asks that map
    for its [hasOwnProperty], raises a TypeError where the specification
    promises the same record again. *)
Theorem validateSettingsObject_raises_on_its_result (h : Host) :
  exists validated,
    Validate.validateSettingsObject h Samples.with_override Config.DEFAULT_SETTINGS
      = Ok validated
    /\ get (get (get validated "perSiteOverrides") "example.com") "fontSize" = num 18
    /\ Validate.validateSettingsObject h validated Config.DEFAULT_SETTINGS
       = Throw TypeError.
Proof.
  eexists. split; [ vm_compute; reflexivity | ].
  split; vm_compute; reflexivity.
Qed.

(** C2.  The sanitizers do raise on malformed input: the override sanitizer
    on a map without prototype (its own kind of result) and on a map with an
    entry named [hasOwnProperty], the numeric sanitizer on an object whose
    [toString] is not a function. *)
Theorem sanitizers_raise (h : Host) :
  Validate.sanitizePerSiteOverrides h
    (VObject NullPrototype [("example.com", obj [])]) = Throw TypeError
  /\ Validate.sanitizePerSiteOverrides h
       (obj [("hasOwnProperty", num 1)]) = Throw TypeError
  /\ Validate.sanitizeFontSize (obj [("toString", VNull)]) = Throw TypeError.
Proof.
  repeat split; vm_compute; reflexivity.
Qed.

(** ** The schedule gate on the two triggers *)

(** C3.  With a schedule from 09:00 to 17:00 and the clock at 18:00, the
    load callback decides against the styles and removes the main sheet,
    whereas the callback of a settings change decides for them on the same
    stored settings and keeps the sheet: the change path has no schedule
    gate. *)
Theorem schedule_gate_missing_on_change (h : Host) :
  let g := Samples.globals h in
  let stored := Samples.stored "09:00" "17:00" in
  let now := Samples.at_time 18 0 in
  (exists finalSettings,
      Content.shouldApply_onLoad g now stored = Ok (false, finalSettings)
      /\ Content.shouldApply_onChanged g stored = Ok (true, finalSettings))
  /\ Dom.count_all Content.main_selector Samples.styled = 1%nat
  /\ (exists after_load after_change,
         Content.onLoad g now stored (Samples.page Samples.styled) = Ok after_load
         /\ Dom.count_all Content.main_selector (Content.document after_load) = 0%nat
         /\ Content.onChanged g stored (Samples.page Samples.styled) = Ok after_change
         /\ Dom.count_all Content.main_selector (Content.document after_change) = 1%nat).
Proof.
  cbv zeta. split; [ | split ].
  - eexists. split; vm_compute; reflexivity.
  - vm_compute; reflexivity.
  - do 2 eexists. 
    split; [ vm_compute; reflexivity | ].
    split; [ vm_compute; reflexivity | ].
    split; vm_compute; reflexivity.
Qed.

(** ** Numbers *)

Lemma lt_fin_true a b c d : lt_fin a b c d = true <-> (toQ a b < toQ c d)%Q.
Proof.
  unfold lt_fin. rewrite Qlt_alt.
  destruct (toQ a b ?= toQ c d)%Q; split; congruence.
Qed.

Lemma lt_fin_false a b c d : lt_fin a b c d = false <-> (toQ c d <= toQ a b)%Q.
Proof.
  unfold lt_fin.
  destruct (Qcompare_spec (toQ a b) (toQ c d)); split; intros;
    try congruence; try lra.
Qed.

Ltac order_cases :=
  repeat (cbn [lt is_nan orb negb andb] in *;
          match goal with
          | H : lt_fin _ _ _ _ = true |- _ => apply lt_fin_true in H
          | H : lt_fin _ _ _ _ = false |- _ => apply lt_fin_false in H
          | |- context [lt_fin ?a ?b ?c ?d] =>
              let E := fresh "E" in destruct (lt_fin a b c d) eqn:E
          end).

Lemma clamp_correct min max n :
  lt min max = true -> isFinite n = true ->
  Math_max min (Math_min max n) = Spec.clamp min max n
  /\ le min (Spec.clamp min max n) = true
  /\ le (Spec.clamp min max n) max = true.
Proof.
  intros Hmm Hn. destruct n as [ | | | nm ne]; try discriminate.
  destruct min as [ | | | am ae], max as [ | | | bm be]; try discriminate;
    unfold Math_max, Math_min, Spec.clamp, le; order_cases;
    try (repeat split; reflexivity); try lra.
Qed.

(** C4, as stated, fails: [true] is neither a number nor a numeric string,
    yet the font size made of it is the lower bound 12, not the default 16;
    a blank string and an empty array fare alike. *)
Lemma sanitizeNumericRange_true_is_clamped :
  Spec.not_numeric (VBool true) = true
  /\ Validate.sanitizeNumericRange (VBool true) (Fin 12 0) (Fin 24 0) (Fin 16 0)
     = Ok (Fin 12 0)
  /\ Validate.sanitizeNumericRange (VBool true) (Fin 12 0) (Fin 24 0) (Fin 16 0)
     <> Ok (Fin 16 0)
  /\ Validate.sanitizeNumericRange (VString "  ") (Fin 12 0) (Fin 24 0) (Fin 16 0)
     = Ok (Fin 12 0)
  /\ Validate.sanitizeNumericRange (VArray []) (Fin 12 0) (Fin 24 0) (Fin 16 0)
     = Ok (Fin 12 0).
Proof.
  repeat split; try (vm_compute; reflexivity).
  vm_compute; discriminate.
Qed.

(** C4, amended.  Whenever [Number(value)] is defined, the result is the
    default if [value] is [null], [undefined] or the empty string or if
    [Number(value)] is not finite, and [Number(value)] clamped otherwise;
    the clamped number lies between the bounds. *)
Theorem sanitizeNumericRange_coerces_then_clamps
        (value : value) (min max defaultValue num : number) :
  lt min max = true ->
  ToNumber value = Ok num ->
  let rejected :=
    is_null value || is_undefined value || is_string "" value
    || negb (isFinite num) in
  Validate.sanitizeNumericRange value min max defaultValue
    = Ok (if rejected then defaultValue else Spec.clamp min max num)
  /\ (rejected = false ->
      le min (Spec.clamp min max num) = true
      /\ le (Spec.clamp min max num) max = true).
Proof.
  intros Hmm Hnum rejected. subst rejected.
  unfold Validate.sanitizeNumericRange. rewrite Hnum. cbn [bind].
  destruct (is_null value || is_undefined value || is_string "" value) eqn:G;
    cbn [orb].
  - split; [ reflexivity | discriminate ].
  - destruct (isFinite num) eqn:F; cbn [negb].
    + assert (N : isNaN num = false) by (destruct num; try discriminate; reflexivity).
      rewrite N. cbn [orb].
      destruct (clamp_correct min max num Hmm F) as [E R].
      rewrite E. split; [ reflexivity | intros _; exact R ].
    + rewrite orb_true_r. split; [ reflexivity | discriminate ].
Qed.

Lemma sanitizeNumericRange_coerces_then_clamps_witness :
  lt (Fin 10 (-1)) (Fin 22 (-1)) = true
  /\ ToNumber (VString "3.5") = Ok (Fin 35 (-1))
  /\ Validate.sanitizeNumericRange (VString "3.5") (Fin 10 (-1)) (Fin 22 (-1)) (Fin 15 (-1))
     = Ok (Fin 22 (-1)).
Proof.
  split; [ reflexivity | split; [ reflexivity | ] ].
  exact (proj1 (sanitizeNumericRange_coerces_then_clamps
                  (VString "3.5") (Fin 10 (-1)) (Fin 22 (-1)) (Fin 15 (-1))
                  (Fin 35 (-1)) eq_refl eq_refl)).
Defined.

(** ** Signed envelopes *)

Lemma JSON_stringify_defined (v : value) :
  JSON_stringify v = None -> v = VUndefined.
Proof.
  destruct v as [ | | [] | | | | ]; cbn; intros E; try discriminate; reflexivity.
Qed.

Lemma calculateChecksum_returns (h : Host) (data : value) :
  truthy data = true -> exists c, Validate.calculateChecksum h data = Ok c.
Proof.
  intros T. unfold Validate.calculateChecksum.
  destruct (subtle_digest h); [ eexists; reflexivity | ].
  destruct (JSON_stringify data) eqn:E; [ eexists; reflexivity | ].
  apply JSON_stringify_defined in E. subst data. discriminate.
Qed.

(** C5, as stated, fails.  An envelope that has both signature fields, but
    empty, is passed through whole although its checksum is not the digest
    of its data; and under the fallback checksum the envelope signed for
    ["Aa"] still verifies after its data became ["BB"]. *)
Lemma verifySettings_departs_from_specification :
  (Spec.has_field "version" Samples.blank_signature = true
   /\ Spec.has_field "checksum" Samples.blank_signature = true
   /\ Spec.verify_as_specified Samples.plain_host Samples.blank_signature = VNull
   /\ Validate.verifySettings Samples.plain_host Samples.blank_signature
      = Ok Samples.blank_signature)
  /\ (Validate.signSettings Samples.plain_host (VString "Aa") = Ok Samples.signed_Aa
      /\ Validate.verifySettings Samples.plain_host Samples.tampered_BB
         = Ok (VString "BB")).
Proof.
  repeat split; vm_compute; reflexivity.
Qed.

(** C5, amended.  Verification never raises.  What is not an object yields
    the failure signal; an object without a truthy [version] and without a
    truthy [checksum] is returned as it is; any other object yields its data
    exactly when the data is truthy and the stored checksum is the digest
    recomputed from it, and the failure signal otherwise. *)
Theorem verifySettings_behaviour (h : Host) (x : value) :
  (exists v, Validate.verifySettings h x = Ok v)
  /\ (is_object x && truthy x = false -> Validate.verifySettings h x = Ok VNull)
  /\ (is_object x && truthy x = true ->
      Spec.legacy x = true -> Validate.verifySettings h x = Ok x)
  /\ (is_object x && truthy x = true ->
      Spec.legacy x = false ->
      Validate.verifySettings h x
      = Ok (if truthy (get x "data") && Spec.digest_matches h x
            then get x "data" else VNull)).
Proof.
  assert (Shape :
    Validate.verifySettings h x
    = Ok (if negb (is_object x && truthy x) then VNull
          else if Spec.legacy x then x
          else if truthy (get x "data") && Spec.digest_matches h x
               then get x "data" else VNull)).
  { unfold Validate.verifySettings, Spec.legacy, Spec.digest_matches.
    destruct (truthy x) eqn:T, (is_object x) eqn:O; cbn [negb orb andb];
      try reflexivity.
    destruct (negb (truthy (get x "version")) && negb (truthy (get x "checksum")));
      [ reflexivity | ].
    destruct (truthy (get x "data")) eqn:D; cbn [negb andb]; [ | reflexivity ].
    destruct (calculateChecksum_returns h _ D) as [c E]. rewrite E. cbn [bind].
    destruct (is_string c (get x "checksum")); reflexivity. }
  split; [ eexists; exact Shape | ].
  split; [ intros E | split; intros E L ]; rewrite Shape, E; cbn [negb];
    try rewrite L; reflexivity.
Qed.

Lemma verifySettings_behaviour_witness :
  is_object Samples.signed_Aa && truthy Samples.signed_Aa = true
  /\ Spec.legacy Samples.signed_Aa = false
  /\ Validate.verifySettings Samples.plain_host Samples.signed_Aa = Ok (VString "Aa").
Proof.
  split; [ reflexivity | split; [ reflexivity | ] ].
  exact (proj2 (proj2 (proj2
           (verifySettings_behaviour Samples.plain_host Samples.signed_Aa)))
           eq_refl eq_refl).
Defined.

(** ** The schedule window *)

Lemma all_clocks_checked :
  forallb (fun h => forallb (fun m => Spec.clock_checked (Z.of_nat h) (Z.of_nat m))
                            (seq 0 60)) (seq 0 24) = true.
Proof. vm_compute. reflexivity. Qed.

Lemma clock_minutes (h m : Z) :
  0 <= h < 24 -> 0 <= m < 60 ->
  test Validate.timeRegex (Spec.clock h m) = true
  /\ Content.minutes_of (VString (Spec.clock h m)) = Ok (Fin (h * 60 + m) 0).
Proof.
  intros Hh Hm.
  pose proof all_clocks_checked as A.
  rewrite forallb_forall in A.
  specialize (A (Z.to_nat h)). rewrite in_seq in A.
  assert (B : (0 <= Z.to_nat h < 0 + 24)%nat) by lia. specialize (A B).
  rewrite forallb_forall in A.
  specialize (A (Z.to_nat m)). rewrite in_seq in A.
  assert (C : (0 <= Z.to_nat m < 0 + 60)%nat) by lia. specialize (A C).
  rewrite !Z2Nat.id in A by lia.
  unfold Spec.clock_checked in A. apply andb_true_iff in A. destruct A as [T M].
  split; [ exact T | ].
  destruct (Content.minutes_of (VString (Spec.clock h m))) as [[ | | | v e] | ];
    try discriminate.
  destruct e; try discriminate. apply Z.eqb_eq in M. subst v. reflexivity.
Qed.


Lemma lt_int (a b : Z) : lt (Fin a 0) (Fin b 0) = (a <? b).
Proof.
  cbn [lt]. unfold lt_fin, toQ. cbn [Z.leb Z.compare].
  unfold Qcompare, inject_Z. cbn [Qnum Qden].
  change (10 ^ 0) with 1. rewrite !Z.mul_1_r.
  unfold Z.ltb. destruct (a ?= b); reflexivity.
Qed.





(** ** Property lists *)

Section Props.
Context {A : Type}.
Implicit Types (l : list (string * A)) (k : string) (v : A).

Lemma lookup_In l k v : lookup k l = Some v -> In (k, v) l.
Proof.
  induction l as [ | [k' v'] l IH]; cbn; [ discriminate | ].
  destruct (String.eqb_spec k' k) as [-> | N].
  - intros [= ->]. now left.
  - intros H. right. auto.
Qed.

Lemma lookup_keys l k : In k (keys l) -> exists v, lookup k l = Some v.
Proof.
  induction l as [ | [k' v'] l IH]; cbn; [ tauto | ].
  destruct (String.eqb_spec k' k) as [-> | N]; [ eauto | ].
  intros [E | I]; [ congruence | auto ].
Qed.

Lemma lookup_NoDup l k v : NoDup (keys l) -> In (k, v) l -> lookup k l = Some v.
Proof.
  induction l as [ | [k' v'] l IH]; cbn; [ tauto | ].
  intros D [E | I].
  - injection E as -> ->. now rewrite String.eqb_refl.
  - inversion D as [ | ? ? N D']; subst.
    destruct (String.eqb_spec k' k) as [-> | _]; [ | auto ].
    exfalso. apply N. change (In (fst (k, v)) (map fst l)). now apply in_map.
Qed.

Lemma In_set l k v k' v' :
  In (k, v) (set k' v' l) -> (k = k' /\ v = v') \/ In (k, v) l.
Proof.
  induction l as [ | [k0 v0] l IH]; cbn.
  - intros [[= <- <-] | []]. now left.
  - destruct (String.eqb_spec k0 k') as [-> | N]; cbn.
    + intros [[= <- <-] | I]; [ now left | right; now right ].
    + intros [E | I]; [ right; now left | ].
      destruct (IH I) as [? | ?]; [ now left | right; now right ].
Qed.



Lemma has_own_set (props : list (string * value)) k f (v : value) :
  has_own f (set k v props) = String.eqb k f || has_own f props.
Proof.
  unfold has_own. induction props as [ | [k0 v0] l IH]; cbn.
  - destruct (String.eqb k f); reflexivity.
  - destruct (String.eqb_spec k0 k) as [-> | N]; cbn.
    + destruct (String.eqb k f); reflexivity.
    + destruct (String.eqb_spec k0 f) as [-> | N'].
      * now rewrite orb_true_r.
      * exact IH.
Qed.
End Props.

Lemma forbidden_not_domain (key d : string) :
  Validate.sanitizeDomain (VString key) = Some d -> Validate.forbidden_key d = false.
Proof.
  unfold Validate.sanitizeDomain.
  set (domain := toLowerCase (trim key)).
  destruct (String.eqb domain ""); [ discriminate | ].
  destruct (253 <? str_length domain); [ discriminate | ].
  destruct (test Validate.domainRegex domain) eqn:T; [ | discriminate ].
  intros [= <-]. unfold Validate.forbidden_key.
  destruct (String.eqb_spec domain "__proto__") as [E | _];
    [ rewrite E in T; vm_compute in T; discriminate | ].
  destruct (String.eqb_spec domain "constructor") as [E | _];
    [ rewrite E in T; vm_compute in T; discriminate | ].
  destruct (String.eqb_spec domain "prototype") as [E | _];
    [ rewrite E in T; vm_compute in T; discriminate | ].
  reflexivity.
Qed.

(** Where an entry of the result comes from *)
Lemma overrides_loop_stems parsed all pending :
  incl pending all ->
  forall safe safe',
  (forall d v, In (d, v) safe -> Spec.stems_from parsed all d v) ->
  Validate.overrides_loop parsed pending safe = Ok safe' ->
  forall d v, In (d, v) safe' -> Spec.stems_from parsed all d v.
Proof.
  induction pending as [ | key rest IH]; intros Sub safe safe' Inv;
    cbn [Validate.overrides_loop].
  - intros [= <-]. exact Inv.
  - assert (Sub' : incl rest all) by (intros x Hx; apply Sub; now right).
    destruct (call_hasOwnProperty parsed key) as [own | ]; cbn [bind]; [ | discriminate ].
    destruct own; cbn [negb]; [ | now apply IH ].
    destruct (Validate.forbidden_key key); [ now apply IH | ].
    destruct (Validate.sanitizeDomain (VString key)) as [domain | ] eqn:D;
      [ | now apply IH ].
    destruct (negb (is_object (get parsed key)) || is_null (get parsed key));
      [ now apply IH | ].
    destruct (Validate.override_of (get parsed key)) as [o | ] eqn:O; cbn [bind];
      [ | discriminate ].
    apply IH; [ exact Sub' | ].
    intros d v I. apply In_set in I. destruct I as [[-> ->] | I]; [ | auto ].
    exists key, o. repeat split; auto. apply Sub. now left.
Qed.

Lemma limit_sub safe d v :
  In (d, v) (Validate.limit safe) -> In (d, v) safe.
Proof.
  unfold Validate.limit.
  assert (G : forall ks acc,
             incl ks (keys safe) ->
             (forall d v, In (d, v) acc -> In (d, v) safe) ->
             In (d, v) (fold_left (fun limited d => set d (get (VObject NullPrototype safe) d) limited) ks acc) ->
             In (d, v) safe).
  { induction ks as [ | k ks IH]; intros acc Sub Inv; cbn [fold_left]; [ apply Inv | ].
    apply IH.
    - intros x Hx. apply Sub. now right.
    - intros d' v' I. apply In_set in I. destruct I as [[-> ->] | I]; [ | auto ].
      destruct (lookup_keys safe k) as [x Hx]; [ apply Sub; now left | ].
      cbn [get]. rewrite Hx. now apply lookup_In. }
  apply G; [ | intros ? ? [] ].
  intros x Hx. rewrite <- (firstn_skipn 100 (keys safe)). apply in_or_app. now left.
Qed.

Lemma sanitize_parsed_stems parsed result :
  Validate.sanitize_parsed parsed = Ok result ->
  exists safe, result = VObject NullPrototype safe
    /\ forall d v, In (d, v) safe -> Spec.stems_from parsed (keys (for_in parsed)) d v.
Proof.
  unfold Validate.sanitize_parsed.
  destruct (Validate.overrides_loop parsed (keys (for_in parsed)) []) as [safe | ] eqn:L;
    cbn [bind]; [ | discriminate ].
  assert (P : forall d v, In (d, v) safe -> Spec.stems_from parsed (keys (for_in parsed)) d v).
  { eapply overrides_loop_stems; [ apply incl_refl | | exact L ]. intros ? ? []. }
  destruct (100 <? Z.of_nat (Datatypes.length (keys safe))); intros [= <-];
    eexists; split; try reflexivity; auto.
  intros d v I. apply P. now apply limit_sub.
Qed.

Lemma sanitizePerSiteOverrides_stems h overrides result :
  Validate.sanitizePerSiteOverrides h overrides = Ok result ->
  exists safe, result = VObject NullPrototype safe
    /\ forall d v, In (d, v) safe ->
         Spec.stems_from (Spec.parsed_input h overrides) (keys (for_in (Spec.parsed_input h overrides))) d v.
Proof.
  unfold Validate.sanitizePerSiteOverrides, Spec.parsed_input.
  destruct overrides as [ | | b | n | text | items | p props ]; cbn [is_object typeof String.eqb is_null andb negb];
    try (intros [= <-]; exists []; split; [ reflexivity | intros ? ? [] ]).
  - destruct (JSON_parse h text) as [parsed | ].
    + apply sanitize_parsed_stems.
    + intros [= <-]; exists []; split; [ reflexivity | intros ? ? [] ].
  - apply sanitize_parsed_stems.
  - apply sanitize_parsed_stems.
Qed.

Lemma has_own_cond_set (props : list (string * value)) (c : bool) k f (v : value) :
  has_own f (if c then set k v props else props)
  = (c && String.eqb k f) || has_own f props.
Proof. destruct c; [ apply has_own_set | reflexivity ]. Qed.

Lemma has_own_cond_single (c : bool) k f (v : value) :
  has_own f (if c then [(k, v)] else []) = (c && String.eqb k f) || false.
Proof.
  destruct c; cbn; [ | reflexivity ].
  unfold has_own; cbn. destruct (String.eqb k f); reflexivity.
Qed.

Ltac own_fields :=
  repeat (rewrite has_own_cond_set || rewrite has_own_set
          || rewrite has_own_cond_single);
  cbn [andb]; reflexivity.

Lemma override_of_shape ds props :
  Validate.override_of ds = Ok props ->
  forall f,
    has_own f props
    = (truthy (get ds "colorBlindMode") && String.eqb "colorBlindMode" f)
      || ((truthy (get ds "lineHeight") && String.eqb "lineHeight" f)
      || ((truthy (get ds "fontSize") && String.eqb "fontSize" f)
      || ((negb (is_undefined (get ds "reducedMotion")) && String.eqb "reducedMotion" f)
      || ((negb (is_undefined (get ds "focusOutline")) && String.eqb "focusOutline" f)
      || ((negb (is_undefined (get ds "highContrast")) && String.eqb "highContrast" f)
      || ((negb (is_undefined (get ds "textShadow")) && String.eqb "textShadow" f)
      || ((truthy (get ds "color4") && String.eqb "color4" f)
      || ((truthy (get ds "color3") && String.eqb "color3" f)
      || ((truthy (get ds "color2") && String.eqb "color2" f)
      || ((truthy (get ds "color1") && String.eqb "color1" f) || false)))))))))).
Proof.
  unfold Validate.override_of, Validate.override_flags, Validate.override_colors.
  intros H f.
  destruct (truthy (get ds "fontSize")) eqn:TF.
  - destruct (Validate.sanitizeFontSize (get ds "fontSize")) as [n | ]; cbn [bind] in H;
      [ | discriminate ].
    destruct (truthy (get ds "lineHeight")) eqn:TL.
    + destruct (Validate.sanitizeLineHeight (get ds "lineHeight")) as [n' | ]; cbn [bind] in H;
        [ | discriminate ].
      injection H as <-.
      own_fields.
    + cbn [bind] in H. injection H as <-.
      own_fields.
  - cbn [bind] in H.
    destruct (truthy (get ds "lineHeight")) eqn:TL.
    + destruct (Validate.sanitizeLineHeight (get ds "lineHeight")) as [n' | ]; cbn [bind] in H;
        [ | discriminate ].
      injection H as <-.
      own_fields.
    + cbn [bind] in H. injection H as <-.
      own_fields.
Qed.

Ltac solve_field :=
  cbn; rewrite ?andb_false_r, ?andb_true_r, ?orb_false_r; cbn [orb]; reflexivity.

Lemma override_of_fields ds props :
  Validate.override_of ds = Ok props ->
  (forall f, In f Spec.truthy_fields -> has_own f props = truthy (get ds f))
  /\ (forall f, In f Spec.flag_fields -> has_own f props = negb (is_undefined (get ds f)))
  /\ (forall f, has_own f props = true -> In f (Spec.truthy_fields ++ Spec.flag_fields)%list).
Proof.
  intros H. pose proof (override_of_shape ds props H) as S.
  split; [ | split ].
  - intros f I. rewrite S. unfold Spec.truthy_fields in I. cbn [In] in I.
    repeat (destruct I as [<- | I]; [ solve_field | ]). destruct I.
  - intros f I. rewrite S. unfold Spec.flag_fields in I. cbn [In] in I.
    repeat (destruct I as [<- | I]; [ solve_field | ]). destruct I.
  - intros f. rewrite S.
    repeat (rewrite orb_true_iff; intros [E | E];
            [ apply andb_true_iff in E; destruct E as [_ E];
              apply String.eqb_eq in E; subst f; cbn; tauto | revert E ]).
    discriminate.
Qed.



Lemma overrides_loop_returns parsed pending :
  forallb (fun key => returns (call_hasOwnProperty parsed key)
                      && returns (Validate.override_of (get parsed key)))
          pending = true ->
  forall safe, exists safe', Validate.overrides_loop parsed pending safe = Ok safe'.
Proof.
  induction pending as [ | key rest IH]; cbn [forallb Validate.overrides_loop].
  - intros _ safe. eauto.
  - rewrite !andb_true_iff. intros [[O R] B] safe.
    destruct (call_hasOwnProperty parsed key) as [own | ]; [ | discriminate ].
    cbn [bind]. destruct own; cbn [negb]; [ | now apply IH ].
    destruct (Validate.forbidden_key key); [ now apply IH | ].
    destruct (Validate.sanitizeDomain (VString key)); [ | now apply IH ].
    destruct (negb (is_object (get parsed key)) || is_null (get parsed key));
      [ now apply IH | ].
    destruct (Validate.override_of (get parsed key)); [ | discriminate ].
    cbn [bind]. now apply IH.
Qed.

Lemma sanitize_parsed_returns parsed :
  Spec.benign parsed = true ->
  exists result, Validate.sanitize_parsed parsed = Ok result.
Proof.
  intros B. unfold Validate.sanitize_parsed.
  destruct (overrides_loop_returns parsed _ B []) as [safe ->]. cbn [bind].
  destruct (100 <? Z.of_nat (Datatypes.length (keys safe))); eauto.
Qed.

Lemma sanitizePerSiteOverrides_returns h overrides :
  Spec.benign (Spec.parsed_input h overrides) = true ->
  exists result, Validate.sanitizePerSiteOverrides h overrides = Ok result.
Proof.
  unfold Validate.sanitizePerSiteOverrides, Spec.parsed_input.
  destruct overrides as [ | | b | n | text | items | p props ];
    try (intros _; eexists; reflexivity).
  - destruct (JSON_parse h text); [ apply sanitize_parsed_returns | eauto ].
  - apply sanitize_parsed_returns.
  - apply sanitize_parsed_returns.
Qed.




(** ** The per-site override map *)

(** C7.  Whatever the input holds, a map that the override sanitizer
    returns has no prototype, has no entry named [__proto__], [constructor]
    or [prototype], and every override in it is an object without
    prototype; and a map is returned for every input on which no step of
    the loop raises, whichever keys it holds. *)
Theorem no_forbidden_keys (h : Host) (overrides : value) :
  (forall result,
      Validate.sanitizePerSiteOverrides h overrides = Ok result ->
      exists safe,
        result = VObject NullPrototype safe
        /\ (forall key, Validate.forbidden_key key = true -> has_own key safe = false)
        /\ (forall d v, In (d, v) safe -> exists props, v = VObject NullPrototype props))
  /\ (Spec.benign (Spec.parsed_input h overrides) = true ->
      exists result, Validate.sanitizePerSiteOverrides h overrides = Ok result).
Proof.
  split; [ | apply sanitizePerSiteOverrides_returns ].
  intros result H.
  destruct (sanitizePerSiteOverrides_stems h overrides result H) as [safe [-> P]].
  exists safe. split; [ reflexivity | split ].
  - intros key F. unfold has_own.
    destruct (lookup key safe) as [v | ] eqn:L; [ | reflexivity ].
    apply lookup_In in L. destruct (P _ _ L) as (k & o & _ & D & _).
    apply forbidden_not_domain in D. congruence.
  - intros d v I. destruct (P _ _ I) as (k & o & _ & _ & _ & ->). eauto.
Qed.

Lemma no_forbidden_keys_witness :
  let expected :=
    VObject NullPrototype
      [("example.com", VObject NullPrototype [("color1", VString "#abcdef")])] in
  let text_host := Samples.parses_as Samples.polluted_text Samples.polluted in
  (Validate.sanitizePerSiteOverrides Samples.plain_host Samples.polluted = Ok expected
   /\ Validate.sanitizePerSiteOverrides text_host (VString Samples.polluted_text)
      = Ok expected
   /\ Spec.benign (Spec.parsed_input text_host (VString Samples.polluted_text)) = true)
  /\ (exists safe,
         expected = VObject NullPrototype safe
         /\ (forall key, Validate.forbidden_key key = true -> has_own key safe = false)
         /\ (forall d v, In (d, v) safe -> exists props, v = VObject NullPrototype props))
  /\ (exists result,
         Validate.sanitizePerSiteOverrides text_host (VString Samples.polluted_text)
         = Ok result).
Proof.
  cbv zeta. split; [ repeat split; vm_compute; reflexivity | ]. split.
  - apply (proj1 (no_forbidden_keys Samples.plain_host Samples.polluted)).
    vm_compute. reflexivity.
  - apply (proj2 (no_forbidden_keys
                    (Samples.parses_as Samples.polluted_text Samples.polluted)
                    (VString Samples.polluted_text))).
    vm_compute. reflexivity.
Defined.

(** C10.  Every override of a returned map stems from an entry of the input
    whose key sanitizes to its domain, and holds exactly these properties:
    a colour, [fontSize], [lineHeight] or [colorBlindMode] where the input
    value is truthy, one of the four flags where the input value is not
    [undefined], and nothing else. *)
Theorem override_fields_follow_truthiness
        (h : Host) (overrides : value) (safe : list (string * value))
        (domain : string) (override : value) :
  Validate.sanitizePerSiteOverrides h overrides = Ok (VObject NullPrototype safe) ->
  In (domain, override) safe ->
  exists key props,
    let domainSettings := get (Spec.parsed_input h overrides) key in
    Validate.sanitizeDomain (VString key) = Some domain
    /\ override = VObject NullPrototype props
    /\ (forall f, In f Spec.truthy_fields ->
                  has_own f props = truthy (get domainSettings f))
    /\ (forall f, In f Spec.flag_fields ->
                  has_own f props = negb (is_undefined (get domainSettings f)))
    /\ (forall f, has_own f props = true ->
                  In f (Spec.truthy_fields ++ Spec.flag_fields)%list).
Proof.
  intros H I.
  destruct (sanitizePerSiteOverrides_stems h overrides _ H) as [safe' [E P]].
  injection E as <-.
  destruct (P _ _ I) as (key & props & _ & D & O & ->).
  exists key, props. cbv zeta.
  split; [ exact D | split; [ reflexivity | ] ].
  exact (override_of_fields _ _ O).
Qed.

Lemma override_fields_follow_truthiness_witness :
  let kept :=
    VObject NullPrototype
      [("textShadow", VBool false); ("lineHeight", VNumber (Fin 22 (-1)))] in
  Validate.sanitizePerSiteOverrides Samples.plain_host Samples.falsy_override
  = Ok (VObject NullPrototype [("example.com", kept)])
  /\ exists key props,
       Validate.sanitizeDomain (VString key) = Some "example.com"
       /\ kept = VObject NullPrototype props
       /\ (forall f, In f Spec.truthy_fields ->
             has_own f props
             = truthy (get (get Samples.falsy_override key) f))
       /\ (forall f, In f Spec.flag_fields ->
             has_own f props
             = negb (is_undefined (get (get Samples.falsy_override key) f)))
       /\ (forall f, has_own f props = true ->
             In f (Spec.truthy_fields ++ Spec.flag_fields)%list).
Proof.
  cbv zeta. split; [ vm_compute; reflexivity | ].
  apply (override_fields_follow_truthiness Samples.plain_host Samples.falsy_override
           [("example.com",
             VObject NullPrototype
               [("textShadow", VBool false); ("lineHeight", VNumber (Fin 22 (-1)))])]
           "example.com").
  - vm_compute. reflexivity.
  - left. reflexivity.
Defined.



(** ** The document tree *)

Import Dom.

Lemma count_in_unfold sel t a x kids :
  count_in sel (Element t a x kids)
  = ((if sel (Element t a x kids) then 1 else 0) + count sel kids)%nat.
Proof.
  reflexivity.
Qed.

Lemma first_in_unfold sel t a x kids :
  first_in sel (Element t a x kids)
  = if sel (Element t a x kids) then Some (Element t a x kids)
    else querySelector sel kids.
Proof.
  cbn [first_in]. destruct (sel (Element t a x kids)); [ reflexivity | ].
  induction kids as [ | k rest IH]; cbn; [ reflexivity | ].
  destruct (first_in sel k); [ reflexivity | exact IH ].
Qed.

Lemma remove_in_unfold sel t a x kids :
  remove_in sel (Element t a x kids)
  = match remove_first sel kids with
    | Some kids' => Some (Element t a x kids')
    | None => None
    end.
Proof.
  cbn [remove_in].
  match goal with |- match ?f kids with _ => _ end = _ =>
    assert (E : f kids = remove_first sel kids) end.
  { induction kids as [ | k rest IH]; cbn; [ reflexivity | ].
    destruct (sel k); [ reflexivity | ].
    destruct (remove_in sel k); [ reflexivity | ].
    now rewrite IH. }
  now rewrite E.
Qed.

Lemma first_in_none sel e : first_in sel e = None <-> count_in sel e = 0%nat.
Proof.
  induction e as [t a x kids IH] using element_induction.
  rewrite first_in_unfold, count_in_unfold.
  destruct (sel (Element t a x kids)); [ split; [ discriminate | lia ] | ].
  cbn [Nat.add]. induction IH as [ | k rest Hk _ IHrest]; cbn; [ tauto | ].
  destruct (first_in sel k) eqn:F.
  - split; [ discriminate | ]. intros Z.
    assert (Z' : count_in sel k = 0%nat) by lia. apply Hk in Z'. discriminate.
  - assert (Z : count_in sel k = 0%nat) by now apply Hk.
    rewrite Z. exact IHrest.
Qed.

Lemma querySelector_none sel forest :
  querySelector sel forest = None <-> count sel forest = 0%nat.
Proof.
  induction forest as [ | k rest IH]; cbn; [ tauto | ].
  destruct (first_in sel k) eqn:F.
  - split; [ discriminate | ]. intros Z.
    assert (Z' : count_in sel k = 0%nat) by lia. apply first_in_none in Z'. congruence.
  - apply first_in_none in F. rewrite F. exact IH.
Qed.

Lemma count_sel_pos sel e : sel e = true -> (1 <= count_in sel e)%nat.
Proof. destruct e. rewrite count_in_unfold. intros ->. lia. Qed.

Lemma remove_in_tag sel e e' : remove_in sel e = Some e' -> tagName e' = tagName e.
Proof.
  destruct e as [t a x kids]. rewrite remove_in_unfold.
  destruct (remove_first sel kids); intros [= <-]; reflexivity.
Qed.

Lemma remove_in_less sel e :
  shallow sel ->
  (forall e', remove_in sel e = Some e' -> (count_in sel e' < count_in sel e)%nat)
  /\ (remove_in sel e = None -> count_in sel e = (if sel e then 1 else 0)%nat).
Proof.
  intros Sh. induction e as [t a x kids IH] using element_induction.
  rewrite remove_in_unfold.
  assert (G : (forall kids', remove_first sel kids = Some kids' ->
                             (count sel kids' < count sel kids)%nat)
              /\ (remove_first sel kids = None -> count sel kids = 0%nat)).
  { clear t a x. induction IH as [ | k rest [Hk1 Hk2] _ [IH1 IH2]]; cbn [remove_first count fold_right].
    - split; [ discriminate | reflexivity ].
    - destruct (sel k) eqn:S.
      + split; [ | discriminate ]. intros kids' [= <-].
        pose proof (count_sel_pos sel k S). fold (count sel rest). lia.
      + destruct (remove_in sel k) as [k' | ] eqn:R.
        * split; [ | discriminate ]. intros kids' [= <-].
          specialize (Hk1 k' eq_refl). cbn [count fold_right]. fold (count sel rest). lia.
        * specialize (Hk2 eq_refl).
          destruct (remove_first sel rest) as [rest' | ] eqn:RR.
          -- split; [ | discriminate ]. intros kids' [= <-].
             specialize (IH1 rest' eq_refl). cbn [count fold_right].
             fold (count sel rest) (count sel rest'). lia.
          -- split; [ discriminate | ]. intros _.
             specialize (IH2 eq_refl). fold (count sel rest). lia. }
  destruct G as [G1 G2]. destruct (remove_first sel kids) as [kids' | ].
  - split; [ | discriminate ]. intros e' [= <-].
    rewrite !count_in_unfold. rewrite (Sh t a x kids' x kids).
    specialize (G1 kids' eq_refl). lia.
  - split; [ discriminate | ]. intros _. rewrite count_in_unfold, (G2 eq_refl). lia.
Qed.

Lemma remove_first_less sel forest :
  shallow sel ->
  (forall forest', remove_first sel forest = Some forest' ->
                   (count sel forest' < count sel forest)%nat)
  /\ (remove_first sel forest = None -> count sel forest = 0%nat).
Proof.
  intros Sh. induction forest as [ | k rest [IH1 IH2]]; cbn [remove_first count fold_right].
  - split; [ discriminate | reflexivity ].
  - destruct (remove_in_less sel k Sh) as [Hk1 Hk2].
    destruct (sel k) eqn:S.
    + split; [ | discriminate ]. intros kids' [= <-].
      pose proof (count_sel_pos sel k S). fold (count sel rest). lia.
    + destruct (remove_in sel k) as [k' | ] eqn:R.
      * split; [ | discriminate ]. intros kids' [= <-].
        specialize (Hk1 k' eq_refl). cbn [count fold_right]. fold (count sel rest). lia.
      * specialize (Hk2 eq_refl).
        destruct (remove_first sel rest) as [rest' | ] eqn:RR.
        -- split; [ | discriminate ]. intros kids' [= <-].
           specialize (IH1 rest' eq_refl). cbn [count fold_right].
           fold (count sel rest) (count sel rest'). lia.
        -- split; [ discriminate | ]. intros _.
           specialize (IH2 eq_refl). fold (count sel rest). lia.
Qed.

Lemma without_first_count sel forest :
  shallow sel -> (count sel forest <= 1)%nat ->
  count sel (without_first sel forest) = 0%nat.
Proof.
  intros Sh B. unfold without_first.
  destruct (remove_first_less sel forest Sh) as [L N].
  destruct (remove_first sel forest) as [forest' | ].
  - specialize (L forest' eq_refl). lia.
  - now apply N.
Qed.

Lemma count_app sel l l' : count sel (l ++ l') = (count sel l + count sel l')%nat.
Proof.
  induction l as [ | k rest IH]; cbn; [ reflexivity | ].
  fold (count sel (rest ++ l')) (count sel rest). rewrite IH. lia.
Qed.

Lemma remove_first_no_head sel forest forest' :
  remove_first sel forest = Some forest' ->
  find is_head forest = None -> find is_head forest' = None.
Proof.
  revert forest'. induction forest as [ | k rest IH]; cbn [remove_first find];
    [ discriminate | ].
  intros forest'. destruct (is_head k) eqn:Hk; [ discriminate | ].
  destruct (sel k); [ intros [= <-]; auto | ].
  destruct (remove_in sel k) as [k' | ] eqn:R.
  - intros [= <-] F. cbn [find]. unfold is_head in *.
    rewrite (remove_in_tag _ _ _ R), Hk. exact F.
  - destruct (remove_first sel rest) as [rest' | ]; [ | discriminate ].
    intros [= <-] F. cbn [find]. rewrite Hk. now apply IH.
Qed.

Lemma find_app_none {A} (p : A -> bool) l l' :
  find p l = None -> find p l' = None -> find p (l ++ l') = None.
Proof.
  induction l as [ | k rest IH]; cbn; [ auto | ].
  destruct (p k); [ discriminate | auto ].
Qed.

Lemma count_replace_first sel p e e' l :
  find p l = Some e ->
  (count sel (replace_first p e' l) + count_in sel e
   = count sel l + count_in sel e')%nat.
Proof.
  induction l as [ | k rest IH]; cbn [find replace_first]; [ discriminate | ].
  destruct (p k).
  - intros [= ->]. cbn [count fold_right]. fold (count sel rest). lia.
  - intros F. specialize (IH F). cbn [count fold_right].
    fold (count sel rest) (count sel (replace_first p e' rest)). lia.
Qed.

Lemma find_replace_first p e' l e :
  find p l = Some e -> p e' = true -> find p (replace_first p e' l) = Some e'.
Proof.
  intros F P. induction l as [ | k rest IH]; cbn [find replace_first] in *;
    [ discriminate | ].
  destruct (p k) eqn:K.
  - cbn [find]. now rewrite P.
  - cbn [find]. rewrite K. auto.
Qed.

(** The target after its children were exchanged *)
Lemma target_rebuild sel d kids rebuild kids' :
  shallow sel ->
  target d = Some (kids, rebuild) ->
  (find is_head kids = None -> find is_head kids' = None) ->
  (exists rebuild', target (rebuild kids') = Some (kids', rebuild'))
  /\ (count_all sel (rebuild kids') + count sel kids
      = count_all sel d + count sel kids')%nat.
Proof.
  intros Sh T NoHead. unfold target in T.
  destruct d as [[[t a x rkids] | ]]; cbn [documentElement] in T; [ | discriminate ].
  destruct (head {| documentElement := Some (Element t a x rkids) |})
    as [[ht ha hx hkids] | ] eqn:H.
  - injection T as <- <-.
    unfold head in H. cbn [documentElement tagName childNodes] in H.
    destruct (String.eqb t "html") eqn:Html; [ | discriminate ].
    fold is_head in H.
    pose proof (find_some _ _ H) as [_ Tag].
    split.
    + unfold target, head. cbn [documentElement tagName childNodes].
      rewrite Html. fold is_head.
      rewrite (find_replace_first is_head (Element ht ha hx kids') rkids _ H Tag).
      eexists. reflexivity.
    + unfold count_all. cbn [documentElement]. rewrite !count_in_unfold.
      rewrite (Sh t a x _ x rkids).
      pose proof (count_replace_first sel is_head _ (Element ht ha hx kids') rkids H) as C.
      rewrite !count_in_unfold in C. rewrite (Sh ht ha hx kids' hx hkids) in C.
      fold is_head. lia.
  - injection T as <- <-. split.
    + unfold target. cbn [documentElement].
      assert (H' : head {| documentElement := Some (Element t a x kids') |} = None).
      { unfold head in *. cbn [documentElement tagName childNodes] in *.
        destruct (String.eqb t "html"); [ | reflexivity ].
        fold is_head in *. auto. }
      rewrite H'. eexists. reflexivity.
    + unfold count_all. cbn [documentElement]. rewrite !count_in_unfold.
      rewrite (Sh t a x kids' x rkids). lia.
Qed.

Lemma main_selector_shallow : shallow Content.main_selector.
Proof. intros t a x kids x' kids'. reflexivity. Qed.

Lemma apply_once g settings d :
  Spec.renders g settings = true -> Spec.kept_under_target d = true ->
  count_all Content.main_selector (Content.applyCyberdarkStyles g settings d) = 1%nat
  /\ Spec.kept_under_target (Content.applyCyberdarkStyles g settings d) = true.
Proof.
  unfold Spec.renders, Spec.kept_under_target, Content.applyCyberdarkStyles.
  destruct (Content.palette_of g settings) as [palette | ]; [ | discriminate ].
  destruct (Content.main_css settings palette) as [css | ]; [ | discriminate ].
  intros _. destruct (target d) as [[kids rebuild] | ] eqn:T; [ | discriminate ].
  rewrite andb_true_iff, Nat.eqb_eq, Nat.leb_le. intros [Under One].
  set (kids1 := without_first Content.main_selector kids).
  assert (Z : count Content.main_selector kids1 = 0%nat).
  { apply without_first_count; [ exact main_selector_shallow | lia ]. }
  pose proof Z as Q. apply querySelector_none in Q. rewrite Q.
  assert (C : count Content.main_selector (kids1 ++ [Content.main_style css])%list = 1%nat).
  { rewrite count_app, Z. reflexivity. }
  destruct (target_rebuild Content.main_selector d kids rebuild
              (kids1 ++ [Content.main_style css])%list main_selector_shallow T)
    as [[rebuild' T'] E].
  { intros F. apply find_app_none; [ | reflexivity ].
    subst kids1. unfold without_first.
    destruct (remove_first Content.main_selector kids) as [kids' | ] eqn:R;
      [ | exact F ].
    eapply remove_first_no_head; eauto. }
  rewrite T'. rewrite C in *.
  assert (A : count_all Content.main_selector
                (rebuild (kids1 ++ [Content.main_style css])%list) = 1%nat) by lia.
  rewrite A. split; reflexivity.
Qed.

(** C9, as stated, fails.  On a page that already holds four elements
    answering to the selector, each call removes one and appends none, so
    two are left after two calls; on a document without root element the
    calls inject nothing. *)
Lemma applyCyberdarkStyles_twice_leaves_two :
  let g := Samples.globals Samples.plain_host in
  let twice d :=
    Content.applyCyberdarkStyles g Config.DEFAULT_SETTINGS
      (Content.applyCyberdarkStyles g Config.DEFAULT_SETTINGS d) in
  count_all Content.main_selector (twice Samples.four_sheets) = 2%nat
  /\ count_all Content.main_selector (twice Samples.four_sheets) <> 1%nat
  /\ count_all Content.main_selector (twice Samples.rootless) = 0%nat.
Proof.
  cbv zeta. split; [ vm_compute; reflexivity | split ].
  - vm_compute. discriminate.
  - vm_compute. reflexivity.
Qed.

(** C9, amended.  When the style text of the settings can be produced and
    the document has an injection target under which its main style sheets,
    at most one, all lie, two calls in a row leave exactly one main style
    sheet in the document. *)
Theorem applyCyberdarkStyles_twice_leaves_one
        (g : Content.Globals) (settings : value) (d : document) :
  Spec.renders g settings = true ->
  Spec.kept_under_target d = true ->
  count_all Content.main_selector
    (Content.applyCyberdarkStyles g settings
       (Content.applyCyberdarkStyles g settings d))
  = 1%nat.
Proof.
  intros R K. destruct (apply_once g settings d R K) as [_ K'].
  exact (proj1 (apply_once g settings _ R K')).
Qed.

Lemma applyCyberdarkStyles_twice_leaves_one_witness :
  let g := Samples.globals Samples.plain_host in
  Spec.renders g Config.DEFAULT_SETTINGS = true
  /\ Spec.kept_under_target (Samples.html []) = true
  /\ count_all Content.main_selector
       (Content.applyCyberdarkStyles g Config.DEFAULT_SETTINGS
          (Content.applyCyberdarkStyles g Config.DEFAULT_SETTINGS (Samples.html [])))
     = 1%nat.
Proof.
  cbv zeta.
  assert (R : Spec.renders (Samples.globals Samples.plain_host)
                Config.DEFAULT_SETTINGS = true) by (vm_compute; reflexivity).
  assert (K : Spec.kept_under_target (Samples.html []) = true)
    by (vm_compute; reflexivity).
  split; [ exact R | split; [ exact K | ] ].
  exact (applyCyberdarkStyles_twice_leaves_one _ _ _ R K).
Defined.

(** ** Validation of a validated record *)

Lemma void_nullable r : Spec.void r = true -> nullable r = false.
Proof.
  induction r; cbn; try discriminate; auto.
  - rewrite orb_true_iff. intros [H | H]; [ rewrite IHr1 | rewrite IHr2 ]; auto.
    apply andb_false_r.
  - rewrite andb_true_iff. intros [H1 H2]. now rewrite IHr1, IHr2.
Qed.

Lemma void_deriv c r : Spec.void r = true -> Spec.void (deriv c r) = true.
Proof.
  induction r; cbn; try discriminate; auto.
  - rewrite orb_true_iff. intros [H | H].
    + rewrite (void_nullable _ H). cbn. now rewrite IHr1.
    + destruct (nullable r1); cbn; rewrite H; [ | apply orb_true_r ].
      rewrite orb_true_r. now rewrite IHr2.
  - rewrite andb_true_iff. intros [H1 H2]. now rewrite IHr1, IHr2.
Qed.

Lemma void_prune r : Spec.void r = true -> prune r = Void.
Proof.
  induction r; cbn; try discriminate; auto.
  - rewrite orb_true_iff. intros [H | H].
    + now rewrite IHr1.
    + rewrite IHr2 by assumption. destruct (prune r1); reflexivity.
  - rewrite andb_true_iff. intros [H1 H2]. now rewrite IHr1, IHr2.
Qed.

Lemma test_Void s : test Void s = false.
Proof. induction s; cbn; auto. Qed.

Lemma void_test r s : Spec.void r = true -> test r s = false.
Proof.
  destruct s as [ | c s]; cbn.
  - apply void_nullable.
  - intros V. rewrite (void_prune _ (void_deriv c _ V)). apply test_Void.
Qed.

Lemma reject_deriv c r : Spec.accepts_char r c = false -> Spec.void (deriv c r) = true.
Proof.
  induction r; cbn; auto.
  - intros ->. reflexivity.
  - rewrite orb_false_iff. intros [H1 H2].
    destruct (nullable r1); cbn; rewrite IHr1 by assumption; cbn; auto.
  - rewrite orb_false_iff. intros [H1 H2]. now rewrite IHr1, IHr2.
  - intros H. now rewrite IHr.
Qed.

Lemma accepts_deriv c r c' :
  Spec.accepts_char (deriv c r) c' = true -> Spec.accepts_char r c' = true.
Proof.
  induction r; cbn; try discriminate; auto.
  - destruct (accept c); discriminate.
  - destruct (nullable r1); cbn; rewrite !orb_true_iff; intuition.
  - rewrite !orb_true_iff; intuition.
  - rewrite !orb_true_iff; intuition.
Qed.

Lemma accepts_prune r c' :
  Spec.accepts_char (prune r) c' = true -> Spec.accepts_char r c' = true.
Proof.
  induction r; cbn; auto.
  - destruct (prune r1) eqn:P1; destruct (prune r2) eqn:P2; cbn in *;
      try discriminate; rewrite ?orb_true_iff in *; intuition.
  - destruct (prune r1) eqn:P1; destruct (prune r2) eqn:P2; cbn in *;
      try discriminate; rewrite ?orb_true_iff in *; intuition.
Qed.

Lemma test_alphabet r s :
  test r s = true ->
  forall c, In c (list_ascii_of_string s) -> Spec.accepts_char r c = true.
Proof.
  revert r. induction s as [ | a s IH]; cbn; [ tauto | ].
  intros r T c [<- | I].
  - destruct (Spec.accepts_char r a) eqn:A; [ reflexivity | ].
    rewrite (void_prune _ (reject_deriv _ _ A)), test_Void in T. discriminate.
  - apply accepts_deriv with (c := a). apply accepts_prune. eapply IH; eauto.
Qed.

Lemma deriv_lower c r : Spec.case_blind r -> deriv (lower_char c) r = deriv c r.
Proof.
  induction r; cbn; auto.
  - intros H. now rewrite H.
  - intros [H1 H2]. now rewrite IHr1, IHr2.
  - intros [H1 H2]. now rewrite IHr1, IHr2.
  - intros H. now rewrite IHr.
Qed.

Lemma case_blind_deriv c r : Spec.case_blind r -> Spec.case_blind (deriv c r).
Proof.
  induction r; cbn; auto.
  - intros _. destruct (accept c); exact I.
  - intros [H1 H2]. destruct (nullable r1); cbn; auto.
  - intros [H1 H2]. auto.
Qed.

Lemma case_blind_prune r : Spec.case_blind r -> Spec.case_blind (prune r).
Proof.
  induction r; cbn; auto.
  - intros [H1 H2]. specialize (IHr1 H1). specialize (IHr2 H2).
    destruct (prune r1), (prune r2); cbn in *; auto.
  - intros [H1 H2]. specialize (IHr1 H1). specialize (IHr2 H2).
    destruct (prune r1), (prune r2); cbn in *; auto.
Qed.

Lemma test_lower r s : Spec.case_blind r -> test r (toLowerCase s) = test r s.
Proof.
  revert r. induction s as [ | c s IH]; cbn; [ reflexivity | ].
  intros r B. rewrite deriv_lower by assumption.
  apply IH. apply case_blind_prune. now apply case_blind_deriv.
Qed.

Lemma lower_char_idempotent c : lower_char (lower_char c) = lower_char c.
Proof. destruct c as [[] [] [] [] [] [] [] []]; reflexivity. Qed.

Lemma toLowerCase_idempotent s : toLowerCase (toLowerCase s) = toLowerCase s.
Proof. induction s; cbn; [ reflexivity | ]. now rewrite lower_char_idempotent, IHs. Qed.

Ltac all_chars c := destruct c as [[] [] [] [] [] [] [] []].

Lemma hexRegex_case_blind : Spec.case_blind Validate.hexRegex.
Proof.
  cbn. repeat split; intros c; all_chars c; reflexivity.
Qed.

Lemma domainRegex_case_blind : Spec.case_blind Validate.domainRegex.
Proof.
  cbn. repeat split; intros c; all_chars c; reflexivity.
Qed.

Lemma sanitizeHexColor_fixed color fallback :
  Validate.sanitizeHexColor fallback fallback = fallback ->
  Validate.sanitizeHexColor (Validate.sanitizeHexColor color fallback) fallback
  = Validate.sanitizeHexColor color fallback.
Proof.
  intros F. unfold Validate.sanitizeHexColor at 2 3.
  destruct (is_undefined fallback) eqn:U.
  - destruct fallback; try discriminate.
  - destruct color; try exact F.
    destruct (test Validate.hexRegex s) eqn:T; [ | exact F ].
    unfold Validate.sanitizeHexColor. rewrite U.
    rewrite test_lower, T by exact hexRegex_case_blind.
    now rewrite toLowerCase_idempotent.
Qed.

Lemma domain_alphabet c :
  Spec.accepts_char Validate.domainRegex c = true -> is_space c = false.
Proof. all_chars c; vm_compute; intros E; try reflexivity; discriminate. Qed.

Lemma rev_string_app s a b :
  rev_string (rev_string s a) b = rev_string a (s ++ b)%string.
Proof.
  revert a b. induction s as [ | c s IH]; intros a b; cbn; [ reflexivity | ].
  now rewrite IH.
Qed.

Lemma rev_string_involutive s : rev_string (rev_string s "") "" = s.
Proof.
  rewrite rev_string_app. cbn. induction s; cbn; [ reflexivity | now f_equal ].
Qed.

Lemma rev_string_chars s acc c :
  In c (list_ascii_of_string (rev_string s acc)) ->
  In c (list_ascii_of_string s) \/ In c (list_ascii_of_string acc).
Proof.
  revert acc. induction s as [ | a s IH]; intros acc; cbn; [ tauto | ].
  intros I. apply IH in I. cbn in I. tauto.
Qed.

Lemma trimStart_fixed s :
  (forall c, In c (list_ascii_of_string s) -> is_space c = false) ->
  trimStart s = s.
Proof.
  destruct s as [ | c s]; cbn; [ reflexivity | ].
  intros H. now rewrite (H c (or_introl eq_refl)).
Qed.

Lemma trim_fixed s :
  (forall c, In c (list_ascii_of_string s) -> is_space c = false) ->
  trim s = s.
Proof.
  intros H. unfold trim, trimEnd. rewrite (trimStart_fixed s H).
  rewrite trimStart_fixed; [ apply rev_string_involutive | ].
  intros c I. apply rev_string_chars in I. destruct I as [I | []]. auto.
Qed.

Lemma sanitizeDomain_fixed key d :
  Validate.sanitizeDomain (VString key) = Some d ->
  Validate.sanitizeDomain (VString d) = Some d.
Proof.
  unfold Validate.sanitizeDomain.
  set (domain := toLowerCase (trim key)).
  destruct (String.eqb domain "") eqn:E; [ discriminate | ].
  destruct (253 <? str_length domain) eqn:L; [ discriminate | ].
  destruct (test Validate.domainRegex domain) eqn:T; [ | discriminate ].
  intros [= <-].
  assert (Tr : trim domain = domain).
  { apply trim_fixed. intros c I. apply domain_alphabet.
    eapply test_alphabet; eauto. }
  rewrite Tr.
  assert (Lo : toLowerCase domain = domain)
    by (unfold domain; apply toLowerCase_idempotent).
  rewrite Lo. now rewrite E, L, T.
Qed.

Lemma drop_nulls_fixed (l : list string) :
  (forall d, In d l -> Validate.sanitizeDomain (VString d) = Some d) ->
  Validate.drop_nulls (map Validate.sanitizeDomain (map VString l)) = l.
Proof.
  induction l as [ | d l IH]; cbn [map Validate.drop_nulls]; [ reflexivity | ].
  intros H. rewrite (H d (or_introl eq_refl)). cbn [Validate.drop_nulls].
  f_equal. apply IH. intros x I. apply H. now right.
Qed.

Lemma drop_nulls_sanitized (f : value -> option string) (l : list value) d :
  In d (Validate.drop_nulls (map f l)) -> exists x, f x = Some d.
Proof.
  induction l as [ | x l IH]; cbn [map Validate.drop_nulls]; [ intros [] | ].
  destruct (f x) as [d' | ] eqn:E; [ | exact IH ].
  intros [<- | I]; eauto.
Qed.

Lemma sanitizeDomainList_sanitized domains d :
  In d (Validate.sanitizeDomainList domains) ->
  Validate.sanitizeDomain (VString d) = Some d.
Proof.
  unfold Validate.sanitizeDomainList.
  destruct domains; try (intros []); intros I.
  - assert (J : In d (Validate.drop_nulls
                        (map (fun d0 => Validate.sanitizeDomain (VString d0))
                             (split_lines s)))).
    { rewrite <- (firstn_skipn 1000 _). apply in_or_app. now left. }
    rewrite <- (map_map VString Validate.sanitizeDomain) in J.
    apply drop_nulls_sanitized in J. destruct J as [x J].
    destruct x; try discriminate. eapply sanitizeDomain_fixed; eauto.
  - assert (J : In d (Validate.drop_nulls (map Validate.sanitizeDomain items))).
    { rewrite <- (firstn_skipn 1000 _). apply in_or_app. now left. }
    apply drop_nulls_sanitized in J. destruct J as [x J].
    destruct x; try discriminate. eapply sanitizeDomain_fixed; eauto.
Qed.

Lemma firstn_twice {A} n (l : list A) : firstn n (firstn n l) = firstn n l.
Proof.
  revert l. induction n as [ | n IH]; intros [ | x l]; cbn; auto. now rewrite IH.
Qed.

Lemma sanitizeDomainList_fixed domains :
  Validate.sanitizeDomainList
    (Validate.or_else (Validate.strings (Validate.sanitizeDomainList domains)) (VArray []))
  = Validate.sanitizeDomainList domains.
Proof.
  unfold Validate.or_else, Validate.strings. cbn [truthy].
  set (l := Validate.sanitizeDomainList domains).
  assert (F : forall d, In d l -> Validate.sanitizeDomain (VString d) = Some d)
    by (intros d; apply sanitizeDomainList_sanitized).
  cbn [Validate.sanitizeDomainList]. rewrite drop_nulls_fixed by exact F.
  subst l. unfold Validate.sanitizeDomainList.
  destruct domains; try reflexivity; apply firstn_twice.
Qed.

Lemma sanitizeTimeString_fixed time fallback :
  Validate.sanitizeTimeString fallback fallback = fallback ->
  Validate.sanitizeTimeString (Validate.sanitizeTimeString time fallback) fallback
  = Validate.sanitizeTimeString time fallback.
Proof.
  intros F. unfold Validate.sanitizeTimeString at 2 3.
  destruct (is_undefined fallback) eqn:U.
  - destruct fallback; try discriminate.
  - destruct time; try exact F.
    destruct (test Validate.timeRegex s) eqn:T; [ | exact F ].
    unfold Validate.sanitizeTimeString. now rewrite U, T.
Qed.

Lemma sanitizeColorBlindMode_fixed mode :
  Validate.sanitizeColorBlindMode (VString (Validate.sanitizeColorBlindMode mode))
  = Validate.sanitizeColorBlindMode mode.
Proof.
  unfold Validate.sanitizeColorBlindMode at 2 3.
  destruct (is_bool true mode); [ reflexivity | ].
  destruct (is_bool false mode); [ reflexivity | ].
  destruct mode; try reflexivity.
  destruct (existsb (String.eqb s) Validate.validModes) eqn:E; [ | reflexivity ].
  unfold Validate.sanitizeColorBlindMode. cbn [is_bool]. now rewrite E.
Qed.

Lemma lt_irrefl x : lt x x = false.
Proof.
  destruct x; cbn; try reflexivity. apply lt_fin_false. apply Qle_refl.
Qed.

Lemma clamp_fixed min max n :
  lt min max = true ->
  Spec.clamp min max (Spec.clamp min max n) = Spec.clamp min max n.
Proof.
  intros H. unfold Spec.clamp at 2 3.
  destruct (lt min n) eqn:A.
  - destruct (lt n max) eqn:B; unfold Spec.clamp.
    + now rewrite A, B.
    + now rewrite H, lt_irrefl.
  - unfold Spec.clamp. now rewrite lt_irrefl.
Qed.

Lemma clamp_finite min max n :
  isFinite min = true -> isFinite max = true -> isFinite n = true ->
  isFinite (Spec.clamp min max n) = true.
Proof.
  intros. unfold Spec.clamp. destruct (lt min n); [ destruct (lt n max) | ]; auto.
Qed.

Lemma sanitizeNumericRange_fixed value min max d n :
  lt min max = true -> isFinite min = true -> isFinite max = true ->
  isFinite d = true -> lt min d = true -> lt d max = true ->
  Validate.sanitizeNumericRange value min max d = Ok n ->
  Validate.sanitizeNumericRange (VNumber n) min max d = Ok n.
Proof.
  intros H Fmin Fmax Fd D1 D2 E.
  assert (G : isFinite n = true /\ Spec.clamp min max n = n).
  { unfold Validate.sanitizeNumericRange in E.
    destruct (is_null value || is_undefined value || is_string "" value).
    - injection E as <-. split; [ exact Fd | ]. unfold Spec.clamp. now rewrite D1, D2.
    - destruct (ToNumber value) as [num | ]; cbn [bind] in E; [ | discriminate ].
      destruct (isFinite num) eqn:F.
      + assert (N : isNaN num = false) by (destruct num; try discriminate; reflexivity).
        rewrite N in E. cbn [orb negb] in E. injection E as <-.
        destruct (clamp_correct min max num H F) as [-> _].
        split; [ now apply clamp_finite | now apply clamp_fixed ].
      + rewrite orb_true_r in E. injection E as <-. split; [ exact Fd | ].
        unfold Spec.clamp. now rewrite D1, D2. }
  destruct G as [F C].
  unfold Validate.sanitizeNumericRange. cbn [is_null is_undefined is_string orb ToNumber bind].
  assert (N : isNaN n = false) by (destruct n; try discriminate; reflexivity).
  rewrite N, F. cbn [orb negb].
  destruct (clamp_correct min max n H F) as [-> _]. now rewrite C.
Qed.

Lemma sanitizeFontSize_fixed value n :
  Validate.sanitizeFontSize value = Ok n -> Validate.sanitizeFontSize (VNumber n) = Ok n.
Proof. apply sanitizeNumericRange_fixed; reflexivity. Qed.

Lemma sanitizeLineHeight_fixed value n :
  Validate.sanitizeLineHeight value = Ok n -> Validate.sanitizeLineHeight (VNumber n) = Ok n.
Proof. apply sanitizeNumericRange_fixed; reflexivity. Qed.

Lemma validateSettingsObject_record (h : Host) (settings : value) :
  truthy settings && is_object settings = true ->
  Validate.validateSettingsObject h settings Config.DEFAULT_SETTINGS
  = (fontSize <- Validate.sanitizeFontSize (get settings "fontSize") ;;
     lineHeight <- Validate.sanitizeLineHeight (get settings "lineHeight") ;;
     perSiteOverrides <-
       Validate.sanitizePerSiteOverrides h
         (Validate.or_else (get settings "perSiteOverrides") (obj [])) ;;
     Ok (Spec.record
           (Validate.sanitizeHexColor (get settings "color1") (VString "#00ffff"))
           (Validate.sanitizeHexColor (get settings "color2") (VString "#00ff00"))
           (Validate.sanitizeHexColor (get settings "color3") (VString "#ff00ff"))
           (Validate.sanitizeHexColor (get settings "color4") (VString "#ff0000"))
           (VBool (truthy (get settings "textShadow")))
           (VBool (truthy (get settings "highContrast")))
           (VBool (truthy (get settings "focusOutline")))
           (VBool (truthy (get settings "reducedMotion")))
           (VNumber fontSize) (VNumber lineHeight)
           (VString (Validate.sanitizeColorBlindMode (get settings "colorBlindMode")))
           (Validate.strings
              (Validate.sanitizeDomainList
                 (Validate.or_else (get settings "blacklist") (VArray []))))
           perSiteOverrides
           (VBool (truthy (get settings "debugMode")))
           (Spec.sanitized_schedule settings Config.DEFAULT_SETTINGS))).
Proof.
  intros O. apply andb_true_iff in O. destruct O as [T O].
  unfold Validate.validateSettingsObject. rewrite T, O. cbn [negb orb].
  change (member Config.DEFAULT_SETTINGS "color1") with (Ok (VString "#00ffff")).
  change (member Config.DEFAULT_SETTINGS "color2") with (Ok (VString "#00ff00")).
  change (member Config.DEFAULT_SETTINGS "color3") with (Ok (VString "#ff00ff")).
  change (member Config.DEFAULT_SETTINGS "color4") with (Ok (VString "#ff0000")).
  cbn [bind].
  destruct (Validate.sanitizeFontSize (get settings "fontSize")); cbn [bind]; [ | reflexivity ].
  destruct (Validate.sanitizeLineHeight (get settings "lineHeight")); cbn [bind]; [ | reflexivity ].
  destruct (Validate.sanitizePerSiteOverrides h _); cbn [bind]; [ | reflexivity ].
  unfold Spec.sanitized_schedule.
  destruct (truthy (get settings "schedule") && is_object (get settings "schedule"));
    reflexivity.
Qed.

Lemma sanitized_schedule_fixed (settings validated : value) :
  get validated "schedule" = Spec.sanitized_schedule settings Config.DEFAULT_SETTINGS ->
  Spec.sanitized_schedule validated Config.DEFAULT_SETTINGS
  = Spec.sanitized_schedule settings Config.DEFAULT_SETTINGS.
Proof.
  intros G. unfold Spec.sanitized_schedule at 1. rewrite G.
  unfold Spec.sanitized_schedule.
  destruct (truthy (get settings "schedule") && is_object (get settings "schedule")).
  - cbn [truthy is_object typeof andb obj get lookup String.eqb Ascii.eqb Bool.eqb].
    rewrite !sanitizeTimeString_fixed by reflexivity. reflexivity.
  - reflexivity.
Qed.

(** Apart from the override map, validation with the defaults of the
    extension is a fixed point: a validated record whose override map is
    empty validates to itself. *)
Lemma validateSettingsObject_fixed_without_overrides
        (h : Host) (settings validated : value) :
  truthy settings && is_object settings = true ->
  Validate.validateSettingsObject h settings Config.DEFAULT_SETTINGS = Ok validated ->
  get validated "perSiteOverrides" = VObject NullPrototype [] ->
  Validate.validateSettingsObject h validated Config.DEFAULT_SETTINGS = Ok validated.
Proof.
  intros O V P. rewrite (validateSettingsObject_record h settings O) in V.
  destruct (Validate.sanitizeFontSize (get settings "fontSize")) as [fs | ] eqn:FS;
    cbn [bind] in V; [ | discriminate ].
  destruct (Validate.sanitizeLineHeight (get settings "lineHeight")) as [lh | ] eqn:LH;
    cbn [bind] in V; [ | discriminate ].
  destruct (Validate.sanitizePerSiteOverrides h _) as [pso | ];
    cbn [bind] in V; [ | discriminate ].
  injection V as <-.
  change (pso = VObject NullPrototype []) in P. subst pso.
  rewrite validateSettingsObject_record by reflexivity.
  match goal with
  | |- context [Spec.sanitized_schedule (Spec.record ?a ?b ?c ?d ?e ?f ?g ?i ?j ?k ?l ?m ?n ?o ?p) _] =>
      rewrite (sanitized_schedule_fixed settings
                 (Spec.record a b c d e f g i j k l m n o p)) by reflexivity
  end.
  cbn [get Spec.record obj lookup String.eqb Ascii.eqb Bool.eqb].
  rewrite (sanitizeFontSize_fixed _ _ FS), (sanitizeLineHeight_fixed _ _ LH).
  cbn [bind].
  change (Validate.sanitizePerSiteOverrides h
            (Validate.or_else (VObject NullPrototype []) (obj [])))
    with (@Ok value (VObject NullPrototype [])).
  cbn [bind truthy].
  rewrite !sanitizeHexColor_fixed by reflexivity.
  rewrite sanitizeColorBlindMode_fixed, sanitizeDomainList_fixed.
  reflexivity.
Qed.

(* ------------------------------------------------------------------------- *)
(** * Further properties of the code                                           *)
(* ------------------------------------------------------------------------- *)

Import Shape.

(* ------------------------------------------------------------------------- *)
(** * The sanitizers one by one                                                *)
(* ------------------------------------------------------------------------- *)

Import Shape.

(** ** Regular expressions and the strings they denote *)

Lemma append_empty (a b : string) : (a ++ b)%string = "" -> a = "" /\ b = "".
Proof. destruct a; cbn; [auto | discriminate]. Qed.

Lemma append_nil_r (a : string) : (a ++ "")%string = a.
Proof. induction a; cbn; congruence. Qed.

Lemma append_assoc (a b c : string) : ((a ++ b) ++ c)%string = (a ++ (b ++ c))%string.
Proof. induction a; cbn; congruence. Qed.

Lemma Matches_Void s : ~ Matches Void s.
Proof. intros H; inversion H. Qed.

Lemma Matches_Eps_inv s : Matches Eps s -> s = "".
Proof. intros H; inversion H; reflexivity. Qed.

Lemma Matches_Class_inv f s :
  Matches (Class f) s -> exists c, s = String c "" /\ f c = true.
Proof. intros H; inversion H; subst; eauto. Qed.

Lemma Matches_Cat_inv r1 r2 s :
  Matches (Cat r1 r2) s ->
  exists s1 s2, s = (s1 ++ s2)%string /\ Matches r1 s1 /\ Matches r2 s2.
Proof. intros H; inversion H; subst; eauto. Qed.

Lemma Matches_Alt_inv r1 r2 s : Matches (Alt r1 r2) s -> Matches r1 s \/ Matches r2 s.
Proof. intros H; inversion H; subst; auto. Qed.

Lemma nullable_Matches r : nullable r = true <-> Matches r "".
Proof.
  induction r; cbn; split; intros H; try discriminate.
  - inversion H.
  - constructor.
  - reflexivity.
  - apply Matches_Class_inv in H as (c & E & _). discriminate.
  - apply andb_true_iff in H as [H1 H2].
    change "" with ("" ++ "")%string. constructor; [apply IHr1 | apply IHr2]; assumption.
  - apply Matches_Cat_inv in H as (s1 & s2 & E & M1 & M2).
    symmetry in E. apply append_empty in E as [-> ->].
    apply andb_true_iff; split; [apply IHr1 | apply IHr2]; assumption.
  - apply orb_true_iff in H as [H | H];
      [apply MAltL, IHr1 | apply MAltR, IHr2]; assumption.
  - apply orb_true_iff. apply Matches_Alt_inv in H as [H | H];
      [left; apply IHr1 | right; apply IHr2]; assumption.
  - constructor.
  - reflexivity.
Qed.

Lemma Matches_Star_cons r c s :
  Matches (Star r) (String c s) ->
  exists s1 s2, s = (s1 ++ s2)%string /\ Matches r (String c s1) /\ Matches (Star r) s2.
Proof.
  intros H. remember (Star r) as q eqn:Q. remember (String c s) as t eqn:T.
  revert Q T. induction H; intros Q T; try discriminate.
  injection Q as ->.
  destruct s1 as [|a s1].
  - cbn in T. apply IHMatches2; auto.
  - cbn in T. injection T as E1 E2. subst. exists s1, s2. auto.
Qed.

Lemma deriv_Matches c r s : Matches (deriv c r) s <-> Matches r (String c s).
Proof.
  revert s. induction r; intros s; cbn; split; intros H.
  - inversion H.
  - inversion H.
  - inversion H.
  - inversion H.
  - destruct (accept c) eqn:E; [ | inversion H].
    apply Matches_Eps_inv in H as ->. constructor; assumption.
  - apply Matches_Class_inv in H as (c' & E & F). injection E as E1 E2. subst c' s.
    rewrite F. constructor.
  - assert (C : forall t, Matches (Cat (deriv c r1) r2) t -> Matches (Cat r1 r2) (String c t)).
    { intros t M. apply Matches_Cat_inv in M as (s1 & s2 & -> & M1 & M2).
      apply IHr1 in M1.
      change (String c (s1 ++ s2)) with (String c s1 ++ s2)%string.
      constructor; assumption. }
    destruct (nullable r1) eqn:N; [ | auto].
    apply Matches_Alt_inv in H as [H | H]; [auto | ].
    apply IHr2 in H. change (String c s) with ("" ++ String c s)%string.
    constructor; [apply nullable_Matches | ]; assumption.
  - apply Matches_Cat_inv in H as (s1 & s2 & E & M1 & M2). destruct s1 as [|a s1].
    + cbn in E; subst. apply nullable_Matches in M1. rewrite M1.
      apply MAltR, IHr2; assumption.
    + cbn in E. injection E as E1 E2. subst a s.
      assert (M : Matches (Cat (deriv c r1) r2) (s1 ++ s2))
        by (constructor; [apply IHr1 | ]; assumption).
      destruct (nullable r1); [apply MAltL | ]; assumption.
  - apply Matches_Alt_inv in H as [H | H]; [apply MAltL, IHr1 | apply MAltR, IHr2]; assumption.
  - apply Matches_Alt_inv in H as [H | H]; [apply MAltL, IHr1 | apply MAltR, IHr2]; assumption.
  - apply Matches_Cat_inv in H as (s1 & s2 & -> & M1 & M2). apply IHr in M1.
    change (String c (s1 ++ s2)) with (String c s1 ++ s2)%string.
    constructor; assumption.
  - apply Matches_Star_cons in H as (s1 & s2 & -> & H1 & H2).
    constructor; [apply IHr | ]; assumption.
Qed.

Lemma prune_Matches r s : Matches (prune r) s <-> Matches r s.
Proof.
  revert s. induction r; intros s; cbn; try tauto.
  - split; intros H.
    + assert (M : exists s1 s2, s = (s1 ++ s2)%string
                   /\ Matches (prune r1) s1 /\ Matches (prune r2) s2).
      { destruct (prune r1) eqn:P1; try (inversion H; fail);
          destruct (prune r2) eqn:P2; try (inversion H; fail);
          try (apply Matches_Cat_inv in H; exact H);
          try (exists "", s; repeat split; [constructor | assumption]). }
      destruct M as (s1 & s2 & -> & M1 & M2).
      constructor; [apply IHr1 | apply IHr2]; assumption.
    + apply Matches_Cat_inv in H as (s1 & s2 & -> & M1 & M2).
      apply IHr1 in M1. apply IHr2 in M2.
      destruct (prune r1) eqn:P1; try (inversion M1; fail);
        destruct (prune r2) eqn:P2; try (inversion M2; fail);
        try (constructor; assumption);
        try (apply Matches_Eps_inv in M1 as ->; cbn; assumption).
  - split; intros H.
    + assert (M : Matches (prune r1) s \/ Matches (prune r2) s).
      { destruct (prune r1) eqn:P1; destruct (prune r2) eqn:P2;
          try (apply Matches_Alt_inv in H; exact H); auto. }
      destruct M as [M | M]; [apply MAltL, IHr1 | apply MAltR, IHr2]; assumption.
    + assert (M : Matches (prune r1) s \/ Matches (prune r2) s)
        by (apply Matches_Alt_inv in H as [H | H];
            [left; apply IHr1 | right; apply IHr2]; assumption).
      destruct (prune r1) eqn:P1; destruct (prune r2) eqn:P2;
        destruct M as [M | M]; try (inversion M; fail);
        try assumption; try (apply MAltL; assumption); try (apply MAltR; assumption).
Qed.

Lemma test_Matches r s : test r s = true <-> Matches r s.
Proof.
  revert r. induction s as [|c s IH]; intros r; cbn.
  - apply nullable_Matches.
  - rewrite IH, prune_Matches. apply deriv_Matches.
Qed.

Lemma Matches_chr a s : Matches (chr (String a "")) s <-> s = String a "".
Proof.
  unfold chr; split.
  - intros H. apply Matches_Class_inv in H as (c & -> & E).
    apply Ascii.eqb_eq in E. congruence.
  - intros ->. constructor. apply Ascii.eqb_refl.
Qed.

Lemma every_cons p c s : every p (String c s) = p c && every p s.
Proof. reflexivity. Qed.

Lemma every_spec p s : every p s = true <-> forall c, In c (list_ascii_of_string s) -> p c = true.
Proof. apply forallb_forall. Qed.

Lemma every_app p a b : every p (a ++ b) = every p a && every p b.
Proof. induction a; cbn [append]; rewrite ?every_cons, ?IHa, ?andb_assoc; reflexivity. Qed.

Lemma length_append (a b : string) :
  String.length (a ++ b) = (String.length a + String.length b)%nat.
Proof. induction a; cbn; congruence. Qed.

Lemma Matches_times f n s :
  Matches (times n (Class f)) s <-> String.length s = n /\ every f s = true.
Proof.
  revert s. induction n as [|n IH]; intros s; cbn [times]; split.
  - intros H. apply Matches_Eps_inv in H as ->. auto.
  - intros [L _]. destruct s; [constructor | discriminate].
  - intros H. apply Matches_Cat_inv in H as (s1 & s2 & -> & M1 & M2).
    apply Matches_Class_inv in M1 as (c & -> & F). apply IH in M2 as [L A].
    cbn [append]. rewrite every_cons, F, A. cbn. auto.
  - intros [L A]. destruct s as [|c s]; [discriminate | ].
    rewrite every_cons in A. cbn in L. apply andb_true_iff in A as [F A].
    change (String c s) with (String c "" ++ s)%string.
    constructor; [constructor; assumption | apply IH; split; [lia | assumption]].
Qed.

Lemma Matches_Star_class f s : Matches (Star (Class f)) s <-> every f s = true.
Proof.
  split.
  - intros H. remember (Star (Class f)) as q eqn:Q. induction H; try discriminate.
    + reflexivity.
    + injection Q as ->. apply Matches_Class_inv in H as (c & -> & F).
      cbn [append]. rewrite every_cons, F. cbn. auto.
  - induction s as [|c s IH]; intros H; [constructor | ].
    rewrite every_cons in H. apply andb_true_iff in H as [F A].
    change (String c s) with (String c "" ++ s)%string.
    constructor; [constructor; assumption | auto].
Qed.

Lemma Matches_plus_class f s :
  Matches (plus (Class f)) s <-> s <> "" /\ every f s = true.
Proof.
  unfold plus; split.
  - intros H. apply Matches_Cat_inv in H as (s1 & s2 & -> & M1 & M2).
    apply Matches_Class_inv in M1 as (c & -> & F). apply Matches_Star_class in M2.
    cbn [append]. rewrite every_cons, F, M2. split; [discriminate | reflexivity].
  - intros [N A]. destruct s as [|c s]; [congruence | ].
    rewrite every_cons in A. apply andb_true_iff in A as [F A].
    change (String c s) with (String c "" ++ s)%string.
    constructor; [constructor; assumption | apply Matches_Star_class; assumption].
Qed.

Lemma Matches_at_least f n s :
  Matches (at_least n (Class f)) s <-> (n <= String.length s)%nat /\ every f s = true.
Proof.
  unfold at_least; split.
  - intros H. apply Matches_Cat_inv in H as (s1 & s2 & -> & M1 & M2).
    apply Matches_times in M1 as [L A]. apply Matches_Star_class in M2.
    rewrite length_append, every_app, A, M2. split; [lia | reflexivity].
  - revert s. induction n as [|n IH]; intros s [L A].
    + change s with ("" ++ s)%string. constructor; [constructor | ].
      apply Matches_Star_class; assumption.
    + destruct s as [|c s]; [cbn in L; lia | ].
      rewrite every_cons in A. apply andb_true_iff in A as [F A]. cbn in L.
      assert (M' : Matches (Cat (times n (Class f)) (Star (Class f))) s)
        by (apply IH; split; [lia | assumption]).
      apply Matches_Cat_inv in M' as (s1 & s2 & -> & M1 & M2).
      change (String c (s1 ++ s2)) with (String c s1 ++ s2)%string.
      constructor; [ | assumption].
      cbn [times]. change (String c s1) with (String c "" ++ s1)%string.
      constructor; [constructor | ]; assumption.
Qed.

Lemma hexRegex_shape c : test Validate.hexRegex c = written_colour c.
Proof.
  apply eq_true_iff_eq. rewrite test_Matches. unfold Validate.hexRegex, written_colour.
  split.
  - intros H. apply Matches_Cat_inv in H as (s1 & s2 & -> & M1 & M2).
    apply Matches_chr in M1 as ->. cbn.
    apply Matches_Alt_inv in M2 as [M | M]; apply Matches_times in M as [L A].
    + cbn. rewrite L. exact A.
    + cbn. rewrite L. exact A.
  - intros H. destruct c as [|a ds]; [discriminate | ]. cbn in H.
    apply andb_true_iff in H as [H A]. apply andb_true_iff in H as [E L].
    apply Ascii.eqb_eq in E. subst a.
    change (String "#" ds) with ("#" ++ ds)%string.
    constructor; [apply Matches_chr; reflexivity | ].
    apply orb_true_iff in L as [L | L]; apply Nat.eqb_eq in L;
      [apply MAltL | apply MAltR]; apply Matches_times; auto.
Qed.

Lemma length_toLowerCase s : String.length (toLowerCase s) = String.length s.
Proof. induction s; cbn; congruence. Qed.

Lemma chars_toLowerCase s :
  list_ascii_of_string (toLowerCase s) = map lower_char (list_ascii_of_string s).
Proof. induction s; cbn; congruence. Qed.

Lemma lower_hex_digit c : is_hex_digit c = true -> lower_hex (lower_char c) = true.
Proof. all_chars c; vm_compute; intros H; (reflexivity || discriminate). Qed.

Lemma every_toLowerCase p q s :
  (forall c, p c = true -> q (lower_char c) = true) ->
  every p s = true -> every q (toLowerCase s) = true.
Proof.
  intros I. induction s as [|c s IH]; [reflexivity | ].
  cbn [toLowerCase]. rewrite !every_cons. intros H.
  apply andb_true_iff in H as [H A]. rewrite (I _ H), (IH A). reflexivity.
Qed.

Lemma written_colour_lower c :
  written_colour c = true -> hex_colour (toLowerCase c) = true.
Proof.
  destruct c as [|a ds]; [discriminate | ].
  unfold written_colour, hex_colour, colour_over. cbn [toLowerCase].
  intros H. apply andb_true_iff in H as [H A]. apply andb_true_iff in H as [E L].
  apply Ascii.eqb_eq in E. subst a. rewrite length_toLowerCase, L.
  rewrite (every_toLowerCase _ _ _ lower_hex_digit A). reflexivity.
Qed.

(** ** Colours *)

Lemma sanitizeHexColor_decided (color fallback : value) :
  Validate.sanitizeHexColor color fallback
  = let used := if is_undefined fallback then VString "#000000" else fallback in
    match color with
    | VString c => if written_colour c then VString (toLowerCase c) else used
    | _ => used
    end.
Proof.
  unfold Validate.sanitizeHexColor. destruct color; try reflexivity.
  rewrite hexRegex_shape. reflexivity.
Qed.

Lemma sanitizeHexColor_hex color fallback :
  is_hex_colour fallback = true ->
  is_hex_colour (Validate.sanitizeHexColor color fallback) = true.
Proof.
  intros F. rewrite sanitizeHexColor_decided.
  destruct fallback; try discriminate. cbn [is_undefined].
  destruct color; try assumption.
  destruct (written_colour s0) eqn:W; [apply written_colour_lower, W | assumption].
Qed.

(** X1.  [sanitizeHexColor] hands on the lower-cased colour exactly when
    its input is a string of the form [#hhh] or [#hhhhhh] in hexadecimal
    digits of either case; every other input, of whatever type, yields the
    fallback, which is [#000000] when none is given.  What it hands on in
    place of the fallback is a colour in lower-case digits. *)
Theorem sanitizeHexColor_shape (color fallback : value) :
  let used := if is_undefined fallback then VString "#000000" else fallback in
  Validate.sanitizeHexColor color fallback
  = match color with
    | VString c => if written_colour c then VString (toLowerCase c) else used
    | _ => used
    end
  /\ (Validate.sanitizeHexColor color fallback = used
      \/ is_hex_colour (Validate.sanitizeHexColor color fallback) = true).
Proof.
  cbn zeta. rewrite sanitizeHexColor_decided. cbn zeta. split; [reflexivity | ].
  destruct color; auto.
  destruct (written_colour s) eqn:W; [right; apply written_colour_lower, W | auto].
Qed.

(** ** Numbers *)

Lemma sanitizeNumericRange_within value min max d n :
  lt min max = true -> isFinite min = true -> isFinite max = true ->
  Validate.sanitizeNumericRange value min max d = Ok n ->
  n = d \/ within min max n = true.
Proof.
  intros L Fmin Fmax. unfold Validate.sanitizeNumericRange.
  destruct (is_null value || is_undefined value || is_string "" value).
  - intros [= <-]. auto.
  - destruct (ToNumber value) as [num | e]; cbn [bind]; [ | discriminate].
    destruct (isNaN num || negb (isFinite num)) eqn:G.
    + intros [= <-]. auto.
    + intros [= <-]. right.
      apply orb_false_iff in G as [_ G]. apply negb_false_iff in G.
      destruct (clamp_correct min max num L G) as (-> & A & B).
      unfold within. rewrite A, B, (clamp_finite _ _ _ Fmin Fmax G). reflexivity.
Qed.

Lemma sanitizeNumericRange_returns value min max d :
  returns (Validate.sanitizeNumericRange value min max d)
  = returns (ToNumber value)
    || is_null value || is_undefined value || is_string "" value.
Proof.
  unfold Validate.sanitizeNumericRange.
  destruct value as [ | | [] | n | s | items | p props]; try reflexivity.
  - cbn [is_null is_undefined is_string orb ToNumber bind].
    destruct (isNaN n || negb (isFinite n)); reflexivity.
  - cbn [is_null is_undefined is_string orb ToNumber bind returns].
    destruct (String.eqb s ""); [reflexivity | ].
    destruct (isNaN (StringToNumber s) || negb (isFinite (StringToNumber s))); reflexivity.
  - cbn [is_null is_undefined is_string orb]. rewrite !orb_false_r.
    destruct (ToNumber (VArray items)) as [num | e]; cbn [bind returns]; [ | reflexivity].
    destruct (isNaN num || negb (isFinite num)); reflexivity.
  - cbn [is_null is_undefined is_string orb]. rewrite !orb_false_r.
    destruct (ToNumber (VObject p props)) as [num | e]; cbn [bind returns]; [ | reflexivity].
    destruct (isNaN num || negb (isFinite num)); reflexivity.
Qed.

Lemma sanitizeFontSize_within v n :
  Validate.sanitizeFontSize v = Ok n -> within (Fin 12 0) (Fin 24 0) n = true.
Proof.
  intros E. apply sanitizeNumericRange_within in E as [-> | E]; auto.
Qed.

Lemma sanitizeLineHeight_within v n :
  Validate.sanitizeLineHeight v = Ok n -> within (Fin 10 (-1)) (Fin 22 (-1)) n = true.
Proof.
  intros E. apply sanitizeNumericRange_within in E as [-> | E]; auto.
Qed.

(** X2.  The two numeric settings: whatever [sanitizeFontSize] returns is a
    finite number between 12 and 24, whatever [sanitizeLineHeight] returns
    is one between 1.0 and 2.2, and neither raises unless the conversion of
    its input to a number does. *)
Theorem sizes_within_bounds (v : value) :
  match Validate.sanitizeFontSize v with
  | Ok n => within (Fin 12 0) (Fin 24 0) n = true
  | Throw _ => returns (ToNumber v) = false
  end
  /\ match Validate.sanitizeLineHeight v with
     | Ok n => within (Fin 10 (-1)) (Fin 22 (-1)) n = true
     | Throw _ => returns (ToNumber v) = false
     end.
Proof.
  split.
  - pose proof (sanitizeNumericRange_returns v (Fin 12 0) (Fin 24 0) (Fin 16 0)) as R.
    unfold Validate.sanitizeFontSize.
    destruct (Validate.sanitizeNumericRange v (Fin 12 0) (Fin 24 0) (Fin 16 0)) as [n | e] eqn:E.
    + apply (sanitizeFontSize_within v), E.
    + cbn [returns] in R. symmetry in R. apply orb_false_iff in R as [R _].
      apply orb_false_iff in R as [R _]. apply orb_false_iff in R as [R _]. exact R.
  - pose proof (sanitizeNumericRange_returns v (Fin 10 (-1)) (Fin 22 (-1)) (Fin 15 (-1))) as R.
    unfold Validate.sanitizeLineHeight.
    destruct (Validate.sanitizeNumericRange v (Fin 10 (-1)) (Fin 22 (-1)) (Fin 15 (-1)))
      as [n | e] eqn:E.
    + apply (sanitizeLineHeight_within v), E.
    + cbn [returns] in R. symmetry in R. apply orb_false_iff in R as [R _].
      apply orb_false_iff in R as [R _]. apply orb_false_iff in R as [R _]. exact R.
Qed.

(** ** Domains *)

Lemma sanitizeDomain_any_fixed domain d :
  Validate.sanitizeDomain domain = Some d ->
  Validate.sanitizeDomain (VString d) = Some d.
Proof.
  destruct domain; try discriminate. apply sanitizeDomain_fixed.
Qed.


Lemma Matches_lit_nocase p s :
  Matches (lit_nocase p) s -> toLowerCase s = toLowerCase p.
Proof.
  revert s. induction p as [|a p IH]; intros s H.
  - apply Matches_Eps_inv in H as ->. reflexivity.
  - apply Matches_Cat_inv in H as (s1 & s2 & -> & M1 & M2).
    apply Matches_Class_inv in M1 as (c & -> & E). apply Ascii.eqb_eq in E.
    cbn [append toLowerCase]. rewrite E. f_equal. apply IH, M2.
Qed.

Lemma lower_chars_fixed s c :
  toLowerCase s = s -> In c (list_ascii_of_string s) -> lower_char c = c.
Proof.
  induction s as [|a s IH]; cbn; [tauto | ].
  intros [= E1 E2] [<- | I]; auto.
Qed.

Lemma domain_char_of c :
  Spec.accepts_char Validate.domainRegex c = true -> lower_char c = c ->
  domain_char c = true.
Proof.
  all_chars c; vm_compute; intros A B; first [reflexivity | discriminate | congruence].
Qed.

Lemma lower_letter_of c :
  Validate.letter c = true -> lower_char c = c -> lower_letter c = true.
Proof.
  all_chars c; vm_compute; intros A B; first [reflexivity | discriminate | congruence].
Qed.

Lemma every_weaken (p q : ascii -> bool) s :
  (forall c, In c (list_ascii_of_string s) -> p c = true -> q c = true) ->
  every p s = true -> every q s = true.
Proof.
  rewrite !every_spec. auto.
Qed.

Lemma In_chars_app c a b :
  In c (list_ascii_of_string (a ++ b))
  <-> In c (list_ascii_of_string a) \/ In c (list_ascii_of_string b).
Proof.
  induction a as [|x a IH]; cbn; [tauto | ]. rewrite IH. tauto.
Qed.

(** The two ways to be a domain *)
Lemma domainRegex_shape d :
  test Validate.domainRegex d = true ->
  toLowerCase d = "localhost"
  \/ exists name tld,
       d = (name ++ "." ++ tld)%string /\ name <> ""
       /\ (2 <= String.length tld)%nat /\ every Validate.letter tld = true.
Proof.
  rewrite test_Matches. unfold Validate.domainRegex. intros H.
  apply Matches_Alt_inv in H as [H | H].
  - right. apply Matches_Cat_inv in H as (s0 & t0 & -> & _ & H).
    apply Matches_Cat_inv in H as (s1 & t1 & -> & M1 & H).
    apply Matches_Cat_inv in H as (dot & tld & -> & M2 & M3).
    apply Matches_chr in M2 as ->. apply Matches_plus_class in M1 as [N _].
    apply Matches_at_least in M3 as [L A].
    exists (s0 ++ s1)%string, tld. rewrite append_assoc. repeat split; auto.
    intros E. apply append_empty in E as [_ E]. auto.
  - left. apply Matches_lit_nocase in H. exact H.
Qed.

Lemma sanitizeDomain_Some domain d :
  Validate.sanitizeDomain domain = Some d ->
  exists text, domain = VString text /\ d = toLowerCase (trim text)
    /\ d <> "" /\ str_length d <= 253 /\ test Validate.domainRegex d = true.
Proof.
  unfold Validate.sanitizeDomain. destruct domain; try discriminate.
  destruct (String.eqb (toLowerCase (trim s)) "") eqn:E; [discriminate | ].
  destruct (253 <? str_length (toLowerCase (trim s))) eqn:L; [discriminate | ].
  destruct (test Validate.domainRegex (toLowerCase (trim s))) eqn:T; [ | discriminate].
  intros [= <-]. exists s. apply String.eqb_neq in E. apply Z.ltb_ge in L. auto.
Qed.

(** X3.  What [sanitizeDomain] hands on: the trimmed, lower-cased text of a
    string input, between 1 and 253 characters from [a-z], [0-9], [-] and
    [.], which is either [localhost] or ends in a dot and a top-level name
    of two or more letters; and it is its own sanitized form. *)
Theorem sanitizeDomain_shape (domain : value) (d : string) :
  Validate.sanitizeDomain domain = Some d ->
  (exists text, domain = VString text /\ d = toLowerCase (trim text))
  /\ 0 < str_length d <= 253
  /\ every domain_char d = true
  /\ (d = "localhost"
      \/ exists name tld,
           d = (name ++ "." ++ tld)%string /\ name <> ""
           /\ (2 <= String.length tld)%nat /\ every lower_letter tld = true)
  /\ Validate.sanitizeDomain (VString d) = Some d.
Proof.
  intros H. pose proof (sanitizeDomain_any_fixed _ _ H) as F.
  apply sanitizeDomain_Some in H as (text & -> & E & N & L & T).
  assert (Low : toLowerCase d = d) by (rewrite E; apply toLowerCase_idempotent).
  split; [eauto | ]. split.
  { split; [ | assumption]. destruct d; [congruence | ].
    unfold str_length. cbn [String.length]. lia. }
  split.
  { apply every_spec. intros c I. apply domain_char_of.
    - apply (test_alphabet _ _ T), I.
    - apply (lower_chars_fixed _ _ Low I). }
  split; [ | exact F].
  apply domainRegex_shape in T as [T | (name & tld & D & Nn & Lt & A)].
  - left. congruence.
  - right. exists name, tld. repeat split; auto.
    revert A. apply every_weaken. intros c I Lc. apply lower_letter_of; [assumption | ].
    apply (lower_chars_fixed _ _ Low). rewrite D.
    apply In_chars_app. right. apply In_chars_app. right. assumption.
Qed.

Lemma sanitizeDomain_shape_witness :
  Validate.sanitizeDomain (VString "  Sub.Example.COM ") = Some "sub.example.com"
  /\ every domain_char "sub.example.com" = true
  /\ Validate.sanitizeDomain (VString "sub.example.com") = Some "sub.example.com".
Proof.
  assert (H : Validate.sanitizeDomain (VString "  Sub.Example.COM ") = Some "sub.example.com")
    by (vm_compute; reflexivity).
  destruct (sanitizeDomain_shape _ _ H) as (_ & _ & A & _ & F).
  repeat split; assumption.
Defined.

(** ** Lists of domains *)

Lemma sanitized_domain_spec d :
  sanitized_domain d = true <-> Validate.sanitizeDomain (VString d) = Some d.
Proof.
  unfold sanitized_domain. split.
  - destruct (Validate.sanitizeDomain (VString d)) as [d' | ]; [ | discriminate].
    intros E. apply String.eqb_eq in E. congruence.
  - intros ->. apply String.eqb_refl.
Qed.

Lemma firstn_short {A} n (l : list A) : (List.length l <= n)%nat -> firstn n l = l.
Proof. apply firstn_all2. Qed.

Lemma sanitizeDomainList_length domains :
  (List.length (Validate.sanitizeDomainList domains) <= 1000)%nat.
Proof.
  destruct domains; cbn [Validate.sanitizeDomainList List.length]; try lia;
    apply firstn_le_length.
Qed.

Lemma sanitizeDomainList_all domains :
  forallb sanitized_domain (Validate.sanitizeDomainList domains) = true.
Proof.
  apply forallb_forall. intros d I. apply sanitized_domain_spec.
  apply (sanitizeDomainList_sanitized _ _ I).
Qed.

Lemma sanitizeDomainList_strings l :
  (List.length l <= 1000)%nat -> forallb sanitized_domain l = true ->
  Validate.sanitizeDomainList (Validate.strings l) = l.
Proof.
  intros L A. unfold Validate.strings. cbn [Validate.sanitizeDomainList].
  rewrite drop_nulls_fixed.
  - apply firstn_short, L.
  - intros d I. apply sanitized_domain_spec. rewrite forallb_forall in A. auto.
Qed.

(** X4.  [sanitizeDomainList] returns at most 1000 entries, each of them a
    domain in sanitized form; it returns the empty list for an input that is
    neither a string nor an array; and applied to its own result it returns
    that result. *)
Theorem sanitizeDomainList_sanitizes (domains : value) :
  let result := Validate.sanitizeDomainList domains in
  (List.length result <= 1000)%nat
  /\ forallb sanitized_domain result = true
  /\ Validate.sanitizeDomainList (Validate.strings result) = result
  /\ (typeof domains = "string" \/ Array_isArray domains = true \/ result = []).
Proof.
  cbn zeta. repeat split.
  - apply sanitizeDomainList_length.
  - apply sanitizeDomainList_all.
  - apply sanitizeDomainList_strings;
      [apply sanitizeDomainList_length | apply sanitizeDomainList_all].
  - destruct domains; cbn; auto.
Qed.

(** ** The blacklist field of the options page *)

Lemma rev_string_append a b acc :
  rev_string (a ++ b) acc = rev_string b (rev_string a acc).
Proof. revert acc. induction a; cbn; auto. Qed.

Lemma split_lines_on_item item s cur :
  every clean item = true ->
  split_lines_on (item ++ s) cur = split_lines_on s (rev_string item cur).
Proof.
  revert cur. induction item as [|c item IH]; intros cur A; [reflexivity | ].
  rewrite every_cons in A. apply andb_true_iff in A as [C A].
  cbn [append split_lines_on rev_string].
  unfold clean in C. apply andb_true_iff in C as [C _]. apply negb_true_iff in C.
  rewrite C. apply IH, A.
Qed.

Lemma every_rev_string p s acc :
  every p s = true -> every p acc = true -> every p (rev_string s acc) = true.
Proof.
  revert acc. induction s as [|c s IH]; intros acc A B; [assumption | ].
  rewrite every_cons in A. apply andb_true_iff in A as [C A].
  cbn [rev_string]. apply IH; [assumption | ]. rewrite every_cons, C, B. reflexivity.
Qed.

Lemma no_carriage_return cur :
  every clean cur = true ->
  match cur with
  | String p before => if Ascii.eqb p CR then before else cur
  | EmptyString => cur
  end = cur.
Proof.
  destruct cur as [|p before]; [reflexivity | ].
  rewrite every_cons. intros A. apply andb_true_iff in A as [C _].
  unfold clean in C. apply andb_true_iff in C as [_ C]. apply negb_true_iff in C.
  rewrite C. reflexivity.
Qed.

Lemma split_lines_single item :
  every clean item = true -> split_lines item = [item].
Proof.
  intros A. unfold split_lines. rewrite <- (append_nil_r item) at 1.
  rewrite split_lines_on_item by assumption. cbn [split_lines_on].
  rewrite rev_string_involutive. reflexivity.
Qed.

Lemma split_lines_cons (crlf : bool) item rest :
  every clean item = true ->
  split_lines (item ++ (if crlf then String CR (String LF "") else String LF "") ++ rest)
  = item :: split_lines rest.
Proof.
  intros A. unfold split_lines. rewrite split_lines_on_item by assumption.
  destruct crlf; cbn [append split_lines_on rev_string].
  - change (Ascii.eqb CR LF) with false. cbn [split_lines_on rev_string].
    rewrite Ascii.eqb_refl. cbn [rev_string]. rewrite Ascii.eqb_refl.
    rewrite rev_string_involutive. reflexivity.
  - rewrite Ascii.eqb_refl.
    rewrite no_carriage_return by (apply every_rev_string; [assumption | reflexivity]).
    rewrite rev_string_involutive. reflexivity.
Qed.

Lemma split_lines_join (crlf : bool) l :
  l <> [] -> Forall (fun d => every clean d = true) l ->
  split_lines (join (if crlf then String CR (String LF "") else String LF "") l) = l.
Proof.
  induction l as [|d l IH]; [congruence | ]. intros _ A.
  inversion A as [|? ? Ad Al]; subst.
  destruct l as [|d' l].
  - cbn [join]. apply split_lines_single, Ad.
  - change (join ?sep (d :: d' :: l)) with (d ++ sep ++ join sep (d' :: l))%string.
    rewrite split_lines_cons by assumption. f_equal. apply IH; [discriminate | assumption].
Qed.

Lemma domain_char_clean c : domain_char c = true -> clean c = true /\ is_space c = false.
Proof. all_chars c; vm_compute; intros H; first [discriminate | split; reflexivity]. Qed.

Lemma sanitized_domain_chars d :
  sanitized_domain d = true -> every domain_char d = true /\ d <> "".
Proof.
  intros H. apply sanitized_domain_spec in H.
  pose proof (sanitizeDomain_Some _ _ H) as (text & _ & E & N & L & T).
  split; [ | assumption].
  assert (Low : toLowerCase d = d) by (rewrite E; apply toLowerCase_idempotent).
  apply every_spec. intros c I. apply domain_char_of.
  - apply (test_alphabet _ _ T), I.
  - apply (lower_chars_fixed _ _ Low I).
Qed.

Lemma sanitized_domain_clean d :
  sanitized_domain d = true -> every clean d = true.
Proof.
  intros H. apply sanitized_domain_chars in H as [A _]. revert A.
  apply every_weaken. intros c _ C. apply domain_char_clean, C.
Qed.

Lemma sanitized_domain_trim d : sanitized_domain d = true -> trim d = d.
Proof.
  intros H. apply sanitized_domain_chars in H as [A _]. apply trim_fixed.
  rewrite every_spec in A. intros c I. apply domain_char_clean. auto.
Qed.

Lemma traverse_strings sep l :
  Builtins.Array_join sep (map VString l) = Ok (join sep l).
Proof.
  unfold Builtins.Array_join.
  assert (T : Builtins.traverse
                (fun x => match x with
                          | VUndefined | VNull => Ok ""
                          | _ => ToString x
                          end) (map VString l) = Ok l).
  { induction l as [|d l IH]; [reflexivity | ].
    cbn [map Builtins.traverse ToString bind]. rewrite IH. reflexivity. }
  rewrite T. reflexivity.
Qed.

Lemma domain_list_strings v :
  is_domain_list v = true ->
  exists l, v = Validate.strings l /\ (List.length l <= 1000)%nat
            /\ forallb sanitized_domain l = true.
Proof.
  destruct v; try discriminate. cbn [is_domain_list]. intros H.
  apply andb_true_iff in H as [L A]. apply Nat.leb_le in L.
  assert (S : exists l, items = map VString l /\ forallb sanitized_domain l = true).
  { clear L. induction items as [|x items IH]; [exists []; auto | ].
    cbn [forallb] in A. apply andb_true_iff in A as [X A].
    destruct x; try discriminate. destruct (IH A) as (l & -> & A').
    exists (s :: l). cbn [map forallb]. rewrite X, A'. auto. }
  destruct S as (l & -> & A'). exists l. rewrite length_map in L. auto.
Qed.

Lemma read_back (validate crlf : bool) l :
  (List.length l <= 1000)%nat -> forallb sanitized_domain l = true ->
  Options.blacklist_of_field validate
    (VString (join (if crlf then String CR (String LF "") else String LF "") l)) = Ok l.
Proof.
  intros L A.
  assert (S : map trim l = l /\ filter (fun s => negb (String.eqb s "")) l = l
              /\ Forall (fun d => every clean d = true) l).
  { clear L. induction l as [|d l IH]; [repeat split; constructor | ].
    cbn [forallb] in A. apply andb_true_iff in A as [D A].
    destruct (IH A) as (I1 & I2 & I3).
    cbn [map filter]. rewrite (sanitized_domain_trim _ D), I1.
    destruct (sanitized_domain_chars _ D) as [_ N]. apply String.eqb_neq in N.
    rewrite N. cbn [negb]. rewrite I2. repeat split.
    constructor; [apply sanitized_domain_clean, D | assumption]. }
  destruct S as (S1 & S2 & S3).
  destruct l as [|d l].
  - destruct validate, crlf; reflexivity.
  - set (sep := if crlf then String CR (String LF "") else String LF "").
    assert (N : String.eqb (join sep (d :: l)) "" = false).
    { apply String.eqb_neq. cbn [forallb] in A. apply andb_true_iff in A as [D _].
      destruct (sanitized_domain_chars _ D) as [_ N].
      destruct d; [congruence | ]. destruct l; cbn; discriminate. }
    unfold Options.blacklist_of_field, Validate.or_else. cbn [truthy]. rewrite N. cbn [negb].
    destruct validate.
    + cbn [Validate.sanitizeDomainList]. subst sep.
      rewrite split_lines_join by (assumption || discriminate).
      change (map (fun d0 => Validate.sanitizeDomain (VString d0)) (d :: l))
        with (map Validate.sanitizeDomain (map VString (d :: l))) || rewrite <- map_map.
      rewrite drop_nulls_fixed.
      * rewrite firstn_short by assumption. reflexivity.
      * intros x I. apply sanitized_domain_spec. rewrite forallb_forall in A. auto.
    + cbn [ToString bind]. subst sep.
      rewrite split_lines_join by (assumption || discriminate).
      rewrite S1, S2. reflexivity.
Qed.

(** X5.  The blacklist survives the options page: the text that
    [restoreSettings] writes into the blacklist field for a sanitized
    blacklist is read back by [saveSettings] as the same list, with the
    validation library and without it, and also when the field hands its
    lines over separated by CR LF. *)
Theorem blacklist_round_trip (settings : value) (validate : bool) :
  is_domain_list (get settings "blacklist") = true ->
  exists text l,
    get settings "blacklist" = Validate.strings l
    /\ Options.blacklist_text settings = Ok text
    /\ Options.blacklist_of_field validate (VString text) = Ok l
    /\ Options.blacklist_of_field validate
         (VString (join (String CR (String LF "")) l)) = Ok l.
Proof.
  intros H. destruct (domain_list_strings _ H) as (l & E & L & A).
  exists (join (String LF "") l), l. split; [assumption | ]. split.
  - unfold Options.blacklist_text. rewrite E. unfold Validate.or_else, Validate.strings.
    cbn [truthy]. apply traverse_strings.
  - split; [apply (read_back validate false) | apply (read_back validate true)]; assumption.
Qed.

Lemma blacklist_round_trip_witness :
  let settings := obj [("blacklist", Validate.strings ["example.com"; "figma.com"])] in
  is_domain_list (get settings "blacklist") = true
  /\ exists text l,
       get settings "blacklist" = Validate.strings l
       /\ Options.blacklist_text settings = Ok text
       /\ Options.blacklist_of_field false (VString text) = Ok l
       /\ Options.blacklist_of_field false
            (VString (join (String CR (String LF "")) l)) = Ok l.
Proof.
  cbn zeta.
  assert (H : is_domain_list
                (get (obj [("blacklist", Validate.strings ["example.com"; "figma.com"])])
                     "blacklist") = true) by (vm_compute; reflexivity).
  split; [exact H | ].
  exact (blacklist_round_trip _ false H).
Defined.

(** ** Times of day *)

Lemma digit_of c lo hi :
  in_range (String lo "") (String hi "") c = true ->
  48 <= code lo -> code hi <= 57 ->
  hex_digit (code c - 48) = c /\ code lo - 48 <= code c - 48 <= code hi - 48.
Proof.
  unfold in_range. intros H L U. apply andb_true_iff in H as [A B].
  apply Z.leb_le in A. apply Z.leb_le in B. split; [ | lia].
  unfold hex_digit. replace (code c - 48 <? 10) with true by (symmetry; apply Z.ltb_lt; lia).
  replace (48 + (code c - 48)) with (code c) by lia.
  unfold code. rewrite N2Z.id. apply ascii_N_embedding.
Qed.

Lemma two_digits_of a b da db :
  hex_digit da = a -> hex_digit db = b -> 0 <= db <= 9 ->
  Spec.two_digits (10 * da + db) = String a (String b "").
Proof.
  intros <- <- R. unfold Spec.two_digits.
  replace ((10 * da + db) / 10) with da by (apply Z.div_unique with db; lia).
  replace ((10 * da + db) mod 10) with db by (apply Z.mod_unique with da; lia).
  reflexivity.
Qed.

Lemma Matches_two p q s :
  Matches (Validate.two (Class p) (Class q)) s ->
  exists a b, s = String a (String b "") /\ p a = true /\ q b = true.
Proof.
  intros H. apply Matches_Cat_inv in H as (s1 & s2 & -> & M1 & M2).
  apply Matches_Class_inv in M1 as (a & -> & A).
  apply Matches_Class_inv in M2 as (b & -> & B).
  exists a, b. repeat split; assumption.
Qed.

Lemma timeRegex_shape t :
  test Validate.timeRegex t = true ->
  exists h m, 0 <= h < 24 /\ 0 <= m < 60 /\ t = Spec.clock h m.
Proof.
  rewrite test_Matches. unfold Validate.timeRegex. intros H.
  apply Matches_Cat_inv in H as (hh & rest & -> & Mh & H).
  apply Matches_Cat_inv in H as (colon & mm & -> & Mc & Mm).
  apply Matches_chr in Mc as ->.
  apply Matches_two in Mm as (c & d & -> & C & D).
  apply digit_of in C as [C Cr]; [ | vm_compute; discriminate ..].
  apply digit_of in D as [D Dr]; [ | vm_compute; discriminate ..].
  change (code "0") with 48 in *. change (code "5") with 53 in *.
  change (code "9") with 57 in *.
  assert (Hh : exists a b da db,
             hh = String a (String b "") /\ hex_digit da = a /\ hex_digit db = b
             /\ 0 <= db <= 9 /\ 0 <= 10 * da + db < 24).
  { apply Matches_Alt_inv in Mh as [Mh | Mh].
    - apply Matches_two in Mh as (a & b & -> & A & B).
      apply digit_of in A as [A Ar]; [ | vm_compute; discriminate ..].
      apply digit_of in B as [B Br]; [ | vm_compute; discriminate ..].
      change (code "0") with 48 in *. change (code "1") with 49 in *.
      change (code "9") with 57 in *.
      exists a, b, (code a - 48), (code b - 48). repeat split; auto; lia.
    - apply Matches_Cat_inv in Mh as (s1 & s2 & -> & M1 & M2).
      apply Matches_chr in M1 as ->. apply Matches_Class_inv in M2 as (b & -> & B).
      apply digit_of in B as [B Br]; [ | vm_compute; discriminate ..].
      change (code "0") with 48 in *. change (code "3") with 51 in *.
      exists "2"%char, b, 2, (code b - 48). repeat split; auto; lia. }
  destruct Hh as (a & b & da & db & -> & A & B & Rb & Rh).
  exists (10 * da + db), (10 * (code c - 48) + (code d - 48)).
  split; [assumption | ]. split; [lia | ].
  unfold Spec.clock.
  rewrite (two_digits_of a b) by assumption.
  rewrite (two_digits_of c d) by (assumption || lia).
  reflexivity.
Qed.

(** X6.  The time sanitizer and the scheduler agree on what a time is: a
    string is handed on unchanged exactly when it is [HH:MM] for an hour
    below 24 and a minute below 60, and the content script reads every
    string so accepted as [HH * 60 + MM] minutes; anything else, of whatever
    type, yields the fallback, which is [00:00] when none is given. *)
Theorem sanitizeTimeString_accepts (time fallback : value) :
  let used := if is_undefined fallback then VString "00:00" else fallback in
  (exists h m,
      0 <= h < 24 /\ 0 <= m < 60 /\ time = VString (Spec.clock h m)
      /\ Validate.sanitizeTimeString time fallback = time
      /\ Content.minutes_of time = Ok (Fin (h * 60 + m) 0))
  \/ ((forall h m, 0 <= h < 24 -> 0 <= m < 60 -> time <> VString (Spec.clock h m))
      /\ Validate.sanitizeTimeString time fallback = used).
Proof.
  cbn zeta. unfold Validate.sanitizeTimeString.
  destruct time as [ | | b | n | t | items | p props];
    try (right; split; [intros; discriminate | reflexivity]).
  destruct (test Validate.timeRegex t) eqn:T.
  - left. apply timeRegex_shape in T as (h & m & Hh & Hm & ->).
    exists h, m. destruct (clock_minutes h m Hh Hm) as [_ M]. auto.
  - right. split; [ | reflexivity].
    intros h m Hh Hm [= ->]. destruct (clock_minutes h m Hh Hm) as [A _]. congruence.
Qed.

(** ** Colour-blind modes and palettes *)

Lemma sanitizeColorBlindMode_cases mode :
  let m := Validate.sanitizeColorBlindMode mode in
  (m = "none" \/ ((mode = VBool true \/ mode = VString m)
                  /\ In m ["protanopia"; "deuteranopia"; "tritanopia"; "achromatopsia"])).
Proof.
  cbn zeta. unfold Validate.sanitizeColorBlindMode.
  destruct mode as [ | | [] | n | m | items | p props];
    try (left; reflexivity).
  - right. split; [left; reflexivity | left; reflexivity].
  - cbn [is_bool]. unfold Validate.validModes. cbn [existsb].
    destruct (String.eqb m "none") eqn:E0;
      [apply String.eqb_eq in E0; subst; left; reflexivity | ].
    destruct (String.eqb m "protanopia") eqn:E1;
      [apply String.eqb_eq in E1; subst; right; split; [right | cbn]; auto | ].
    destruct (String.eqb m "deuteranopia") eqn:E2;
      [apply String.eqb_eq in E2; subst; right; split; [right | cbn]; auto | ].
    destruct (String.eqb m "tritanopia") eqn:E3;
      [apply String.eqb_eq in E3; subst; right; split; [right | cbn]; auto | ].
    destruct (String.eqb m "achromatopsia") eqn:E4;
      [apply String.eqb_eq in E4; subst; right; split; [right | cbn]; auto 6 | ].
    left; reflexivity.
Qed.

(** X7.  [sanitizeColorBlindMode] answers with one of the five modes, and
    with a mode other than [none] only for [true] (the legacy value, read
    as protanopia) or for the name of that mode; every mode it can answer
    with, [none] apart, names a palette of the configuration whose four
    colours are colours in lower-case hexadecimal digits. *)
Theorem sanitizeColorBlindMode_valid (mode : value) :
  let m := Validate.sanitizeColorBlindMode mode in
  In m Validate.validModes
  /\ Validate.sanitizeColorBlindMode (VString m) = m
  /\ (m = "none"
      \/ ((mode = VBool true \/ mode = VString m)
          /\ forallb (fun k => is_hex_colour (get (get Config.COLORBLIND_PALETTES m) k))
                     colours = true)).
Proof.
  cbn zeta. split; [ | split; [apply sanitizeColorBlindMode_fixed | ]].
  - destruct (sanitizeColorBlindMode_cases mode) as [-> | [_ I]]; [cbn; auto | ].
    cbn in I. cbn. tauto.
  - destruct (sanitizeColorBlindMode_cases mode) as [E | [O I]]; [auto | ].
    right. split; [assumption | ].
    cbn in I. destruct I as [<- | [<- | [<- | [<- | []]]]]; vm_compute; reflexivity.
Qed.

Lemma sanitizeColorPalette_returns palette d1 d2 d3 d4 defaults :
  member defaults "color1" = Ok d1 -> member defaults "color2" = Ok d2 ->
  member defaults "color3" = Ok d3 -> member defaults "color4" = Ok d4 ->
  Validate.sanitizeColorPalette palette defaults
  = Ok (obj [("color1", Validate.sanitizeHexColor (get_opt palette "color1") d1);
             ("color2", Validate.sanitizeHexColor (get_opt palette "color2") d2);
             ("color3", Validate.sanitizeHexColor (get_opt palette "color3") d3);
             ("color4", Validate.sanitizeHexColor (get_opt palette "color4") d4)]).
Proof.
  intros M1 M2 M3 M4. unfold Validate.sanitizeColorPalette.
  rewrite M1, M2, M3, M4. reflexivity.
Qed.

Lemma member_get v k :
  is_null v || is_undefined v = false -> member v k = Ok (get v k).
Proof. destruct v; cbn; intros; (reflexivity || discriminate). Qed.

Lemma hex_defaults defaults :
  forallb (fun k => is_hex_colour (get defaults k)) colours = true ->
  is_null defaults || is_undefined defaults = false
  /\ is_hex_colour (get defaults "color1") = true
  /\ is_hex_colour (get defaults "color2") = true
  /\ is_hex_colour (get defaults "color3") = true
  /\ is_hex_colour (get defaults "color4") = true.
Proof.
  cbn [forallb colours]. rewrite !andb_true_iff. intros (A & B & C & D & _).
  repeat split; try assumption. destruct defaults; try reflexivity; discriminate.
Qed.

Lemma sanitizeColorPalette_sanitized palette defaults :
  forallb (fun k => is_hex_colour (get defaults k)) colours = true ->
  exists result,
    Validate.sanitizeColorPalette palette defaults = Ok (obj result)
    /\ keys result = colours
    /\ forallb (fun k => is_hex_colour (get (obj result) k)) colours = true.
Proof.
  intros H. apply hex_defaults in H as (N & H1 & H2 & H3 & H4).
  eexists. split.
  - apply sanitizeColorPalette_returns; apply member_get, N.
  - split; [reflexivity | ].
    cbn [forallb colours]. unfold obj.
    change (get (VObject ObjectPrototype ?l) ?k)
      with (match lookup k l with Some x => x | None => VUndefined end).
    cbn [lookup String.eqb Ascii.eqb Bool.eqb].
    rewrite !sanitizeHexColor_hex by assumption. reflexivity.
Qed.

(** X8.  [sanitizeColorPalette] with defaults that hold four colours: for
    every palette, also [null], [undefined] or a value that is no object,
    it returns an object with exactly the properties [color1] to [color4],
    each a colour in lower-case hexadecimal digits.  With [null] or
    [undefined] for defaults it raises a TypeError. *)
Theorem sanitizeColorPalette_hex (palette defaults : value) :
  (forallb (fun k => is_hex_colour (get defaults k)) colours = true ->
   exists result,
     Validate.sanitizeColorPalette palette defaults = Ok (obj result)
     /\ keys result = colours
     /\ forallb (fun k => is_hex_colour (get (obj result) k)) colours = true)
  /\ (is_null defaults || is_undefined defaults = true ->
      Validate.sanitizeColorPalette palette defaults = Throw TypeError).
Proof.
  split; [apply sanitizeColorPalette_sanitized | ].
  destruct defaults; try discriminate; reflexivity.
Qed.

Lemma sanitizeColorPalette_hex_witness :
  (exists result,
      Validate.sanitizeColorPalette (obj [("color1", VString "#ABC"); ("color2", num 7)])
        Config.DEFAULT_SETTINGS = Ok (obj result)
      /\ keys result = colours
      /\ forallb (fun k => is_hex_colour (get (obj result) k)) colours = true)
  /\ Validate.sanitizeColorPalette VNull VUndefined = Throw TypeError.
Proof.
  destruct (sanitizeColorPalette_hex (obj [("color1", VString "#ABC"); ("color2", num 7)])
              Config.DEFAULT_SETTINGS) as [A _].
  destruct (sanitizeColorPalette_hex VNull VUndefined) as [_ B].
  split; [apply A; vm_compute; reflexivity | apply B; reflexivity].
Defined.

Lemma defaults_hex g :
  forallb (fun k => is_hex_colour (get (Content.cyberdarkDefaults g) k)) colours = true.
Proof.
  unfold Content.cyberdarkDefaults, Content.config.
  destruct (Content.CyberdarkConfig_defined g); vm_compute; reflexivity.
Qed.

Lemma main_css_returns settings palette :
  forallb (fun k => is_hex_colour (get palette k)) colours = true ->
  exists css, Content.main_css settings palette = Ok css.
Proof.
  cbn [forallb colours]. rewrite !andb_true_iff. intros (A & B & C & D & _).
  unfold Content.main_css.
  destruct (get palette "color1"); try discriminate.
  destruct (get palette "color2"); try discriminate.
  destruct (get palette "color3"); try discriminate.
  destruct (get palette "color4"); try discriminate.
  cbn [ToString bind]. eauto.
Qed.

(** X9.  Where the validation library is loaded, the four colours that
    [applyCyberdarkStyles] writes into the style sheet are colours in
    lower-case hexadecimal digits, whatever the settings hold and whichever
    colour-blind palette is chosen, and the text of the style sheet can
    then be produced.  The palette is obtained for every settings value
    other than [null] and [undefined] whose colour-blind mode is no
    object. *)
Theorem stylesheet_colours_are_hex (g : Content.Globals) (settings : value) :
  Content.CyberdarkValidate_defined g = true ->
  (forall palette,
      Content.palette_of g settings = Ok palette ->
      forallb (fun k => is_hex_colour (get palette k)) colours = true
      /\ exists css, Content.main_css settings palette = Ok css)
  /\ (is_null settings || is_undefined settings = false ->
      is_object (get settings "colorBlindMode") = false ->
      exists palette, Content.palette_of g settings = Ok palette).
Proof.
  intros V.
  assert (S : forall p, exists result,
             Validate.sanitizeColorPalette p (Content.cyberdarkDefaults g) = Ok (obj result)
             /\ forallb (fun k => is_hex_colour (get (obj result) k)) colours = true).
  { intros p. destruct (sanitizeColorPalette_sanitized p _ (defaults_hex g))
      as (result & E & _ & H). eauto. }
  unfold Content.palette_of. rewrite V. split.
  - intros palette.
    destruct (member settings "colorBlindMode") as [mode | e]; cbn [bind]; [ | discriminate].
    match goal with
    | |- bind ?c _ = _ -> _ => destruct c as [chosen | e]; cbn [bind]; [ | discriminate]
    end.
    destruct (S chosen) as (result & E & H). rewrite E. intros [= <-].
    split; [assumption | apply main_css_returns, H].
  - intros N O. rewrite (member_get _ _ N). cbn [bind].
    set (mode := if is_bool true (get settings "colorBlindMode")
                 then VString "protanopia" else get settings "colorBlindMode").
    assert (T : exists key, ToString mode = Ok key).
    { subst mode. destruct (get settings "colorBlindMode") as [ | | [] | n | s | | ];
        try discriminate; cbn; eauto. }
    destruct T as (key & T). rewrite T. cbn [bind].
    match goal with
    | |- exists palette, bind ?c _ = _ =>
        assert (C : exists chosen, c = Ok chosen)
    end.
    { destruct (truthy mode && negb (is_string "none" mode)
                && truthy (Config.colorblind_palettes (Content.config g))); [ | eauto].
      destruct (truthy (get (Config.colorblind_palettes (Content.config g)) key)); [eauto | ].
      destruct (existsb (String.eqb key) Content.object_prototype_members); eauto. }
    destruct C as (chosen & ->). cbn [bind].
    destruct (S chosen) as (result & E & _). rewrite E. eauto.
Qed.

Lemma stylesheet_colours_are_hex_witness :
  let g := Samples.globals Samples.plain_host in
  let settings := obj [("color1", VString "red; } body { display: none");
                       ("color2", VString "#0F0");
                       ("colorBlindMode", VString "none")] in
  Content.CyberdarkValidate_defined g = true
  /\ Content.palette_of g settings
     = Ok (Config.palette "#00ffff" "#0f0" "#ff00ff" "#ff0000")
  /\ forallb (fun k => is_hex_colour
                         (get (Config.palette "#00ffff" "#0f0" "#ff00ff" "#ff0000") k))
             colours = true.
Proof.
  cbn zeta.
  destruct (stylesheet_colours_are_hex (Samples.globals Samples.plain_host)
              (obj [("color1", VString "red; } body { display: none");
                    ("color2", VString "#0F0");
                    ("colorBlindMode", VString "none")]) eq_refl) as [A _].
  assert (P : Content.palette_of (Samples.globals Samples.plain_host)
                (obj [("color1", VString "red; } body { display: none");
                      ("color2", VString "#0F0");
                      ("colorBlindMode", VString "none")])
              = Ok (Config.palette "#00ffff" "#0f0" "#ff00ff" "#ff0000"))
    by (vm_compute; reflexivity).
  split; [reflexivity | ]. split; [exact P | ]. apply (A _ P).
Defined.

(** ** Per-site overrides *)

Lemma fields_set o k v :
  fields_sanitized o -> sanitized_field k v = true -> fields_sanitized (set k v o).
Proof.
  intros P S f x I. apply In_set in I as [[-> ->] | I]; auto.
Qed.

Lemma fields_cond_set (c : bool) o k v :
  fields_sanitized o -> (c = true -> sanitized_field k v = true) ->
  fields_sanitized (if c then set k v o else o).
Proof. intros P S. destruct c; [apply fields_set | ]; auto. Qed.

Lemma override_colors_sanitized ds : fields_sanitized (Validate.override_colors ds).
Proof.
  unfold Validate.override_colors. cbn zeta.
  repeat (apply fields_cond_set;
          [ | intros _; apply sanitizeHexColor_hex; reflexivity]).
  intros f x [].
Qed.

Lemma override_flags_sanitized ds o :
  fields_sanitized o -> fields_sanitized (Validate.override_flags ds o).
Proof.
  intros P. unfold Validate.override_flags. cbn zeta.
  repeat (apply fields_cond_set; [ | intros _; reflexivity]). exact P.
Qed.

Lemma mode_sanitized mode :
  sanitized_field "colorBlindMode" (VString (Validate.sanitizeColorBlindMode mode)) = true.
Proof.
  change (existsb (String.eqb (Validate.sanitizeColorBlindMode mode)) Validate.validModes
          = true).
  apply existsb_exists.
  destruct (sanitizeColorBlindMode_cases mode) as [-> | [_ I]].
  - exists "none". split; [cbn; auto | reflexivity].
  - eexists. split; [right; exact I | apply String.eqb_refl].
Qed.

Lemma override_of_sanitized ds o :
  Validate.override_of ds = Ok o -> fields_sanitized o.
Proof.
  unfold Validate.override_of. cbn zeta.
  pose proof (override_flags_sanitized ds _ (override_colors_sanitized ds)) as P0.
  revert P0. generalize (Validate.override_flags ds (Validate.override_colors ds)).
  intros o0 P0.
  assert (S1 : forall o1,
             (if truthy (get ds "fontSize")
              then n <- Validate.sanitizeFontSize (get ds "fontSize") ;;
                   Ok (set "fontSize" (VNumber n) o0)
              else Ok o0) = Ok o1 -> fields_sanitized o1).
  { intros o1. destruct (truthy (get ds "fontSize")); [ | intros [= <-]; assumption].
    destruct (Validate.sanitizeFontSize (get ds "fontSize")) as [n | e] eqn:E; cbn [bind];
      [ | discriminate].
    intros [= <-]. apply fields_set; [assumption | ].
    apply (sanitizeFontSize_within _ _ E). }
  destruct (if truthy (get ds "fontSize")
            then n <- Validate.sanitizeFontSize (get ds "fontSize") ;;
                 Ok (set "fontSize" (VNumber n) o0)
            else Ok o0) as [o1 | e]; cbn [bind]; [ | discriminate].
  specialize (S1 o1 eq_refl).
  assert (S2 : forall o2,
             (if truthy (get ds "lineHeight")
              then n <- Validate.sanitizeLineHeight (get ds "lineHeight") ;;
                   Ok (set "lineHeight" (VNumber n) o1)
              else Ok o1) = Ok o2 -> fields_sanitized o2).
  { intros o2. destruct (truthy (get ds "lineHeight")); [ | intros [= <-]; assumption].
    destruct (Validate.sanitizeLineHeight (get ds "lineHeight")) as [n | e] eqn:E;
      cbn [bind]; [ | discriminate].
    intros [= <-]. apply fields_set; [assumption | ].
    apply (sanitizeLineHeight_within _ _ E). }
  destruct (if truthy (get ds "lineHeight")
            then n <- Validate.sanitizeLineHeight (get ds "lineHeight") ;;
                 Ok (set "lineHeight" (VNumber n) o1)
            else Ok o1) as [o2 | e]; cbn [bind]; [ | discriminate].
  specialize (S2 o2 eq_refl).
  intros [= <-]. apply fields_cond_set; [assumption | ].
  intros _. apply mode_sanitized.
Qed.

Lemma override_map_sanitized parsed pending safe :
  (forall d v, In (d, v) safe -> Spec.stems_from parsed pending d v) ->
  is_override_map (VObject NullPrototype safe) = true.
Proof.
  intros S. cbn [is_override_map]. apply forallb_forall. intros [d v] I.
  destruct (S d v I) as (key & o & _ & D & O & ->).
  cbn [fst snd]. apply andb_true_iff. split.
  - apply sanitized_domain_spec. apply (sanitizeDomain_any_fixed _ _ D).
  - apply forallb_forall. intros [f x] F. apply (override_of_sanitized _ _ O), F.
Qed.

(** X10.  Every map that [sanitizePerSiteOverrides] returns is sanitized
    throughout: its keys are domains in sanitized form, and the properties
    of each override are colours in lower-case hexadecimal digits, booleans
    for the four flags, a font size between 12 and 24, a line height between
    1.0 and 2.2 and one of the five colour-blind modes. *)
Theorem overrides_are_sanitized (h : Host) (overrides result : value) :
  Validate.sanitizePerSiteOverrides h overrides = Ok result ->
  is_override_map result = true.
Proof.
  intros H. apply sanitizePerSiteOverrides_stems in H as (safe & -> & S).
  apply (override_map_sanitized _ _ _ S).
Qed.

Lemma overrides_are_sanitized_witness :
  let untidy :=
    obj [(" Example.COM ",
          obj [("color1", VString "#ABCDEF"); ("color2", VString "javascript:alert(1)");
               ("fontSize", VString "900"); ("lineHeight", num 2);
               ("textShadow", VString "yes"); ("colorBlindMode", VString "sepia");
               ("onload", VString "x")]);
         ("not a domain", obj [("color1", VString "#000")])] in
  Validate.sanitizePerSiteOverrides Samples.plain_host untidy
  = Ok (VObject NullPrototype
          [("example.com",
            VObject NullPrototype
              [("color1", VString "#abcdef"); ("color2", VString "#00ff00");
               ("textShadow", VBool true); ("fontSize", num 24);
               ("lineHeight", num 2); ("colorBlindMode", VString "none")])])
  /\ is_override_map
       (VObject NullPrototype
          [("example.com",
            VObject NullPrototype
              [("color1", VString "#abcdef"); ("color2", VString "#00ff00");
               ("textShadow", VBool true); ("fontSize", num 24);
               ("lineHeight", num 2); ("colorBlindMode", VString "none")])]) = true.
Proof.
  cbn zeta.
  assert (E : Validate.sanitizePerSiteOverrides Samples.plain_host
                (obj [(" Example.COM ",
                       obj [("color1", VString "#ABCDEF");
                            ("color2", VString "javascript:alert(1)");
                            ("fontSize", VString "900"); ("lineHeight", num 2);
                            ("textShadow", VString "yes");
                            ("colorBlindMode", VString "sepia");
                            ("onload", VString "x")]);
                      ("not a domain", obj [("color1", VString "#000")])])
              = Ok (VObject NullPrototype
                      [("example.com",
                        VObject NullPrototype
                          [("color1", VString "#abcdef"); ("color2", VString "#00ff00");
                           ("textShadow", VBool true); ("fontSize", num 24);
                           ("lineHeight", num 2); ("colorBlindMode", VString "none")])]))
    by (vm_compute; reflexivity).
  split; [exact E | exact (overrides_are_sanitized _ _ _ E)].
Defined.

(** *** Inputs that are no objects *)

Lemma digits_of_uint u : every is_digit (DecimalString.NilEmpty.string_of_uint u) = true.
Proof. induction u; cbn [DecimalString.NilEmpty.string_of_uint]; rewrite ?every_cons, ?IHu; reflexivity. Qed.

Lemma digits_of_nat i : every is_digit (decimal_of_nat i) = true.
Proof. destruct i; [reflexivity | apply digits_of_uint]. Qed.

Lemma digit_plain c : is_digit c = true -> is_space c = false /\ lower_char c = c.
Proof. all_chars c; vm_compute; intros H; first [discriminate | split; reflexivity]. Qed.

Lemma toLowerCase_fixed s :
  (forall c, In c (list_ascii_of_string s) -> lower_char c = c) -> toLowerCase s = s.
Proof.
  induction s as [|a s IH]; [reflexivity | ]. intros H. cbn [toLowerCase].
  rewrite (H a), IH; [reflexivity | | left; reflexivity].
  intros c I. apply H. right. assumption.
Qed.

Lemma digits_no_domain s :
  every is_digit s = true -> Validate.sanitizeDomain (VString s) = None.
Proof.
  intros D. destruct (Validate.sanitizeDomain (VString s)) as [d | ] eqn:E; [ | reflexivity].
  exfalso. rewrite every_spec in D.
  apply sanitizeDomain_Some in E as (text & [= <-] & E & _ & _ & T).
  rewrite trim_fixed in E by (intros c I; apply digit_plain; auto).
  rewrite toLowerCase_fixed in E by (intros c I; apply digit_plain; auto).
  subst d. apply domainRegex_shape in T as [T | (name & tld & -> & _)].
  - rewrite toLowerCase_fixed in T by (intros c I; apply digit_plain; auto).
    subst s. specialize (D "l"%char). cbn in D. discriminate D. auto.
  - specialize (D "."%char). cbn in D. discriminate D.
    apply In_chars_app. right. left. reflexivity.
Qed.

Lemma index_keys {A} (items : list A) k :
  In k (keys (indexed items)) -> every is_digit k = true.
Proof.
  unfold keys, indexed. intros I. apply in_map_iff in I as ([k' v] & <- & I).
  apply in_combine_l in I. apply in_map_iff in I as (i & <- & _).
  apply digits_of_nat.
Qed.

Lemma overrides_loop_skips parsed pending safe :
  (forall key, In key pending ->
     returns (call_hasOwnProperty parsed key) = true
     /\ Validate.sanitizeDomain (VString key) = None) ->
  Validate.overrides_loop parsed pending safe = Ok safe.
Proof.
  induction pending as [|key rest IH]; intros H; [reflexivity | ].
  cbn [Validate.overrides_loop].
  destruct (H key (or_introl eq_refl)) as [R D].
  destruct (call_hasOwnProperty parsed key) as [own | e]; [ | discriminate].
  cbn [bind]. rewrite D.
  assert (I : Validate.overrides_loop parsed rest safe = Ok safe)
    by (apply IH; intros k Ik; apply H; right; assumption).
  destruct (negb own); [assumption | ].
  destruct (Validate.forbidden_key key); assumption.
Qed.

Lemma sanitize_parsed_non_object parsed :
  is_record parsed = false ->
  Validate.sanitize_parsed parsed = Ok (VObject NullPrototype []).
Proof.
  intros R. unfold Validate.sanitize_parsed.
  rewrite overrides_loop_skips; [reflexivity | ].
  intros key I.
  destruct parsed as [ | | b | n | s | items | p props]; try destruct I; try discriminate.
  - split; [reflexivity | ]. apply digits_no_domain.
    apply (index_keys (chars s)). assumption.
  - split; [reflexivity | ]. apply digits_no_domain.
    apply (index_keys items). assumption.
Qed.

(** X11.  [sanitizePerSiteOverrides] answers with the empty map for every
    input that does not denote an object with named properties: for
    [undefined], [null], a boolean, a number and an array; for a text that
    [JSON.parse] refuses; and for a text that parses to any of these or to
    a string.  It does not raise on them. *)
Theorem overrides_of_non_objects (h : Host) (overrides : value) :
  is_record (Spec.parsed_input h overrides) = false ->
  Validate.sanitizePerSiteOverrides h overrides = Ok (VObject NullPrototype []).
Proof.
  unfold Validate.sanitizePerSiteOverrides, Spec.parsed_input.
  destruct overrides as [ | | b | n | text | items | p props]; try reflexivity.
  - destruct (JSON_parse h text) as [parsed | ]; [ | reflexivity].
    apply sanitize_parsed_non_object.
  - intros _. apply (sanitize_parsed_non_object (VArray items)). reflexivity.
  - discriminate.
Qed.

Lemma overrides_of_non_objects_witness :
  let listed := VArray [obj [("example.com", obj [("color1", VString "#123456")])]] in
  let h := Samples.parses_as "[1, 2]" (VArray [num 1; num 2]) in
  (is_record (Spec.parsed_input Samples.plain_host listed) = false
   /\ Validate.sanitizePerSiteOverrides Samples.plain_host listed
      = Ok (VObject NullPrototype []))
  /\ (is_record (Spec.parsed_input h (VString "[1, 2]")) = false
      /\ Validate.sanitizePerSiteOverrides h (VString "[1, 2]")
         = Ok (VObject NullPrototype []))
  /\ (is_record (Spec.parsed_input h (VString "{")) = false
      /\ Validate.sanitizePerSiteOverrides h (VString "{")
         = Ok (VObject NullPrototype [])).
Proof.
  cbn zeta.
  split; [ | split]; (split; [reflexivity | ]).
  - apply (overrides_of_non_objects Samples.plain_host). reflexivity.
  - apply (overrides_of_non_objects (Samples.parses_as "[1, 2]" (VArray [num 1; num 2]))).
    reflexivity.
  - apply (overrides_of_non_objects (Samples.parses_as "[1, 2]" (VArray [num 1; num 2]))).
    reflexivity.
Defined.

(** ** The validated record *)

Lemma sanitizeTimeString_time time fallback :
  is_time fallback = true -> is_time (Validate.sanitizeTimeString time fallback) = true.
Proof.
  intros F. unfold Validate.sanitizeTimeString.
  destruct fallback; try discriminate. cbn [is_undefined].
  destruct time; try assumption.
  destruct (test Validate.timeRegex s0) eqn:T; assumption.
Qed.

Lemma sanitized_schedule_is_schedule settings :
  is_schedule (Spec.sanitized_schedule settings Config.DEFAULT_SETTINGS) = true.
Proof.
  unfold Spec.sanitized_schedule.
  destruct (truthy (get settings "schedule") && is_object (get settings "schedule")).
  - unfold is_schedule, obj.
    change (get (VObject ObjectPrototype ?l) ?k)
      with (match lookup k l with Some x => x | None => VUndefined end).
    cbn [keys map fst same lookup String.eqb Ascii.eqb Bool.eqb andb is_boolean].
    rewrite !sanitizeTimeString_time by reflexivity. reflexivity.
  - vm_compute. reflexivity.
Qed.

Lemma record_validated c1 c2 c3 c4 ts hc fo rm fs lh cb bl pso dm sch :
  is_hex_colour c1 = true -> is_hex_colour c2 = true ->
  is_hex_colour c3 = true -> is_hex_colour c4 = true ->
  is_within (Fin 12 0) (Fin 24 0) fs = true ->
  is_within (Fin 10 (-1)) (Fin 22 (-1)) lh = true ->
  valid_mode cb = true -> is_domain_list bl = true ->
  is_override_map pso = true -> is_schedule sch = true ->
  validated_settings
    (Spec.record c1 c2 c3 c4 (VBool ts) (VBool hc) (VBool fo) (VBool rm)
                 fs lh cb bl pso (VBool dm) sch) = true.
Proof.
  intros H1 H2 H3 H4 Hfs Hlh Hcb Hbl Hpso Hsch.
  unfold validated_settings, Spec.record, obj.
  change (get (VObject ObjectPrototype ?l) ?k)
    with (match lookup k l with Some x => x | None => VUndefined end).
  cbn [keys map fst same lookup String.eqb Ascii.eqb Bool.eqb andb is_boolean
       forallb colours].
  rewrite H1, H2, H3, H4, Hfs, Hlh, Hcb, Hbl, Hpso, Hsch. reflexivity.
Qed.

Lemma strings_domain_list l :
  (List.length l <= 1000)%nat -> forallb sanitized_domain l = true ->
  is_domain_list (Validate.strings l) = true.
Proof.
  intros L A. unfold Validate.strings. cbn [is_domain_list].
  rewrite length_map. apply andb_true_iff. split; [apply Nat.leb_le, L | ].
  rewrite forallb_forall in *. intros x I. apply in_map_iff in I as (d & <- & I). auto.
Qed.

(** X12.  What [validateSettingsObject] returns for an object, with the
    defaults of the extension: a record of exactly fifteen properties in a
    fixed order (so that no other property of the input survives), whose
    colours are colours in lower-case hexadecimal digits, whose flags are
    booleans, whose font size and line height lie in their ranges, whose
    colour-blind mode is one of the five, whose blacklist holds at most 1000
    sanitized domains, whose overrides are a sanitized map and whose
    schedule holds two times of day.  For a value that is no object, or a
    falsy one, it returns a copy of the defaults. *)
Theorem validateSettingsObject_validates (h : Host) (settings : value) :
  (truthy settings && is_object settings = false ->
   Validate.validateSettingsObject h settings Config.DEFAULT_SETTINGS
   = Ok Config.DEFAULT_SETTINGS)
  /\ (truthy settings && is_object settings = true ->
      forall validated,
        Validate.validateSettingsObject h settings Config.DEFAULT_SETTINGS = Ok validated ->
        validated_settings validated = true).
Proof.
  split.
  - intros F. unfold Validate.validateSettingsObject.
    replace (negb (truthy settings) || negb (is_object settings)) with true;
      [reflexivity | ].
    destruct (truthy settings), (is_object settings); (reflexivity || discriminate).
  - intros T validated. rewrite (validateSettingsObject_record h settings T).
    destruct (Validate.sanitizeFontSize (get settings "fontSize")) as [fs | e] eqn:Efs;
      cbn [bind]; [ | discriminate].
    destruct (Validate.sanitizeLineHeight (get settings "lineHeight")) as [lh | e] eqn:Elh;
      cbn [bind]; [ | discriminate].
    destruct (Validate.sanitizePerSiteOverrides h
                (Validate.or_else (get settings "perSiteOverrides") (obj [])))
      as [pso | e] eqn:Epso; cbn [bind]; [ | discriminate].
    intros [= <-]. apply record_validated.
    + apply sanitizeHexColor_hex. reflexivity.
    + apply sanitizeHexColor_hex. reflexivity.
    + apply sanitizeHexColor_hex. reflexivity.
    + apply sanitizeHexColor_hex. reflexivity.
    + apply (sanitizeFontSize_within _ _ Efs).
    + apply (sanitizeLineHeight_within _ _ Elh).
    + apply mode_sanitized.
    + apply strings_domain_list;
        [apply sanitizeDomainList_length | apply sanitizeDomainList_all].
    + apply sanitizePerSiteOverrides_stems in Epso as (safe & -> & S).
      apply (override_map_sanitized _ _ _ S).
    + apply sanitized_schedule_is_schedule.
Qed.

Lemma validateSettingsObject_validates_witness :
  (truthy (num 0) && is_object (num 0) = false
   /\ Validate.validateSettingsObject Samples.plain_host (num 0) Config.DEFAULT_SETTINGS
      = Ok Config.DEFAULT_SETTINGS)
  /\ (truthy Cases.untidy_settings && is_object Cases.untidy_settings = true
      /\ Validate.validateSettingsObject Samples.plain_host Cases.untidy_settings
           Config.DEFAULT_SETTINGS
         = Ok Cases.tidied_settings
      /\ validated_settings Cases.tidied_settings = true).
Proof.
  split.
  - split; [reflexivity | ].
    apply (validateSettingsObject_validates Samples.plain_host (num 0)). reflexivity.
  - split; [reflexivity | ].
    assert (E : Validate.validateSettingsObject Samples.plain_host Cases.untidy_settings
                  Config.DEFAULT_SETTINGS = Ok Cases.tidied_settings)
      by (vm_compute; reflexivity).
    split; [exact E | ].
    apply (validateSettingsObject_validates Samples.plain_host Cases.untidy_settings);
      [reflexivity | exact E].
Defined.

(** ** Signed settings *)

Lemma toInt32_range z : - 2 ^ 31 <= Validate.toInt32 z < 2 ^ 31.
Proof.
  unfold Validate.toInt32.
  pose proof (Z.mod_pos_bound (z + 2 ^ 31) (2 ^ 32) ltac:(lia)). lia.
Qed.

Lemma rolling_range str hash :
  - 2 ^ 31 <= hash < 2 ^ 31 -> - 2 ^ 31 <= Validate.rolling str hash < 2 ^ 31.
Proof.
  revert hash. induction str as [|c str IH]; intros hash R; [assumption | ].
  cbn [Validate.rolling]. apply IH. apply toInt32_range.
Qed.

Lemma hex_bytes_checked :
  forallb (fun n => let t := Validate.hex_byte (Z.of_nat n) in
                    Nat.eqb (String.length t) 2 && every lower_hex t)
          (seq 0 256) = true.
Proof. vm_compute. reflexivity. Qed.

Lemma hex_byte_shape b :
  0 <= b < 256 ->
  String.length (Validate.hex_byte b) = 2%nat /\ every lower_hex (Validate.hex_byte b) = true.
Proof.
  intros R. pose proof hex_bytes_checked as A. rewrite forallb_forall in A.
  specialize (A (Z.to_nat b)). rewrite in_seq in A.
  assert (I : (0 <= Z.to_nat b < 0 + 256)%nat) by lia. specialize (A I).
  rewrite Z2Nat.id in A by lia. cbn zeta in A.
  apply andb_true_iff in A as [L E]. apply Nat.eqb_eq in L. auto.
Qed.

Lemma concat_empty_cons s l : String.concat "" (s :: l) = (s ++ String.concat "" l)%string.
Proof.
  destruct l; cbn [String.concat]; [rewrite append_nil_r | ]; reflexivity.
Qed.

Lemma hex_bytes_shape bytes :
  Forall (fun b => 0 <= b < 256) bytes ->
  String.length (String.concat "" (map Validate.hex_byte bytes))
  = (2 * List.length bytes)%nat
  /\ every lower_hex (String.concat "" (map Validate.hex_byte bytes)) = true.
Proof.
  induction 1 as [|b bytes R _ [L E]]; [split; reflexivity | ].
  cbn [map]. rewrite concat_empty_cons, length_append, every_app, L, E.
  destruct (hex_byte_shape b R) as [-> ->]. cbn [List.length]. split; [lia | reflexivity].
Qed.

(** X13.  The checksum of exported settings.  Without [crypto.subtle] it is
    the hexadecimal text of a signed 32-bit integer, and it exists for every
    value but [undefined], on which the computation raises a TypeError.
    With [crypto.subtle] it exists for every value, and for a digest of
    bytes it consists of two lower-case hexadecimal digits per byte. *)
Theorem calculateChecksum_format (h : Host) (data : value) :
  match subtle_digest h with
  | None =>
      (data = VUndefined /\ Validate.calculateChecksum h data = Throw TypeError)
      \/ (data <> VUndefined
          /\ exists z, - 2 ^ 31 <= z < 2 ^ 31
                       /\ Validate.calculateChecksum h data = Ok (Validate.hex_of_Z z))
  | Some digest =>
      exists bytes checksum,
        Validate.calculateChecksum h data = Ok checksum
        /\ (exists text, bytes = digest text)
        /\ (Forall (fun b => 0 <= b < 256) bytes ->
            String.length checksum = (2 * List.length bytes)%nat
            /\ every lower_hex checksum = true)
  end.
Proof.
  unfold Validate.calculateChecksum.
  destruct (subtle_digest h) as [digest | ].
  - eexists. eexists. split; [reflexivity | ]. split; [eauto | apply hex_bytes_shape].
  - destruct (JSON_stringify data) as [t | ] eqn:J.
    + right. split; [intros ->; discriminate | ].
      exists (Validate.rolling t 0). split; [apply rolling_range; lia | reflexivity].
    + left. split; [apply JSON_stringify_defined, J | reflexivity].
Qed.

Lemma signSettings_returns (h : Host) (settings : value) checksum :
  Validate.calculateChecksum h settings = Ok checksum ->
  Validate.signSettings h settings
  = Ok (obj [("version", VString "1.0"); ("checksum", VString checksum);
             ("data", settings)])
  /\ Validate.verifySettings h
       (obj [("version", VString "1.0"); ("checksum", VString checksum);
             ("data", settings)])
     = Ok (if truthy settings then settings else VNull).
Proof.
  intros C. unfold Validate.signSettings. rewrite C. split; [reflexivity | ].
  unfold Validate.verifySettings, obj.
  change (get (VObject ObjectPrototype ?l) ?k)
    with (match lookup k l with Some x => x | None => VUndefined end).
  cbn [truthy is_object typeof String.eqb Ascii.eqb Bool.eqb negb orb andb lookup].
  destruct (truthy settings); [ | reflexivity].
  cbn [negb]. rewrite C. cbn [bind is_string]. rewrite String.eqb_refl. reflexivity.
Qed.

(** X14.  Signing and verifying: the envelope that [signSettings] makes of
    truthy settings is accepted by [verifySettings], which gives the
    settings back, on every platform.  Falsy settings are signed as well
    where a checksum exists, but their envelope is rejected. *)
Theorem sign_then_verify (h : Host) (settings : value) :
  (truthy settings = true ->
   exists signed,
     Validate.signSettings h settings = Ok signed
     /\ Validate.verifySettings h signed = Ok settings)
  /\ (truthy settings = false ->
      forall signed,
        Validate.signSettings h settings = Ok signed ->
        Validate.verifySettings h signed = Ok VNull).
Proof.
  split.
  - intros T. destruct (calculateChecksum_returns h settings T) as (c & C).
    destruct (signSettings_returns h settings c C) as [S V].
    eexists. split; [exact S | ]. rewrite V, T. reflexivity.
  - intros F signed S.
    destruct (Validate.calculateChecksum h settings) as [c | e] eqn:C.
    + destruct (signSettings_returns h settings c C) as [S' V].
      rewrite S' in S. injection S as <-. rewrite V, F. reflexivity.
    + unfold Validate.signSettings in S. rewrite C in S. discriminate.
Qed.

Lemma sign_then_verify_witness :
  (truthy Config.DEFAULT_SETTINGS = true
   /\ exists signed,
        Validate.signSettings Samples.plain_host Config.DEFAULT_SETTINGS = Ok signed
        /\ Validate.verifySettings Samples.plain_host signed = Ok Config.DEFAULT_SETTINGS)
  /\ (truthy (num 0) = false
      /\ Validate.signSettings Samples.plain_host (num 0)
         = Ok (obj [("version", VString "1.0"); ("checksum", VString "30");
                    ("data", num 0)])
      /\ Validate.verifySettings Samples.plain_host
           (obj [("version", VString "1.0"); ("checksum", VString "30");
                 ("data", num 0)]) = Ok VNull).
Proof.
  destruct (sign_then_verify Samples.plain_host Config.DEFAULT_SETTINGS) as [A _].
  destruct (sign_then_verify Samples.plain_host (num 0)) as [_ B].
  split.
  - split; [reflexivity | apply A; reflexivity].
  - split; [reflexivity | ].
    assert (S : Validate.signSettings Samples.plain_host (num 0)
                = Ok (obj [("version", VString "1.0"); ("checksum", VString "30");
                           ("data", num 0)])) by (vm_compute; reflexivity).
    split; [exact S | apply B; [reflexivity | exact S]].
Defined.

(** ** Host names and patterns *)

Lemma is_prefix_spec p s : is_prefix p s = true <-> exists r, s = (p ++ r)%string.
Proof.
  revert s. induction p as [|a p IH]; intros s; cbn [is_prefix].
  - split; [intros _; exists s; reflexivity | reflexivity].
  - destruct s as [|b s].
    + split; [discriminate | intros (r & E); discriminate].
    + rewrite andb_true_iff, IH. split.
      * intros (E & r & ->). apply Ascii.eqb_eq in E. subst. exists r. reflexivity.
      * intros (r & E). cbn in E. injection E as -> ->.
        split; [apply Ascii.eqb_refl | exists r; reflexivity].
Qed.

Lemma rev_string_acc s acc : rev_string s acc = (rev_string s "" ++ acc)%string.
Proof.
  revert acc. induction s as [|c s IH]; intros acc; [reflexivity | ].
  cbn [rev_string]. rewrite IH, (IH (String c "")), append_assoc. reflexivity.
Qed.

Lemma rev_string_concat a b :
  rev_string (a ++ b) "" = (rev_string b "" ++ rev_string a "")%string.
Proof. rewrite rev_string_append. apply rev_string_acc. Qed.

Lemma endsWith_spec s suffix :
  endsWith s suffix = true <-> exists r, s = (r ++ suffix)%string.
Proof.
  unfold endsWith. rewrite is_prefix_spec. split.
  - intros (r & E). exists (rev_string r "").
    rewrite <- (rev_string_involutive s), E, rev_string_concat, rev_string_involutive.
    reflexivity.
  - intros (r & ->). exists (rev_string r ""). apply rev_string_concat.
Qed.

Lemma hostMatches_strings h p :
  Config.hostMatches (VString h) (VString p)
  = Ok (negb (String.eqb h "") && negb (String.eqb p "")
        && (String.eqb (toLowerCase h) (toLowerCase p)
            || endsWith (toLowerCase h) (String "." (toLowerCase p)))).
Proof.
  unfold Config.hostMatches. cbn [truthy].
  destruct (String.eqb h ""); [reflexivity | ].
  destruct (String.eqb p ""); reflexivity.
Qed.

Lemma matches_subdomain h p :
  matches (VString h) (VString p) = true <-> subdomain h p.
Proof.
  unfold matches, subdomain. rewrite hostMatches_strings.
  rewrite !andb_true_iff, !negb_true_iff, orb_true_iff, !String.eqb_neq.
  rewrite String.eqb_eq, endsWith_spec.
  change (String "." (toLowerCase p)) with ("." ++ toLowerCase p)%string. tauto.
Qed.

Lemma toLowerCase_append a b :
  toLowerCase (a ++ b) = (toLowerCase a ++ toLowerCase b)%string.
Proof. induction a; cbn; congruence. Qed.

Lemma subdomain_refl h : h <> "" -> subdomain h h.
Proof. intros N. repeat split; auto. Qed.

Lemma subdomain_trans a b c : subdomain a b -> subdomain b c -> subdomain a c.
Proof.
  intros (Na & _ & [E1 | (s1 & E1)]) (_ & Nc & [E2 | (s2 & E2)]);
    (split; [assumption | split; [assumption | ]]).
  - left. congruence.
  - right. exists s2. congruence.
  - right. exists s1. congruence.
  - right. exists (s1 ++ "." ++ s2)%string. rewrite E1, E2, !append_assoc. reflexivity.
Qed.

Lemma subdomain_case a b :
  subdomain (toLowerCase a) b <-> subdomain a b.
Proof.
  unfold subdomain. rewrite toLowerCase_idempotent.
  assert (E : toLowerCase a = "" <-> a = "") by (destruct a; cbn; split; congruence).
  tauto.
Qed.

(** X15.  [hostMatches] on strings never raises and decides the subdomain
    relation: it answers [true] exactly when neither name is empty and the
    host name is the pattern or ends in a dot followed by the pattern,
    letter case apart.  The relation is reflexive on non-empty names and
    transitive; a name that merely ends in the pattern, without the dot,
    does not match. *)
Theorem hostMatches_is_subdomain (h p : string) :
  (exists b, Config.hostMatches (VString h) (VString p) = Ok b
             /\ (b = true <-> subdomain h p))
  /\ (h <> "" -> Config.hostMatches (VString h) (VString h) = Ok true)
  /\ (forall q, Config.hostMatches (VString h) (VString p) = Ok true ->
                Config.hostMatches (VString p) (VString q) = Ok true ->
                Config.hostMatches (VString h) (VString q) = Ok true)
  /\ Config.hostMatches (VString (toLowerCase h)) (VString p)
     = Config.hostMatches (VString h) (VString p).
Proof.
  assert (M : forall a b, Config.hostMatches (VString a) (VString b) = Ok true
                          <-> subdomain a b).
  { intros a b. rewrite <- matches_subdomain. unfold matches.
    rewrite hostMatches_strings. split; [intros [= ->]; reflexivity | intros ->; reflexivity]. }
  split; [ | split; [ | split]].
  - rewrite hostMatches_strings. eexists. split; [reflexivity | ].
    rewrite <- matches_subdomain. unfold matches. rewrite hostMatches_strings. tauto.
  - intros N. apply M, subdomain_refl, N.
  - intros q A B. apply M. apply M in A. apply M in B. apply (subdomain_trans _ _ _ A B).
  - rewrite !hostMatches_strings, toLowerCase_idempotent.
    replace (String.eqb (toLowerCase h) "") with (String.eqb h "");
      [reflexivity | destruct h; reflexivity].
Qed.

Lemma hostMatches_is_subdomain_witness :
  Config.hostMatches (VString "Mail.Docs.Google.com") (VString "docs.google.com") = Ok true
  /\ Config.hostMatches (VString "docs.google.com") (VString "google.com") = Ok true
  /\ Config.hostMatches (VString "Mail.Docs.Google.com") (VString "google.com") = Ok true
  /\ Config.hostMatches (VString "notfigma.com") (VString "figma.com") = Ok false.
Proof.
  destruct (hostMatches_is_subdomain "Mail.Docs.Google.com" "docs.google.com")
    as (_ & _ & T & _).
  assert (A : Config.hostMatches (VString "Mail.Docs.Google.com") (VString "docs.google.com")
              = Ok true) by reflexivity.
  assert (B : Config.hostMatches (VString "docs.google.com") (VString "google.com")
              = Ok true) by reflexivity.
  split; [exact A | ]. split; [exact B | ]. split; [exact (T _ A B) | reflexivity].
Defined.

(** ** The two blacklist checks *)

Lemma some_strings d l :
  Config.some (Config.hostMatches (VString d)) (map VString l)
  = Ok (existsb (fun p => matches (VString d) (VString p)) l).
Proof.
  induction l as [|p l IH]; [reflexivity | ].
  cbn [map Config.some existsb]. unfold matches at 1.
  rewrite hostMatches_strings. cbn [bind]. rewrite IH.
  destruct (negb (String.eqb d "") && negb (String.eqb p "")
            && (String.eqb (toLowerCase d) (toLowerCase p)
                || endsWith (toLowerCase d) (String "." (toLowerCase p)))); reflexivity.
Qed.

Lemma some_problematic d :
  Config.some (fun p => Config.hostMatches (VString d) (VString p)) Config.PROBLEMATIC_SITES
  = Ok (existsb (fun p => matches (VString d) (VString p)) Config.PROBLEMATIC_SITES).
Proof.
  generalize Config.PROBLEMATIC_SITES as l.
  induction l as [|p l IH]; [reflexivity | ].
  cbn [Config.some existsb]. unfold matches at 1.
  rewrite hostMatches_strings. cbn [bind]. rewrite IH.
  destruct (negb (String.eqb d "") && negb (String.eqb p "")
            && (String.eqb (toLowerCase d) (toLowerCase p)
                || endsWith (toLowerCase d) (String "." (toLowerCase p)))); reflexivity.
Qed.

Lemma isBlacklisted_strings d l :
  Config.isBlacklisted (VString d) (Validate.strings l)
  = existsb (fun p => matches (VString d) (VString p)) (l ++ Config.PROBLEMATIC_SITES).
Proof.
  unfold Config.isBlacklisted, Validate.strings.
  rewrite some_strings. cbn [bind]. rewrite existsb_app.
  destruct (existsb (fun p => matches (VString d) (VString p)) l); [reflexivity | ].
  rewrite some_problematic. reflexivity.
Qed.

Lemma isBlacklisted_no_list d v :
  Array_isArray v = false ->
  Config.isBlacklisted (VString d) v
  = existsb (fun p => matches (VString d) (VString p)) Config.PROBLEMATIC_SITES.
Proof.
  intros A. unfold Config.isBlacklisted.
  destruct v; try discriminate; cbn [bind]; rewrite some_problematic; reflexivity.
Qed.

Lemma existsb_subdomain d l :
  existsb (fun p => matches (VString d) (VString p)) l = true
  <-> exists p, In p l /\ subdomain d p.
Proof.
  rewrite existsb_exists. split; intros (p & I & M); exists p; (split; [assumption | ]);
    apply matches_subdomain; assumption.
Qed.

(** X16.  [isBlacklisted] of the configuration, for a host name and a
    blacklist of strings: the host is blacklisted exactly when it is one of
    the listed patterns or of the five built-in sites, or a subdomain of
    one.  A blacklist that is no array counts as empty, so the built-in
    sites are blacklisted whatever is stored. *)
Theorem isBlacklisted_decides (d : string) :
  (forall l,
      Config.isBlacklisted (VString d) (Validate.strings l) = true
      <-> exists p, In p (l ++ Config.PROBLEMATIC_SITES)%list /\ subdomain d p)
  /\ (forall v,
         Array_isArray v = false ->
         (Config.isBlacklisted (VString d) v = true
          <-> exists p, In p Config.PROBLEMATIC_SITES /\ subdomain d p)).
Proof.
  split.
  - intros l. rewrite isBlacklisted_strings. apply existsb_subdomain.
  - intros v A. rewrite (isBlacklisted_no_list d v A). apply existsb_subdomain.
Qed.

Lemma isBlacklisted_decides_witness :
  Config.isBlacklisted (VString "www.Figma.com") (VString "not a list") = true
  /\ Config.isBlacklisted (VString "example.org") (VString "example.org") = false.
Proof.
  destruct (isBlacklisted_decides "www.Figma.com") as [_ A].
  split; [ | reflexivity].
  apply (A (VString "not a list") eq_refl).
  exists "figma.com". split; [cbn; auto | ].
  repeat split; try discriminate. right. exists "www". reflexivity.
Defined.

(** *** The service worker *)

Lemma background_hostMatches hostname pattern :
  Background.hostMatches hostname pattern = Config.hostMatches hostname pattern.
Proof. reflexivity. Qed.

Lemma background_some d l :
  Config.some (fun pattern => Background.hostMatches (VString d) pattern) (map VString l)
  = Ok (existsb (fun p => matches (VString d) (VString p)) l).
Proof. apply some_strings. Qed.

Lemma background_isBlacklisted s d l :
  Background.blacklistCache s = Validate.strings l ->
  Background.isBlacklisted s (VString d)
  = Ok (Config.isBlacklisted (VString d) (Validate.strings l)).
Proof.
  intros C. unfold Background.isBlacklisted. rewrite C.
  unfold Validate.strings. cbn [Background.spread bind].
  rewrite <- map_app.
  change Background.PROBLEMATIC_SITES with Config.PROBLEMATIC_SITES.
  rewrite background_some. fold (Validate.strings l). rewrite isBlacklisted_strings.
  reflexivity.
Qed.

Lemma isBlacklisted_empty_host v : Config.isBlacklisted (VString "") v = false.
Proof.
  unfold Config.isBlacklisted.
  assert (S : forall (l : list value), Config.some (Config.hostMatches (VString "")) l = Ok false).
  { induction l as [|x l IH]; [reflexivity | ]. cbn [Config.some].
    unfold Config.hostMatches at 1. cbn [truthy String.eqb negb orb bind]. exact IH. }
  destruct v; try reflexivity. rewrite S. reflexivity.
Qed.

Lemma onMessage_answer s hostname l :
  Background.blacklistCache s = Validate.strings l ->
  Background.onMessage s (Background.getEnabledState hostname)
  = Ok (Some (obj [("enabled", Background.enabledStateCache s);
                   ("blacklisted",
                    VBool (Config.isBlacklisted (VString hostname) (Validate.strings l)))])).
Proof.
  intros C. unfold Background.onMessage, Background.getEnabledState, obj.
  cbn [member bind].
  change (get (VObject ObjectPrototype ?l) ?k)
    with (match lookup k l with Some x => x | None => VUndefined end).
  cbn [lookup String.eqb Ascii.eqb Bool.eqb is_string].
  unfold Validate.or_else. cbn [truthy].
  destruct (String.eqb hostname "") eqn:E.
  - apply String.eqb_eq in E. subst hostname. cbn [negb truthy String.eqb bind].
    rewrite isBlacklisted_empty_host. reflexivity.
  - cbn [negb truthy]. rewrite E. cbn [negb].
    rewrite (background_isBlacklisted s hostname l C). reflexivity.
Qed.

(** X17.  The service worker answers a content script from its caches as
    the configuration would from the stored values.  Whenever the stored
    blacklist is a list of strings, or none is stored: after the start-up
    read, and again after a change of the stored settings, the answer to
    [getEnabledState] for a host carries [enabled] as a boolean that is
    [true] exactly for the stored value [true], and [blacklisted] as
    [CyberdarkConfig.isBlacklisted] gives it for that host and list. *)
Theorem background_answers (hostname : string) (l : list string) :
  (forall stored,
      Validate.or_else (get_opt (Content.cyberdarkSettings stored) "blacklist") (VArray [])
      = Validate.strings l ->
      Background.onMessage (Background.onStored stored) (Background.getEnabledState hostname)
      = Ok (Some (obj [("enabled", VBool (is_bool true (Content.cyberdarkEnabled stored)));
                       ("blacklisted",
                        VBool (Config.isBlacklisted (VString hostname)
                                 (Validate.strings l)))])))
  /\ (forall s old settings,
         Validate.or_else (get_opt settings "blacklist") (VArray []) = Validate.strings l ->
         Background.onMessage
           (Background.onChanged s
              [("cyberdarkSettings",
                {| Background.oldValue := old; Background.newValue := settings |})]
              "sync")
           (Background.getEnabledState hostname)
         = Ok (Some (obj [("enabled", Background.enabledStateCache s);
                          ("blacklisted",
                           VBool (Config.isBlacklisted (VString hostname)
                                    (Validate.strings l)))]))).
Proof.
  split.
  - intros stored C. apply (onMessage_answer (Background.onStored stored) hostname l C).
  - intros s old settings C.
    apply (onMessage_answer
             (Background.onChanged s
                [("cyberdarkSettings",
                  {| Background.oldValue := old; Background.newValue := settings |})]
                "sync") hostname l C).
Qed.

Lemma background_answers_witness :
  let stored :=
    {| Content.cyberdarkEnabled := VBool true;
       Content.cyberdarkSettings := obj [("blacklist", Validate.strings ["Example.com"])] |} in
  Background.onMessage (Background.onStored stored)
    (Background.getEnabledState "www.example.com")
  = Ok (Some (obj [("enabled", VBool true); ("blacklisted", VBool true)]))
  /\ Background.onMessage Background.start (Background.getEnabledState "www.example.com")
     = Ok (Some (obj [("enabled", VNull); ("blacklisted", VBool false)])).
Proof.
  cbn zeta.
  destruct (background_answers "www.example.com" ["Example.com"]) as [A _].
  split; [ | reflexivity].
  apply (A {| Content.cyberdarkEnabled := VBool true;
              Content.cyberdarkSettings :=
                obj [("blacklist", Validate.strings ["Example.com"])] |}).
  reflexivity.
Defined.

(** ** Layers of settings *)









Lemma lookup_absent {A} k (l : list (string * A)) : ~ In k (keys l) -> lookup k l = None.
Proof.
  induction l as [|[k0 v0] l IH]; intros N; [reflexivity | ].
  cbn [lookup]. destruct (String.eqb k0 k) eqn:E.
  - apply String.eqb_eq in E. subst. exfalso. apply N. left. reflexivity.
  - apply IH. intros I. apply N. right. assumption.
Qed.









(** ** The fast path and the storage path *)








(** ** The style sheets of a page *)

Lemma structural_selector_shallow : shallow Content.structural_selector.
Proof. intros t a x kids x' kids'. reflexivity. Qed.

(** Removing a match of one selector adds no match of another. *)
Lemma remove_in_other sel sel' e :
  shallow sel ->
  forall e', remove_in sel' e = Some e' -> (count_in sel e' <= count_in sel e)%nat.
Proof.
  intros Sh. induction e as [t a x kids IH] using element_induction.
  intros e'. rewrite remove_in_unfold.
  assert (G : forall kids', remove_first sel' kids = Some kids' ->
                            (count sel kids' <= count sel kids)%nat).
  { clear t a x e'. induction IH as [ | k rest Hk _ IHr]; cbn [remove_first];
      [discriminate | ].
    intros kids'. destruct (sel' k).
    - intros [= <-]. cbn [count fold_right]. fold (count sel rest). lia.
    - destruct (remove_in sel' k) as [k' | ] eqn:R.
      + intros [= <-]. specialize (Hk k' eq_refl). cbn [count fold_right].
        fold (count sel rest). lia.
      + destruct (remove_first sel' rest) as [rest' | ]; [ | discriminate].
        intros [= <-]. specialize (IHr rest' eq_refl). cbn [count fold_right].
        fold (count sel rest) (count sel rest'). lia. }
  destruct (remove_first sel' kids) as [kids' | ]; [ | discriminate].
  intros [= <-]. rewrite !count_in_unfold, (Sh t a x kids' x kids).
  specialize (G kids' eq_refl). lia.
Qed.

Lemma without_first_other sel sel' forest :
  shallow sel -> (count sel (without_first sel' forest) <= count sel forest)%nat.
Proof.
  intros Sh. unfold without_first.
  destruct (remove_first sel' forest) as [forest' | ] eqn:R; [ | lia].
  revert forest' R. induction forest as [|k rest IH]; cbn [remove_first]; [discriminate | ].
  intros forest'. destruct (sel' k).
  - intros [= <-]. cbn [count fold_right]. fold (count sel rest). lia.
  - destruct (remove_in sel' k) as [k' | ] eqn:Rk.
    + intros [= <-]. pose proof (remove_in_other sel sel' k Sh k' Rk).
      cbn [count fold_right]. fold (count sel rest). lia.
    + destruct (remove_first sel' rest) as [rest' | ]; [ | discriminate].
      intros [= <-]. specialize (IH rest' eq_refl). cbn [count fold_right].
      fold (count sel rest) (count sel rest'). lia.
Qed.

Lemma without_first_no_head sel forest :
  find is_head forest = None -> find is_head (without_first sel forest) = None.
Proof.
  intros F. unfold without_first.
  destruct (remove_first sel forest) as [forest' | ] eqn:R; [ | exact F].
  eapply remove_first_no_head; eauto.
Qed.

Lemma removeCyberdarkStyles_clean p :
  Spec.kept_under_target (Content.document p) = true ->
  count_all Content.main_selector (Content.document (Content.removeCyberdarkStyles p)) = 0%nat
  /\ Content.structuralObserver (Content.removeCyberdarkStyles p) = false
  /\ Content.mediaObserver (Content.removeCyberdarkStyles p) = Content.mediaObserver p.
Proof.
  unfold Spec.kept_under_target, Content.removeCyberdarkStyles.
  destruct (target (Content.document p)) as [[kids rebuild] | ] eqn:T; [ | discriminate].
  rewrite andb_true_iff, Nat.eqb_eq, Nat.leb_le. intros [Under One].
  cbn [Content.document Content.structuralObserver Content.mediaObserver].
  split; [ | split; reflexivity].
  set (kids1 := without_first Content.main_selector kids).
  set (kids2 := without_first Content.structural_selector kids1).
  assert (Z1 : count Content.main_selector kids1 = 0%nat)
    by (apply without_first_count; [exact main_selector_shallow | lia]).
  pose proof (without_first_other Content.main_selector Content.structural_selector kids1
                main_selector_shallow) as Z2.
  fold kids2 in Z2.
  destruct (target_rebuild Content.main_selector _ kids rebuild kids2
              main_selector_shallow T) as [_ E].
  { intros F. subst kids2 kids1. apply without_first_no_head, without_first_no_head, F. }
  lia.
Qed.

(** X20.  Switched off means clean.  When the extension is not enabled for
    the page (the stored switch is not [true], or the host is blacklisted),
    both callbacks of the content script end in the same page: on a
    document that holds at most one main style sheet, and holds it under the
    injection target, no main style sheet is left, and both observers are
    disconnected. *)
Theorem disabled_page_is_clean
        (g : Content.Globals) (now : Content.Clock) (res : Content.Stored)
        (p : Content.Page) (enabled blacklisted : bool) (finalSettings : value) :
  Content.resolve g res = Ok (enabled, finalSettings, blacklisted) ->
  enabled && negb blacklisted = false ->
  Spec.kept_under_target (Content.document p) = true ->
  exists p',
    Content.onLoad g now res p = Ok p'
    /\ Content.onChanged g res p = Ok p'
    /\ count_all Content.main_selector (Content.document p') = 0%nat
    /\ Content.structuralObserver p' = false
    /\ Content.mediaObserver p' = false.
Proof.
  intros R Off K. exists (Content.disabled p).
  unfold Content.onLoad, Content.onChanged, Content.shouldApply_onLoad,
    Content.shouldApply_onChanged. rewrite R. cbn [bind]. rewrite Off. cbn [andb bind].
  split; [reflexivity | ]. split; [reflexivity | ].
  destruct (removeCyberdarkStyles_clean p K) as (C & S & _).
  unfold Content.disabled. cbn [Content.document Content.structuralObserver
                               Content.mediaObserver]. auto.
Qed.

Lemma disabled_page_is_clean_witness :
  let g := Samples.globals Samples.plain_host in
  let off := {| Content.cyberdarkEnabled := VString "true";
                Content.cyberdarkSettings := VUndefined |} in
  let p := {| Content.document := Samples.styled;
              Content.structuralObserver := true;
              Content.mediaObserver := true |} in
  count_all Content.main_selector (Content.document p) = 1%nat
  /\ exists p',
       Content.onLoad g (Samples.at_time 12 0) off p = Ok p'
       /\ Content.onChanged g off p = Ok p'
       /\ count_all Content.main_selector (Content.document p') = 0%nat
       /\ Content.structuralObserver p' = false
       /\ Content.mediaObserver p' = false.
Proof.
  cbn zeta. split; [reflexivity | ].
  refine (disabled_page_is_clean (Samples.globals Samples.plain_host) (Samples.at_time 12 0)
            {| Content.cyberdarkEnabled := VString "true";
               Content.cyberdarkSettings := VUndefined |}
            {| Content.document := Samples.styled;
               Content.structuralObserver := true;
               Content.mediaObserver := true |}
            false false
            (match Content.resolve (Samples.globals Samples.plain_host)
                     {| Content.cyberdarkEnabled := VString "true";
                        Content.cyberdarkSettings := VUndefined |} with
             | Ok (_, f, _) => f
             | Throw _ => VUndefined
             end) _ _ _);
    vm_compute; reflexivity.
Defined.

Lemma under_target sel d kids rebuild :
  shallow sel -> target d = Some (kids, rebuild) ->
  (count sel kids <= count_all sel d)%nat.
Proof.
  intros Sh T.
  destruct (target_rebuild sel d kids rebuild [] Sh T) as [_ E]; [reflexivity | ].
  cbn [count fold_right] in E. lia.
Qed.

Lemma structural_style_selected :
  Content.structural_selector Content.structural_style = true
  /\ Content.main_selector Content.structural_style = false.
Proof. split; reflexivity. Qed.

Lemma count_single sel e : count sel [e] = count_in sel e.
Proof. cbn [count fold_right]. lia. Qed.

Lemma count_structural_style :
  count Content.structural_selector [Content.structural_style] = 1%nat
  /\ count Content.main_selector [Content.structural_style] = 0%nat.
Proof. split; reflexivity. Qed.

Lemma injectStructuralDarkCSS_effect d kids rebuild :
  target d = Some (kids, rebuild) ->
  (1 <= count_all Content.structural_selector (Content.injectStructuralDarkCSS d))%nat
  /\ count_all Content.main_selector (Content.injectStructuralDarkCSS d)
     = count_all Content.main_selector d
  /\ Content.injectStructuralDarkCSS (Content.injectStructuralDarkCSS d)
     = Content.injectStructuralDarkCSS d.
Proof.
  intros T.
  destruct (querySelector Content.structural_selector kids) as [found | ] eqn:Q.
  - assert (E : Content.injectStructuralDarkCSS d = d)
      by (unfold Content.injectStructuralDarkCSS; rewrite T, Q; reflexivity).
    rewrite !E.
    assert (P : (1 <= count Content.structural_selector kids)%nat).
    { destruct (count Content.structural_selector kids) eqn:C; [ | lia].
      apply querySelector_none in C. congruence. }
    pose proof (under_target _ _ _ _ structural_selector_shallow T).
    split; [lia | ]. split; reflexivity.
  - assert (E : Content.injectStructuralDarkCSS d
                = rebuild (kids ++ [Content.structural_style])%list)
      by (unfold Content.injectStructuralDarkCSS; rewrite T, Q; reflexivity).
    apply querySelector_none in Q.
    assert (NH : find is_head kids = None ->
                 find is_head (kids ++ [Content.structural_style]) = None)
      by (intros F; apply find_app_none; [exact F | reflexivity]).
    destruct (target_rebuild Content.structural_selector d kids rebuild
                (kids ++ [Content.structural_style]) structural_selector_shallow T NH)
      as [[rebuild' T'] Es].
    destruct (target_rebuild Content.main_selector d kids rebuild
                (kids ++ [Content.structural_style]) main_selector_shallow T NH)
      as [_ Em].
    rewrite count_app in Es, Em.
    destruct count_structural_style as [Cs Cm]. rewrite Cs in Es. rewrite Cm in Em.
    rewrite !E. split; [lia | ]. split; [lia | ].
    unfold Content.injectStructuralDarkCSS. rewrite T'.
    destruct (querySelector Content.structural_selector
                (kids ++ [Content.structural_style])) eqn:Q'; [reflexivity | ].
    apply querySelector_none in Q'. rewrite count_app, Cs in Q'. lia.
Qed.

(** X21.  [injectStructuralDarkCSS] on a document with a root element:
    afterwards the document holds a structural style sheet, it holds as many
    main style sheets as before, and a second call changes nothing.  On a
    document without root element the call changes nothing either. *)
Theorem injectStructuralDarkCSS_once (d : document) :
  Content.injectStructuralDarkCSS (Content.injectStructuralDarkCSS d)
  = Content.injectStructuralDarkCSS d
  /\ count_all Content.main_selector (Content.injectStructuralDarkCSS d)
     = count_all Content.main_selector d
  /\ match documentElement d with
     | Some _ =>
         (1 <= count_all Content.structural_selector
                 (Content.injectStructuralDarkCSS d))%nat
     | None => Content.injectStructuralDarkCSS d = d
     end.
Proof.
  destruct (target d) as [[kids rebuild] | ] eqn:T.
  - destruct (injectStructuralDarkCSS_effect d kids rebuild T) as (A & B & C).
    split; [exact C | ]. split; [exact B | ].
    destruct (documentElement d) eqn:E; [exact A | ].
    unfold target in T. rewrite E in T. discriminate.
  - assert (N : Content.injectStructuralDarkCSS d = d)
      by (unfold Content.injectStructuralDarkCSS; rewrite T; reflexivity).
    rewrite !N. split; [reflexivity | ]. split; [reflexivity | ].
    destruct (documentElement d) as [[t a x kids] | ] eqn:E; [ | reflexivity].
    unfold target in T. rewrite E in T.
    destruct (head d) as [[ht ha hx hkids] | ]; discriminate.
Qed.



(** ** Extracted text *)

(** *** Tags *)

Lemma has_char_app a s t : has_char a (s ++ t) = has_char a s || has_char a t.
Proof. induction s; cbn; rewrite ?IHs, ?orb_assoc; reflexivity. Qed.

Lemma strip_tags_from_spec s :
  let '(plain, behind) := Bookmarks.strip_tags_from s in
  tag_free plain = true
  /\ (has_char ">" plain = true -> has_char ">" s = true)
  /\ match behind with
     | Some after_tag => tag_free after_tag = true /\ has_char ">" s = true
     | None => has_char ">" s = false
     end.
Proof.
  induction s as [|c rest IH]; [cbn; auto | ].
  cbn [Bookmarks.strip_tags_from].
  destruct (Bookmarks.strip_tags_from rest) as [plain behind].
  destruct IH as (F & G & B).
  cbn [has_char].
  destruct (Ascii.eqb c "<") eqn:Elt; destruct (Ascii.eqb c ">") eqn:Egt; cbn [orb].
  - apply Ascii.eqb_eq in Elt. apply Ascii.eqb_eq in Egt. congruence.
  - destruct behind as [after_tag | ].
    + destruct B as [Fa Ha]. auto.
    + split; [ | split; [ | exact B]].
      * cbn [tag_free]. rewrite Elt, F. cbn [negb orb andb].
        destruct (has_char ">" plain); [specialize (G eq_refl); congruence | reflexivity].
      * cbn [has_char]. rewrite Egt. exact G.
  - split; [ | split; [reflexivity | split; [exact F | reflexivity]]].
    cbn [tag_free]. rewrite Elt, F. reflexivity.
  - split; [ | split; [ | exact B]].
    + cbn [tag_free]. rewrite Elt, F. reflexivity.
    + cbn [has_char]. rewrite Egt. exact G.
Qed.

Lemma strip_tags_free s : tag_free (Bookmarks.strip_tags s) = true.
Proof.
  unfold Bookmarks.strip_tags. pose proof (strip_tags_from_spec s) as H.
  destruct (Bookmarks.strip_tags_from s). cbn [fst]. tauto.
Qed.

(** *** What the later steps keep *)

Lemma thinned_refl s : thinned s s.
Proof. induction s; [apply thinned_nil | apply thinned_keep; assumption]. Qed.

Lemma thinned_trans a b c : thinned a b -> thinned b c -> thinned a c.
Proof.
  intros H. revert c. induction H as [ | x s t H IH | x s t H IH | x s t H IH]; intros u K.
  - exact K.
  - apply thinned_drop. auto.
  - inversion K as [ | ? ? ? K' | ? ? t' K' | ? ? t' K']; subst.
    + apply thinned_drop. auto.
    + apply thinned_keep. auto.
    + apply thinned_space. auto.
  - inversion K as [ | ? ? ? K' | ? ? t' K' | ? ? t' K']; subst.
    + apply thinned_drop. auto.
    + apply thinned_space. auto.
    + apply thinned_space. auto.
Qed.

Lemma thinned_has_gt s t : thinned s t -> has_char ">" t = true -> has_char ">" s = true.
Proof.
  induction 1; cbn [has_char]; intros G; auto.
  - rewrite (IHthinned G). apply orb_true_r.
  - apply orb_true_iff in G as [G | G]; [rewrite G; reflexivity | ].
    rewrite (IHthinned G). apply orb_true_r.
  - cbn in G. rewrite (IHthinned G). apply orb_true_r.
Qed.

Lemma thinned_tag_free s t : thinned s t -> tag_free s = true -> tag_free t = true.
Proof.
  induction 1; cbn [tag_free]; intros F; auto.
  - apply andb_true_iff in F as [_ F]. auto.
  - apply andb_true_iff in F as [A F]. rewrite (IHthinned F), andb_true_r.
    destruct (Ascii.eqb c "<"); [ | reflexivity]. cbn [negb orb] in *.
    destruct (has_char ">" t) eqn:G; [ | reflexivity].
    rewrite (thinned_has_gt _ _ H G) in A. discriminate.
  - apply andb_true_iff in F as [_ F]. rewrite (IHthinned F). reflexivity.
Qed.

Lemma thinned_every p s t :
  thinned s t -> p " "%char = true -> every p s = true -> every p t = true.
Proof.
  intros H Sp. induction H; rewrite ?every_cons; intros E; auto.
  - apply andb_true_iff in E as [_ E]. auto.
  - apply andb_true_iff in E as [A E]. rewrite A, (IHthinned E). reflexivity.
  - apply andb_true_iff in E as [_ E]. rewrite Sp, (IHthinned E). reflexivity.
Qed.

Lemma remove_thinned class s : thinned s (Bookmarks.remove class s).
Proof.
  induction s as [|c s IH]; cbn [Bookmarks.remove]; [constructor | ].
  destruct (class c); [apply thinned_drop | apply thinned_keep]; assumption.
Qed.

Lemma blanks_thinned in_run s : thinned s (Bookmarks.blanks_to_space in_run s).
Proof.
  revert in_run. induction s as [|c s IH]; intros in_run; cbn [Bookmarks.blanks_to_space];
    [constructor | ].
  destruct (Bookmarks.is_blank c);
    [destruct in_run; [apply thinned_drop | apply thinned_space] | apply thinned_keep];
    apply IH.
Qed.

Lemma squeeze_thinned seen s : thinned s (Bookmarks.squeeze_newlines seen s).
Proof.
  revert seen. induction s as [|c s IH]; intros seen; cbn [Bookmarks.squeeze_newlines];
    [constructor | ].
  destruct (Ascii.eqb c LF);
    [destruct (Nat.ltb seen 2); [apply thinned_keep | apply thinned_drop]
    | apply thinned_keep]; apply IH.
Qed.

Lemma thinned_suffix w s : thinned (w ++ s) s.
Proof. induction w; cbn; [apply thinned_refl | apply thinned_drop; assumption]. Qed.

Lemma thinned_prefix s w : thinned (s ++ w) s.
Proof.
  induction s as [|c s IH]; cbn [append].
  - induction w; [apply thinned_nil | apply thinned_drop; assumption].
  - apply thinned_keep. assumption.
Qed.

Lemma trimStart_suffix s : exists w, s = (w ++ trimStart s)%string /\ every is_space w = true.
Proof.
  induction s as [|c s (w & E & A)]; [exists ""; auto | ].
  cbn [trimStart]. destruct (is_space c) eqn:S.
  - exists (String c w). cbn [append]. rewrite every_cons, S, A.
    split; [f_equal; exact E | reflexivity].
  - exists "". auto.
Qed.

Lemma trimEnd_prefix s : exists w, s = (trimEnd s ++ w)%string /\ every is_space w = true.
Proof.
  unfold trimEnd. destruct (trimStart_suffix (rev_string s "")) as (w & E & A).
  exists (rev_string w ""). split.
  - rewrite <- (rev_string_involutive s) at 1. rewrite E at 1.
    apply rev_string_concat.
  - apply every_rev_string; [assumption | reflexivity].
Qed.

Lemma trim_thinned s : thinned s (trim s).
Proof.
  unfold trim. destruct (trimStart_suffix s) as (w & E & _).
  destruct (trimEnd_prefix (trimStart s)) as (w' & E' & _).
  apply thinned_trans with (trimStart s).
  - rewrite E at 1. apply thinned_suffix.
  - rewrite E' at 1. apply thinned_prefix.
Qed.

Lemma take_drop n s : s = (take n s ++ drop n s)%string.
Proof.
  revert s. induction n as [|n IH]; intros s; [reflexivity | ].
  destruct s as [|c s]; [reflexivity | ]. cbn [take drop append]. f_equal. apply IH.
Qed.

Lemma take_thinned n s : thinned s (take n s).
Proof. rewrite (take_drop n s) at 1. apply thinned_prefix. Qed.

Lemma sanitizeExtractedText_thinned t maxLength :
  thinned (Bookmarks.strip_tags t)
          (Bookmarks.sanitizeExtractedText (VString t) maxLength).
Proof.
  unfold Bookmarks.sanitizeExtractedText. cbn zeta.
  set (s1 := Bookmarks.strip_tags t).
  set (s2 := Bookmarks.remove Bookmarks.is_null_byte s1).
  set (s3 := Bookmarks.remove Bookmarks.is_control s2).
  set (s4 := Bookmarks.blanks_to_space false s3).
  set (s5 := Bookmarks.squeeze_newlines 0 s4).
  assert (T : thinned s1 (trim s5)).
  { apply thinned_trans with s2; [apply remove_thinned | ].
    apply thinned_trans with s3; [apply remove_thinned | ].
    apply thinned_trans with s4; [apply blanks_thinned | ].
    apply thinned_trans with s5; [apply squeeze_thinned | apply trim_thinned]. }
  match goal with |- context [if ?c then _ else _] => destruct c end; [ | exact T].
  apply thinned_trans with (trim s5); [exact T | apply take_thinned].
Qed.

(** *** Characters *)

Lemma remove_every class s :
  every (fun c => negb (class c)) (Bookmarks.remove class s) = true.
Proof.
  induction s as [|c s IH]; [reflexivity | ]. cbn [Bookmarks.remove].
  destruct (class c) eqn:C; [assumption | ]. rewrite every_cons, C, IH. reflexivity.
Qed.

Lemma plain_of c :
  Bookmarks.is_control c = false -> Bookmarks.is_blank c = false -> plain_char c = true.
Proof. all_chars c; vm_compute; intros A B; first [reflexivity | discriminate]. Qed.

Lemma blank_not_newline c :
  Bookmarks.is_blank c = true -> Ascii.eqb c LF = false.
Proof.
  unfold Bookmarks.is_blank. intros H. apply andb_true_iff in H as [_ H].
  apply negb_true_iff in H. exact H.
Qed.

Lemma space_is_blank c : Ascii.eqb c " " = true -> Bookmarks.is_blank c = true.
Proof. intros E. apply Ascii.eqb_eq in E. subst. reflexivity. Qed.

Lemma blanks_plain in_run s :
  every (fun c => negb (Bookmarks.is_control c)) s = true ->
  every plain_char (Bookmarks.blanks_to_space in_run s) = true.
Proof.
  revert in_run. induction s as [|c s IH]; intros in_run; [reflexivity | ].
  rewrite every_cons. intros H. apply andb_true_iff in H as [C H].
  apply negb_true_iff in C. cbn [Bookmarks.blanks_to_space].
  destruct (Bookmarks.is_blank c) eqn:B.
  - destruct in_run; [apply IH, H | ]. rewrite every_cons, (IH _ H). reflexivity.
  - rewrite every_cons, (plain_of c C B), (IH _ H). reflexivity.
Qed.

(** *** Spacing *)

Lemma squeeze_blanks_spaced s :
  forall in_run seen,
    (seen <= 2)%nat -> (in_run = true -> seen = 0%nat) ->
    well_spaced in_run seen
      (Bookmarks.squeeze_newlines seen (Bookmarks.blanks_to_space in_run s)) = true.
Proof.
  induction s as [|c s IH]; intros in_run seen L I; [reflexivity | ].
  cbn [Bookmarks.blanks_to_space].
  destruct (Bookmarks.is_blank c) eqn:B.
  - destruct in_run.
    + apply IH; assumption.
    + cbn [Bookmarks.squeeze_newlines]. change (Ascii.eqb " " LF) with false.
      cbn [well_spaced]. change (Ascii.eqb " " " ") with true. cbn [negb andb].
      apply IH; [lia | reflexivity].
  - cbn [Bookmarks.squeeze_newlines].
    assert (Sp : Ascii.eqb c " " = false).
    { destruct (Ascii.eqb c " ") eqn:E; [ | reflexivity].
      rewrite (space_is_blank c E) in B. discriminate. }
    destruct (Ascii.eqb c LF) eqn:N.
    + destruct (Nat.ltb seen 2) eqn:Lt.
      * cbn [well_spaced]. rewrite Sp, N, Lt. cbn [andb].
        apply Nat.ltb_lt in Lt. apply IH; [lia | discriminate].
      * apply Nat.ltb_ge in Lt. destruct in_run; [specialize (I eq_refl); lia | ].
        apply IH; [assumption | discriminate].
    + cbn [well_spaced]. rewrite Sp, N. apply IH; [lia | discriminate].
Qed.

Lemma well_spaced_weaken a n s :
  well_spaced a n s = true -> well_spaced false 0 s = true.
Proof.
  destruct s as [|c s]; [reflexivity | ]. cbn [well_spaced].
  destruct (Ascii.eqb c " "); [intros H; apply andb_true_iff in H as [_ H]; exact H | ].
  destruct (Ascii.eqb c LF); [ | auto].
  intros H. apply andb_true_iff in H as [_ H]. cbn [Nat.ltb Nat.leb andb].
  clear c a. revert H. generalize false as b. revert n.
  induction s as [|c s IH]; intros n b; [reflexivity | ]. cbn [well_spaced].
  destruct (Ascii.eqb c " "); [auto | ].
  destruct (Ascii.eqb c LF); [ | auto].
  intros H. apply andb_true_iff in H as [L H]. apply Nat.ltb_lt in L.
  replace (Nat.ltb 1 2) with true by reflexivity. cbn [andb].
  destruct n as [|[|n]]; [ | lia | lia].
  (* n = 0: the run behind has one line feed less *)
  clear IH L. destruct s as [|d s]; [reflexivity | ]. cbn [well_spaced] in *.
  destruct (Ascii.eqb d " "); [assumption | ].
  destruct (Ascii.eqb d LF); [ | assumption].
  apply andb_true_iff in H as [L _]. discriminate.
Qed.

Lemma well_spaced_suffix w s a n :
  well_spaced a n (w ++ s) = true -> well_spaced false 0 s = true.
Proof.
  revert a n. induction w as [|c w IH]; intros a n; cbn [append].
  - apply well_spaced_weaken.
  - cbn [well_spaced]. destruct (Ascii.eqb c " ").
    + intros H. apply andb_true_iff in H as [_ H]. apply (IH _ _ H).
    + destruct (Ascii.eqb c LF); [ | apply IH].
      intros H. apply andb_true_iff in H as [_ H]. apply (IH _ _ H).
Qed.

Lemma well_spaced_prefix s w a n :
  well_spaced a n (s ++ w) = true -> well_spaced a n s = true.
Proof.
  revert a n. induction s as [|c s IH]; intros a n; [reflexivity | ].
  cbn [append well_spaced]. destruct (Ascii.eqb c " ").
  - intros H. apply andb_true_iff in H as [A H]. rewrite A, (IH _ _ H). reflexivity.
  - destruct (Ascii.eqb c LF); [ | apply IH].
    intros H. apply andb_true_iff in H as [A H]. rewrite A, (IH _ _ H). reflexivity.
Qed.

Lemma trim_spaced s : spaced s = true -> spaced (trim s) = true.
Proof.
  unfold spaced, trim. intros H.
  destruct (trimStart_suffix s) as (w & E & _).
  destruct (trimEnd_prefix (trimStart s)) as (w' & E' & _).
  rewrite E in H. apply well_spaced_suffix in H.
  rewrite E' in H. apply well_spaced_prefix in H. exact H.
Qed.

Lemma take_spaced n s : spaced s = true -> spaced (take n s) = true.
Proof.
  unfold spaced. intros H. rewrite (take_drop n s) in H.
  apply well_spaced_prefix in H. exact H.
Qed.

(** *** Ends *)

Lemma trimStart_head s :
  match trimStart s with
  | String c _ => is_space c = false
  | EmptyString => True
  end.
Proof.
  induction s as [|c s IH]; [exact I | ]. cbn [trimStart].
  destruct (is_space c) eqn:S; [exact IH | exact S].
Qed.

Lemma trim_trimmed s : trimmed (trim s) = true.
Proof.
  unfold trim. set (u := trimStart s).
  destruct (trimEnd u) as [|c v] eqn:V; [reflexivity | ].
  unfold trimmed.
  destruct (trimEnd_prefix u) as (w & E & _). rewrite V in E. cbn [append] in E.
  pose proof (trimStart_head s) as H. fold u in H. rewrite E in H. rewrite H. cbn [negb andb].
  rewrite <- V. unfold trimEnd. rewrite rev_string_involutive.
  pose proof (trimStart_head (rev_string u "")) as H'.
  destruct (trimStart (rev_string u "")) as [|z t]; [reflexivity | ]. rewrite H'. reflexivity.
Qed.

Lemma trimmed_trim s : trimmed s = true -> trim s = s.
Proof.
  destruct s as [|c s]; [reflexivity | ]. unfold trimmed. intros H.
  apply andb_true_iff in H as [A B]. apply negb_true_iff in A.
  unfold trim. cbn [trimStart]. rewrite A. unfold trimEnd.
  destruct (rev_string (String c s) "") as [|z t] eqn:R.
  - rewrite <- (rev_string_involutive (String c s)), R. reflexivity.
  - apply negb_true_iff in B. cbn [trimStart]. rewrite B, <- R.
    apply rev_string_involutive.
Qed.

(** *** Sanitized text is a fixed point *)

Lemma strip_tags_fixed_from s :
  tag_free s = true ->
  fst (Bookmarks.strip_tags_from s) = s
  /\ (has_char ">" s = false -> snd (Bookmarks.strip_tags_from s) = None).
Proof.
  induction s as [|c s IH]; [auto | ]. cbn [tag_free]. intros H.
  apply andb_true_iff in H as [A F]. destruct (IH F) as [E N].
  cbn [Bookmarks.strip_tags_from].
  destruct (Bookmarks.strip_tags_from s) as [plain behind]. cbn [fst snd] in *. subst plain.
  cbn [has_char]. destruct (Ascii.eqb c "<") eqn:Elt.
  - cbn [negb orb] in A. apply negb_true_iff in A. rewrite (N A). split; [reflexivity | ].
    intros G. apply orb_false_iff in G as [G _]. rewrite G. reflexivity.
  - split; [reflexivity | ]. intros G. apply orb_false_iff in G as [G G'].
    rewrite G. auto.
Qed.

Lemma strip_tags_fixed s : tag_free s = true -> Bookmarks.strip_tags s = s.
Proof. intros F. apply strip_tags_fixed_from, F. Qed.

Lemma remove_fixed class s :
  every (fun c => negb (class c)) s = true -> Bookmarks.remove class s = s.
Proof.
  induction s as [|c s IH]; [reflexivity | ]. rewrite every_cons. intros H.
  apply andb_true_iff in H as [C H]. apply negb_true_iff in C.
  cbn [Bookmarks.remove]. rewrite C, (IH H). reflexivity.
Qed.

Lemma plain_not_removed c :
  plain_char c = true ->
  Bookmarks.is_null_byte c = false /\ Bookmarks.is_control c = false
  /\ (Bookmarks.is_blank c = true -> Ascii.eqb c " " = true).
Proof.
  all_chars c; vm_compute; intros H;
    first [discriminate | repeat split; first [reflexivity | discriminate | auto]].
Qed.

Lemma blanks_fixed s :
  every plain_char s = true ->
  forall a n, well_spaced a n s = true -> Bookmarks.blanks_to_space a s = s.
Proof.
  induction s as [|c s IH]; [reflexivity | ]. rewrite every_cons. intros H.
  apply andb_true_iff in H as [P H]. intros a n W.
  destruct (plain_not_removed c P) as (_ & _ & B).
  cbn [Bookmarks.blanks_to_space]. cbn [well_spaced] in W.
  destruct (Bookmarks.is_blank c) eqn:Bl.
  - rewrite (B eq_refl) in W. apply andb_true_iff in W as [A W].
    apply negb_true_iff in A. subst a.
    specialize (B eq_refl). apply Ascii.eqb_eq in B. subst c.
    rewrite (IH H _ _ W). reflexivity.
  - assert (Sp : Ascii.eqb c " " = false).
    { destruct (Ascii.eqb c " ") eqn:E; [ | reflexivity].
      rewrite (space_is_blank c E) in Bl. discriminate. }
    rewrite Sp in W. destruct (Ascii.eqb c LF).
    + apply andb_true_iff in W as [_ W]. rewrite (IH H _ _ W). reflexivity.
    + rewrite (IH H _ _ W). reflexivity.
Qed.

Lemma squeeze_fixed s :
  forall a n, well_spaced a n s = true -> Bookmarks.squeeze_newlines n s = s.
Proof.
  induction s as [|c s IH]; [reflexivity | ]. intros a n W.
  cbn [Bookmarks.squeeze_newlines]. cbn [well_spaced] in W.
  destruct (Ascii.eqb c " ") eqn:Sp.
  - apply Ascii.eqb_eq in Sp. subst c. change (Ascii.eqb " " LF) with false.
    apply andb_true_iff in W as [_ W]. rewrite (IH _ _ W). reflexivity.
  - destruct (Ascii.eqb c LF).
    + apply andb_true_iff in W as [L W]. rewrite L, (IH _ _ W). reflexivity.
    + rewrite (IH _ _ W). reflexivity.
Qed.

(** *** The sanitizer *)

Lemma body_shape t :
  let body :=
    trim (Bookmarks.squeeze_newlines 0
            (Bookmarks.blanks_to_space false
               (Bookmarks.remove Bookmarks.is_control
                  (Bookmarks.remove Bookmarks.is_null_byte (Bookmarks.strip_tags t))))) in
  tag_free body = true /\ every plain_char body = true /\ spaced body = true
  /\ trimmed body = true.
Proof.
  cbn zeta.
  set (s1 := Bookmarks.strip_tags t).
  set (s2 := Bookmarks.remove Bookmarks.is_null_byte s1).
  set (s3 := Bookmarks.remove Bookmarks.is_control s2).
  set (s4 := Bookmarks.blanks_to_space false s3).
  set (s5 := Bookmarks.squeeze_newlines 0 s4).
  assert (T : thinned s1 (trim s5)).
  { apply thinned_trans with s2; [apply remove_thinned | ].
    apply thinned_trans with s3; [apply remove_thinned | ].
    apply thinned_trans with s4; [apply blanks_thinned | ].
    apply thinned_trans with s5; [apply squeeze_thinned | apply trim_thinned]. }
  split; [apply (thinned_tag_free _ _ T), strip_tags_free | ].
  split.
  { apply (thinned_every plain_char s4); [ | reflexivity | ].
    - apply thinned_trans with s5; [apply squeeze_thinned | apply trim_thinned].
    - apply blanks_plain, remove_every. }
  split; [ | apply trim_trimmed].
  apply trim_spaced. apply squeeze_blanks_spaced; [lia | discriminate].
Qed.

Lemma sanitizeExtractedText_cases t maxLength :
  let body :=
    trim (Bookmarks.squeeze_newlines 0
            (Bookmarks.blanks_to_space false
               (Bookmarks.remove Bookmarks.is_control
                  (Bookmarks.remove Bookmarks.is_null_byte (Bookmarks.strip_tags t))))) in
  let limit := match maxLength with
               | Some n => n
               | None => of_Z Bookmarks.TEXT_MAX
               end in
  Bookmarks.sanitizeExtractedText (VString t) maxLength
  = if lt limit (of_Z (str_length body)) then Bookmarks.substring_to limit body else body.
Proof. reflexivity. Qed.

Lemma sanitized_text_shape t maxLength :
  let safe := Bookmarks.sanitizeExtractedText (VString t) maxLength in
  tag_free safe = true /\ every plain_char safe = true /\ spaced safe = true.
Proof.
  cbn zeta. rewrite sanitizeExtractedText_cases. cbn zeta.
  destruct (body_shape t) as (F & P & S & _). cbn zeta in *.
  match goal with |- context [if ?c then _ else _] => destruct c end; [ | auto].
  unfold Bookmarks.substring_to.
  split; [apply (thinned_tag_free _ _ (take_thinned _ _) F) | ].
  split; [apply (thinned_every _ _ _ (take_thinned _ _) eq_refl P) | ].
  apply take_spaced, S.
Qed.


Lemma length_take n s : (String.length (take n s) <= n)%nat.
Proof.
  revert s. induction n as [|n IH]; intros s; [cbn; lia | ].
  destruct s as [|c s]; [cbn; lia | ]. cbn [take String.length]. specialize (IH s). lia.
Qed.

Lemma limit_cases t m :
  let body :=
    trim (Bookmarks.squeeze_newlines 0
            (Bookmarks.blanks_to_space false
               (Bookmarks.remove Bookmarks.is_control
                  (Bookmarks.remove Bookmarks.is_null_byte (Bookmarks.strip_tags t))))) in
  Bookmarks.sanitizeExtractedText (VString t) (Some (of_Z m))
  = if m <? str_length body then take (Z.to_nat (Z.max 0 m)) body else body.
Proof.
  cbn zeta. rewrite sanitizeExtractedText_cases. cbn zeta.
  unfold of_Z. rewrite lt_int. unfold Bookmarks.substring_to, Bookmarks.integer_below.
  cbn [Z.leb Z.compare Z.pow]. rewrite Z.mul_1_r. reflexivity.
Qed.

Lemma sanitized_text_bounded t m :
  str_length (Bookmarks.sanitizeExtractedText (VString t) (Some (of_Z m))) <= Z.max 0 m.
Proof.
  rewrite limit_cases. cbn zeta.
  match goal with |- context [if ?c then _ else _] => destruct c eqn:L end.
  - unfold str_length. pose proof (length_take (Z.to_nat (Z.max 0 m))
      (trim (Bookmarks.squeeze_newlines 0
               (Bookmarks.blanks_to_space false
                  (Bookmarks.remove Bookmarks.is_control
                     (Bookmarks.remove Bookmarks.is_null_byte (Bookmarks.strip_tags t))))))).
    lia.
  - apply Z.ltb_ge in L. lia.
Qed.

Lemma sanitized_text_fixed t m :
  let safe := Bookmarks.sanitizeExtractedText (VString t) (Some (of_Z m)) in
  str_length safe < m ->
  trimmed safe = true
  /\ Bookmarks.sanitizeExtractedText (VString safe) (Some (of_Z m)) = safe.
Proof.
  cbn zeta. rewrite (limit_cases t m). cbn zeta.
  destruct (body_shape t) as (F & P & S & T). cbn zeta in *.
  set (body := trim _) in *.
  destruct (m <? str_length body) eqn:L.
  - apply Z.ltb_lt in L. intros B. exfalso.
    assert (E : String.length (take (Z.to_nat (Z.max 0 m)) body) = Z.to_nat (Z.max 0 m)).
    { assert (G : forall n s, (n <= String.length s)%nat -> String.length (take n s) = n).
      { induction n as [|n IH]; intros s Hn; [reflexivity | ].
        destruct s as [|c s]; [cbn in Hn; lia | ]. cbn [take String.length].
        rewrite IH; [reflexivity | cbn in Hn; lia]. }
      apply G. unfold str_length in L. lia. }
    unfold str_length in B. rewrite E in B. lia.
  - intros B. split; [exact T | ].
    rewrite (limit_cases body m). cbn zeta.
    rewrite (strip_tags_fixed _ F).
    destruct (every_spec plain_char body) as [Pc _]. specialize (Pc P).
    rewrite (remove_fixed Bookmarks.is_null_byte)
      by (apply every_spec; intros c I; apply negb_true_iff, plain_not_removed; auto).
    rewrite (remove_fixed Bookmarks.is_control)
      by (apply every_spec; intros c I; apply negb_true_iff, plain_not_removed; auto).
    rewrite (blanks_fixed _ P false 0 S), (squeeze_fixed _ false 0 S), (trimmed_trim _ T).
    rewrite L. reflexivity.
Qed.

Lemma empty_text_bounded m :
  str_length "" <= Z.max 0 m
  /\ str_length "" <= 100000
  /\ (str_length "" < m ->
      trimmed "" = true
      /\ Bookmarks.sanitizeExtractedText (VString "") (Some (of_Z m)) = "").
Proof.
  change (str_length "") with 0. split; [lia | ]. split; [lia | ].
  intros _. split; [reflexivity | ].
  rewrite (limit_cases "" m). cbn zeta.
  match goal with |- context [if ?c then _ else _] => destruct c end; [ | reflexivity].
  destruct (Z.to_nat (Z.max 0 m)); reflexivity.
Qed.

(** X24.  The limit of [sanitizeExtractedText], for an integer limit: the
    text returned is no longer than the limit (and empty for a negative
    one), and no longer than 100000 characters when no limit is given.  A
    text returned that is shorter than the limit has no white space at
    either end, and sanitizing it again returns it unchanged. *)
Theorem sanitizeExtractedText_bounded (text : value) (m : Z) :
  let safe := Bookmarks.sanitizeExtractedText text (Some (of_Z m)) in
  str_length safe <= Z.max 0 m
  /\ str_length (Bookmarks.sanitizeExtractedText text None) <= 100000
  /\ (str_length safe < m ->
      trimmed safe = true
      /\ Bookmarks.sanitizeExtractedText (VString safe) (Some (of_Z m)) = safe).
Proof.
  cbn zeta. destruct text as [ | | b | n | t | items | p props];
    try exact (empty_text_bounded m).
  split; [apply sanitized_text_bounded | ]. split.
  - apply (sanitized_text_bounded t Bookmarks.TEXT_MAX).
  - apply sanitized_text_fixed.
Qed.

Lemma sanitizeExtractedText_bounded_witness :
  let text := VString (String.concat (String LF "")
                         ["  <b>Dark</b>   mode<script>x</script> "; ""; ""; ""; "1 < 2 "]) in
  Bookmarks.sanitizeExtractedText text (Some (of_Z 500))
  = String.concat (String LF "") ["Dark modex "; ""; "1 < 2"]
  /\ Bookmarks.sanitizeExtractedText text (Some (of_Z 6)) = "Dark m"
  /\ trimmed (String.concat (String LF "") ["Dark modex "; ""; "1 < 2"]) = true
  /\ Bookmarks.sanitizeExtractedText
       (VString (String.concat (String LF "") ["Dark modex "; ""; "1 < 2"]))
       (Some (of_Z 500))
     = String.concat (String LF "") ["Dark modex "; ""; "1 < 2"].
Proof.
  cbn zeta.
  pose proof (sanitizeExtractedText_bounded
                (VString (String.concat (String LF "")
                            ["  <b>Dark</b>   mode<script>x</script> "; ""; ""; ""; "1 < 2 "]))
                500) as (_ & _ & F).
  cbn zeta in F.
  assert (E : Bookmarks.sanitizeExtractedText
                (VString (String.concat (String LF "")
                            ["  <b>Dark</b>   mode<script>x</script> "; ""; ""; ""; "1 < 2 "]))
                (Some (of_Z 500))
              = String.concat (String LF "") ["Dark modex "; ""; "1 < 2"])
    by (vm_compute; reflexivity).
  rewrite E in F. split; [exact E | ]. split; [vm_compute; reflexivity | ].
  apply F. vm_compute. reflexivity.
Defined.

(** ** The colour fields of the options page *)

Lemma hexPattern_shape c : test Options.hexPattern c = written_colour c.
Proof.
  apply eq_true_iff_eq. rewrite test_Matches.
  unfold Options.hexPattern, written_colour, Validate.hex. split.
  - intros H. apply Matches_Cat_inv in H as (s1 & s2 & -> & M1 & M2).
    apply Matches_chr in M1 as ->.
    apply Matches_Cat_inv in M2 as (t1 & t2 & -> & T1 & T2).
    apply Matches_times in T1 as [L1 A1]. change (every is_hex_digit t1 = true) in A1.
    cbn [append colour_over]. rewrite Ascii.eqb_refl, length_append, every_app, A1, L1.
    apply Matches_Alt_inv in T2 as [T2 | T2].
    + apply Matches_times in T2 as [L2 A2]. change (every is_hex_digit t2 = true) in A2.
      rewrite L2, A2. reflexivity.
    + apply Matches_Eps_inv in T2 as ->. reflexivity.
  - destruct c as [|a ds]; [discriminate | ]. cbn [colour_over].
    intros H. apply andb_true_iff in H as [H A]. apply andb_true_iff in H as [H L].
    apply Ascii.eqb_eq in H as ->.
    change (String "#" ds) with ("#" ++ ds)%string.
    constructor; [apply Matches_chr; reflexivity | ].
    apply orb_true_iff in L as [L | L]; apply Nat.eqb_eq in L.
    + rewrite <- (append_nil_r ds).
      constructor; [apply Matches_times; auto | apply MAltR; constructor].
    + destruct ds as [|c1 [|c2 [|c3 rest]]]; try discriminate.
      change (String c1 (String c2 (String c3 rest)))
        with (String c1 (String c2 (String c3 "")) ++ rest)%string.
      rewrite !every_cons in A.
      apply andb_true_iff in A as [A1 A]. apply andb_true_iff in A as [A2 A].
      apply andb_true_iff in A as [A3 A].
      constructor.
      * apply Matches_times. split; [reflexivity | ].
        change (every is_hex_digit (String c1 (String c2 (String c3 ""))) = true).
        rewrite !every_cons, A1, A2, A3. reflexivity.
      * apply MAltL, Matches_times. cbn in L. split; [lia | exact A].
Qed.

(** X25.  The options page accepts the same colours with the validator and
    without it: [#] and three or six hexadecimal digits.  Without the
    validator the field keeps an accepted colour as it was typed, with it
    the colour is kept in lower case; any other text gives the fallback. *)
Theorem colour_fields_agree (c : string) (fallback : value) :
  Options.isHexColor (VString c) = Ok (written_colour c)
  /\ Options.colour_of_field false (VString c) fallback
     = Ok (if written_colour c then VString c else fallback)
  /\ Options.colour_of_field true (VString c) fallback
     = Ok (if written_colour c then VString (toLowerCase c)
           else if is_undefined fallback then VString "#000000" else fallback).
Proof.
  unfold Options.colour_of_field, Options.isHexColor.
  cbn [ToString bind]. rewrite hexPattern_shape, sanitizeHexColor_decided.
  cbn zeta. repeat split; reflexivity.
Qed.

(** ** Bookmark identifiers *)

Lemma hex_byte_pair b :
  0 <= b < 256 ->
  exists h l, Validate.hex_byte b = String h (String l "")
              /\ lower_hex h = true /\ lower_hex l = true.
Proof.
  intros R. destruct (hex_byte_shape b R) as [L E].
  destruct (Validate.hex_byte b) as [|h [|l [|x rest]]]; try discriminate.
  rewrite !every_cons in E.
  apply andb_true_iff in E as [Hh E]. apply andb_true_iff in E as [Hl _].
  exists h, l. auto.
Qed.

Lemma marked_bytes_checked :
  forallb (fun n =>
             let b := Z.of_nat n in
             match Validate.hex_byte (Z.lor (Z.land b 15) 64),
                   Validate.hex_byte (Z.lor (Z.land b 63) 128) with
             | String h1 (String l1 EmptyString), String h2 (String l2 EmptyString) =>
                 Ascii.eqb h1 "4" && lower_hex l1 && variant_digit h2 && lower_hex l2
             | _, _ => false
             end)
          (seq 0 256) = true.
Proof. vm_compute. reflexivity. Qed.

Lemma marked_bytes b :
  0 <= b < 256 ->
  (exists l, Validate.hex_byte (Z.lor (Z.land b 15) 64) = String "4" (String l "")
             /\ lower_hex l = true)
  /\ (exists h l, Validate.hex_byte (Z.lor (Z.land b 63) 128) = String h (String l "")
                  /\ variant_digit h = true /\ lower_hex l = true).
Proof.
  intros R. pose proof marked_bytes_checked as A. rewrite forallb_forall in A.
  specialize (A (Z.to_nat b)). rewrite in_seq in A.
  assert (I : (0 <= Z.to_nat b < 0 + 256)%nat) by lia. specialize (A I).
  rewrite Z2Nat.id in A by lia. cbn zeta in A.
  destruct (Validate.hex_byte (Z.lor (Z.land b 15) 64)) as [|h1 [|l1 [|x1 r1]]];
    try discriminate.
  destruct (Validate.hex_byte (Z.lor (Z.land b 63) 128)) as [|h2 [|l2 [|x2 r2]]];
    try discriminate.
  apply andb_true_iff in A as [A L2]. apply andb_true_iff in A as [A V].
  apply andb_true_iff in A as [F L1]. apply Ascii.eqb_eq in F as ->.
  split; [exists l1 | exists h2, l2]; auto.
Qed.

Lemma Matches_split n r1 r2 s :
  Matches r1 (take n s) -> Matches r2 (drop n s) -> Matches (Cat r1 r2) s.
Proof.
  intros M1 M2. rewrite (take_drop n s). constructor; assumption.
Qed.

Ltac digits :=
  apply Matches_times; split; [reflexivity | ];
  rewrite ?every_cons;
  repeat match goal with
         | H : lower_hex ?c = true |- context [lower_hex ?c] => rewrite H
         end;
  reflexivity.

Ltac dash := apply Matches_chr; reflexivity.

(** X26.  Where [crypto] has no [randomUUID], the identifier of a bookmark is
    built from sixteen random bytes and has the form of a version 4 UUID,
    whatever the bytes are: groups of 8, 4, 4, 4 and 12 lower-case
    hexadecimal digits between hyphens, the third group led by [4] and the
    fourth by [8], [9], [a] or [b]. *)
Theorem generateBookmarkId_is_uuid (p : Bookmarks.Platform) (c : Bookmarks.Crypto) :
  Bookmarks.crypto p = Some c ->
  Bookmarks.randomUUID c = None ->
  exists id, Bookmarks.generateBookmarkId p = Some id
             /\ String.length id = 36%nat
             /\ test uuid_v4 id = true.
Proof.
  intros C U. unfold Bookmarks.generateBookmarkId. rewrite C, U.
  set (g := Bookmarks.getRandomValues c).
  cbn [map seq Bookmarks.store nth].
  assert (R : forall i, 0 <= g i mod 256 < 256)
    by (intros i; apply Z.mod_pos_bound; lia).
  destruct (hex_byte_pair _ (R 0%nat)) as (h0 & l0 & -> & Hh0 & Hl0).
  destruct (hex_byte_pair _ (R 1%nat)) as (h1 & l1 & -> & Hh1 & Hl1).
  destruct (hex_byte_pair _ (R 2%nat)) as (h2 & l2 & -> & Hh2 & Hl2).
  destruct (hex_byte_pair _ (R 3%nat)) as (h3 & l3 & -> & Hh3 & Hl3).
  destruct (hex_byte_pair _ (R 4%nat)) as (h4 & l4 & -> & Hh4 & Hl4).
  destruct (hex_byte_pair _ (R 5%nat)) as (h5 & l5 & -> & Hh5 & Hl5).
  destruct (marked_bytes _ (R 6%nat)) as [(l6 & -> & Hl6) _].
  destruct (hex_byte_pair _ (R 7%nat)) as (h7 & l7 & -> & Hh7 & Hl7).
  destruct (marked_bytes _ (R 8%nat)) as [_ (h8 & l8 & -> & Hh8 & Hl8)].
  destruct (hex_byte_pair _ (R 9%nat)) as (h9 & l9 & -> & Hh9 & Hl9).
  destruct (hex_byte_pair _ (R 10%nat)) as (h10 & l10 & -> & Hh10 & Hl10).
  destruct (hex_byte_pair _ (R 11%nat)) as (h11 & l11 & -> & Hh11 & Hl11).
  destruct (hex_byte_pair _ (R 12%nat)) as (h12 & l12 & -> & Hh12 & Hl12).
  destruct (hex_byte_pair _ (R 13%nat)) as (h13 & l13 & -> & Hh13 & Hl13).
  destruct (hex_byte_pair _ (R 14%nat)) as (h14 & l14 & -> & Hh14 & Hl14).
  destruct (hex_byte_pair _ (R 15%nat)) as (h15 & l15 & -> & Hh15 & Hl15).
  eexists. split; [reflexivity | ].
  cbn [String.concat append Bookmarks.slice take drop Nat.sub String.length].
  split; [reflexivity | ].
  apply test_Matches. unfold uuid_v4. cbn zeta.
  apply (Matches_split 8); cbn [take drop]; [digits | ].
  apply (Matches_split 1); cbn [take drop]; [dash | ].
  apply (Matches_split 4); cbn [take drop]; [digits | ].
  apply (Matches_split 1); cbn [take drop]; [dash | ].
  apply (Matches_split 1); cbn [take drop]; [dash | ].
  apply (Matches_split 3); cbn [take drop]; [digits | ].
  apply (Matches_split 1); cbn [take drop]; [dash | ].
  apply (Matches_split 1); cbn [take drop]; [constructor; assumption | ].
  apply (Matches_split 3); cbn [take drop]; [digits | ].
  apply (Matches_split 1); cbn [take drop]; [dash | ].
  digits.
Qed.

Lemma generateBookmarkId_is_uuid_witness :
  exists id,
    Bookmarks.generateBookmarkId
      {| Bookmarks.URL_parse := fun _ => None;
         Bookmarks.Date_now := 0;
         Bookmarks.crypto :=
           Some {| Bookmarks.randomUUID := None;
                   Bookmarks.getRandomValues := fun i => 17 * Z.of_nat i + 3 |} |}
    = Some id
    /\ String.length id = 36%nat
    /\ test uuid_v4 id = true.
Proof.
  eapply generateBookmarkId_is_uuid; reflexivity.
Defined.

(** ** Bookmark metadata *)

Lemma text_limits v m :
  0 <= m ->
  str_length (Bookmarks.sanitizeExtractedText v (Some (of_Z m))) <= m
  /\ tag_free (Bookmarks.sanitizeExtractedText v (Some (of_Z m))) = true.
Proof.
  intros M. destruct v as [ | | b | n | t | items | q props];
    try (split; [exact M | reflexivity]).
  split.
  - pose proof (sanitized_text_bounded t m). lia.
  - apply (sanitized_text_shape t (Some (of_Z m))).
Qed.

Lemma text_or_shape fallback v m :
  0 <= m -> str_length fallback <= m -> tag_free fallback = true ->
  exists s, Bookmarks.text_or fallback v m = VString s
            /\ str_length s <= m /\ tag_free s = true
            /\ (fallback <> "" -> s <> "").
Proof.
  intros M L F. unfold Bookmarks.text_or, Validate.or_else. cbn [truthy].
  destruct (text_limits v m M) as [B T].
  destruct (String.eqb _ "") eqn:E; cbn [negb].
  - exists fallback. auto.
  - apply String.eqb_neq in E. eexists. split; [reflexivity | ]. auto.
Qed.

Lemma sanitizeBookmarkUrl_Some p url href :
  Bookmarks.sanitizeBookmarkUrl p url = Some href ->
  exists u protocol,
    url = VString u
    /\ Bookmarks.URL_parse p (trim u) = Some (protocol, href)
    /\ (protocol = "http:" \/ protocol = "https:")
    /\ str_length (trim u) <= 2048.
Proof.
  unfold Bookmarks.sanitizeBookmarkUrl. destruct url as [ | | | | u | | ]; try discriminate.
  destruct (String.eqb (trim u) ""); [discriminate | ].
  destruct (Bookmarks.URL_MAX <? str_length (trim u)) eqn:L; [discriminate | ].
  destruct (Bookmarks.URL_parse p (trim u)) as [[protocol h] | ] eqn:P; [ | discriminate].
  destruct (String.eqb protocol "http:") eqn:E1; cbn [negb andb].
  - destruct (_ || _); [discriminate | ]. intros [= <-].
    apply String.eqb_eq in E1. apply Z.ltb_ge in L. exists u, protocol.
    split; [reflexivity | ]. split; [exact P | ]. split; [left; exact E1 | exact L].
  - destruct (String.eqb protocol "https:") eqn:E2; cbn [negb]; [ | discriminate].
    destruct (_ || _); [discriminate | ]. intros [= <-].
    apply String.eqb_eq in E2. apply Z.ltb_ge in L. exists u, protocol.
    split; [reflexivity | ]. split; [exact P | ]. split; [right; exact E2 | exact L].
Qed.

Lemma le_int (a b : Z) : le (Fin a 0) (Fin b 0) = (a <=? b).
Proof.
  unfold le. cbn [is_nan negb andb]. rewrite lt_int. rewrite Z.leb_antisym. reflexivity.
Qed.

Lemma add_int (a b : Z) :
  0 <= a < 2 ^ 53 -> 0 <= b < 2 ^ 53 -> add (of_Z a) (of_Z b) = of_Z (a + b).
Proof.
  intros A B. unfold of_Z. cbn [add Z.min Z.compare Z.sub Z.add Z.opp].
  change (10 ^ 0) with 1. rewrite !Z.mul_1_r. unfold finite. cbn [Z.leb Z.compare].
  change (10 ^ 0) with 1. rewrite Z.mul_1_r.
  assert (G : 2 ^ 54 < overflow_bound) by (vm_compute; reflexivity).
  assert (H : 2 ^ 54 = 2 * 2 ^ 53) by reflexivity.
  destruct (overflow_bound <=? Z.abs (a + b)) eqn:E; [ | reflexivity].
  apply Z.leb_le in E. lia.
Qed.

(** X27.  The metadata of a bookmark, once sanitized, is an object without
    prototype that holds the six fields in their order.  The title is not
    empty and has at most 500 characters, the excerpt at most 1000 and the
    site name at most 100, and none of them holds a tag; the URL is empty or
    the normalized form of an [http:] or [https:] URL of at most 2048
    characters; the word count lies between 0 and 1000000, and the time
    of extraction between the epoch and one day after the present. *)
Theorem sanitizeBookmarkMetadata_shape (p : Bookmarks.Platform) (metadata safe : value) :
  0 <= Bookmarks.Date_now p < 2 ^ 53 ->
  Bookmarks.sanitizeBookmarkMetadata p metadata = Ok safe ->
  exists title excerpt url siteName wordCount extractedAt,
    safe = VObject NullPrototype
             [("title", VString title); ("excerpt", VString excerpt);
              ("url", VString url); ("siteName", VString siteName);
              ("wordCount", VNumber wordCount); ("extractedAt", VNumber extractedAt)]
    /\ (title <> "" /\ str_length title <= 500 /\ tag_free title = true)
    /\ (str_length excerpt <= 1000 /\ tag_free excerpt = true)
    /\ (str_length siteName <= 100 /\ tag_free siteName = true)
    /\ (url = ""
        \/ exists u protocol,
             get metadata "url" = VString u
             /\ Bookmarks.URL_parse p (trim u) = Some (protocol, url)
             /\ (protocol = "http:" \/ protocol = "https:")
             /\ str_length (trim u) <= 2048)
    /\ within (of_Z 0) (of_Z 1000000) wordCount = true
    /\ within (of_Z 0) (of_Z (Bookmarks.Date_now p + 86400000)) extractedAt = true.
Proof.
  intros N. set (now := Bookmarks.Date_now p) in *.
  assert (W : within (of_Z 0) (of_Z (now + 86400000)) (of_Z now) = true).
  { unfold within, of_Z. rewrite !le_int. cbn [isFinite andb].
    apply andb_true_iff. split; apply Z.leb_le; lia. }
  unfold Bookmarks.sanitizeBookmarkMetadata. fold now.
  destruct (negb (truthy metadata) || negb (is_object metadata) || Array_isArray metadata).
  - intros [= <-]. exists "Untitled", "", "", "", (of_Z 0), (of_Z now).
    split; [reflexivity | ].
    repeat split; try reflexivity; try discriminate; auto.
  - destruct (text_or_shape "Untitled" (get metadata "title") Bookmarks.TITLE_MAX)
      as (title & -> & T1 & T2 & T3); try reflexivity; try discriminate.
    destruct (text_or_shape "" (get metadata "excerpt") Bookmarks.EXCERPT_MAX)
      as (excerpt & -> & E1 & E2 & _); try reflexivity; try discriminate.
    destruct (text_or_shape "" (get metadata "siteName") Bookmarks.SITE_NAME_MAX)
      as (siteName & -> & S1 & S2 & _); try reflexivity; try discriminate.
    rewrite add_int by (fold now; lia).
    destruct (Validate.sanitizeNumericRange (get metadata "wordCount") _ _ _)
      as [wordCount | e] eqn:C; cbn [bind]; [ | discriminate].
    destruct (Validate.sanitizeNumericRange (get metadata "extractedAt") _ _ _)
      as [extractedAt | e] eqn:A; cbn [bind]; [ | discriminate].
    intros [= <-].
    apply sanitizeNumericRange_within in C; try reflexivity.
    apply sanitizeNumericRange_within in A;
      [ | unfold of_Z; rewrite lt_int; apply Z.ltb_lt; lia | reflexivity | reflexivity ].
    destruct (Bookmarks.sanitizeBookmarkUrl p (get metadata "url")) as [href | ] eqn:U.
    + unfold Validate.or_else. cbn [truthy].
      destruct (String.eqb href "") eqn:H; cbn [negb].
      * exists title, excerpt, "", siteName, wordCount, extractedAt.
        split; [reflexivity | ].
        split; [split; [apply T3; discriminate | auto] | ].
        split; [auto | ]. split; [auto | ]. split; [auto | ].
        split; [destruct C as [-> | C]; [reflexivity | exact C] | ].
        destruct A as [-> | A]; [exact W | exact A].
      * exists title, excerpt, href, siteName, wordCount, extractedAt.
        split; [reflexivity | ].
        split; [split; [apply T3; discriminate | auto] | ].
        split; [auto | ]. split; [auto | ].
        split; [right; apply sanitizeBookmarkUrl_Some; exact U | ].
        split; [destruct C as [-> | C]; [reflexivity | exact C] | ].
        destruct A as [-> | A]; [exact W | exact A].
    + exists title, excerpt, "", siteName, wordCount, extractedAt.
      split; [reflexivity | ].
      split; [split; [apply T3; discriminate | auto] | ].
      split; [auto | ]. split; [auto | ]. split; [auto | ].
      split; [destruct C as [-> | C]; [reflexivity | exact C] | ].
      destruct A as [-> | A]; [exact W | exact A].
Qed.

Lemma sanitizeBookmarkMetadata_shape_witness :
  exists title excerpt url siteName wordCount extractedAt,
    Cases.safe_metadata
    = VObject NullPrototype
        [("title", VString title); ("excerpt", VString excerpt);
         ("url", VString url); ("siteName", VString siteName);
         ("wordCount", VNumber wordCount); ("extractedAt", VNumber extractedAt)]
    /\ (title <> "" /\ str_length title <= 500 /\ tag_free title = true)
    /\ (str_length excerpt <= 1000 /\ tag_free excerpt = true)
    /\ (str_length siteName <= 100 /\ tag_free siteName = true)
    /\ (url = ""
        \/ exists u protocol,
             get Cases.raw_metadata "url" = VString u
             /\ Bookmarks.URL_parse Cases.clock_platform (trim u) = Some (protocol, url)
             /\ (protocol = "http:" \/ protocol = "https:")
             /\ str_length (trim u) <= 2048)
    /\ within (of_Z 0) (of_Z 1000000) wordCount = true
    /\ within (of_Z 0) (of_Z (Bookmarks.Date_now Cases.clock_platform + 86400000))
              extractedAt = true.
Proof.
  apply (sanitizeBookmarkMetadata_shape Cases.clock_platform Cases.raw_metadata
           Cases.safe_metadata).
  - vm_compute. split; [discriminate | reflexivity].
  - vm_compute. reflexivity.
Defined.

(** ** The blacklist button of the popup *)










Lemma toggle_stored defaults domain stored l :
  truthy stored = true -> get stored "blacklist" = VArray l ->
  Popup.toggle true defaults domain stored
  = (let safeDomain := Popup.pattern_of true (VString domain) in
     isListed <- Config.some (fun d => Popup.listed safeDomain (Popup.pattern_of true d)) l ;;
     if isListed
     then Builtins.Array_filter
            (fun d => found <- Popup.listed safeDomain (Popup.pattern_of true d) ;;
                      Ok (negb found)) l
     else Ok (l ++ [safeDomain])%list).
Proof.
  intros T G. unfold Popup.toggle, Validate.or_else. rewrite T. cbn zeta.
  assert (M : member stored "blacklist" = Ok (VArray l))
    by (destruct stored; try discriminate; cbn [member]; rewrite G; reflexivity).
  rewrite M. cbn [bind truthy]. reflexivity.
Qed.



Lemma listed_without_domain x :
  Popup.listed VNull (Popup.pattern_of true x)
  = match Validate.sanitizeDomain x with
    | Some _ => Throw TypeError
    | None => Ok true
    end.
Proof.
  unfold Popup.listed, Popup.pattern_of.
  destruct (Validate.sanitizeDomain x); reflexivity.
Qed.

Lemma filter_without_domain l :
  Builtins.Array_filter
    (fun x => found <- Popup.listed VNull (Popup.pattern_of true x) ;; Ok (negb found)) l
  = if existsb (fun x => match Validate.sanitizeDomain x with
                         | Some _ => true
                         | None => false
                         end) l
    then Throw TypeError else Ok [].
Proof.
  induction l as [|x l IH]; [reflexivity | ].
  cbn [Builtins.Array_filter existsb]. rewrite listed_without_domain, IH.
  destruct (Validate.sanitizeDomain x); cbn [bind orb]; [reflexivity | ].
  destruct (existsb _ l); reflexivity.
Qed.

(** X29.  The blacklist button on a page whose host name is no domain, as
    an IP address or a name of one label.  The click stores [null] in an
    empty blacklist; it raises a TypeError where the blacklist holds a
    domain; and it empties a blacklist that holds no domain at all.  The
    button itself is left as it is. *)
Theorem blacklist_button_without_domain (defaults stored : value) (domain : string)
                                        (blacklist : list value) :
  Validate.sanitizeDomain (VString domain) = None ->
  truthy stored = true ->
  get stored "blacklist" = VArray blacklist ->
  Popup.toggle true defaults domain stored
  = match blacklist with
    | [] => Ok [VNull]
    | _ :: _ =>
        if existsb (fun x => match Validate.sanitizeDomain x with
                             | Some _ => true
                             | None => false
                             end) blacklist
        then Throw TypeError
        else Ok []
    end
  /\ forall config shown,
       Popup.checkCurrentSiteBlacklist true config domain shown = None.
Proof.
  intros D T G.
  assert (S : Popup.pattern_of true (VString domain) = VNull)
    by (unfold Popup.pattern_of; rewrite D; reflexivity).
  split.
  - rewrite (toggle_stored _ _ _ _ T G). cbn zeta. rewrite S.
    destruct blacklist as [|x l]; [reflexivity | ].
    cbn [Config.some]. rewrite listed_without_domain.
    destruct (Validate.sanitizeDomain x) eqn:V; cbn [bind].
    + cbn [existsb]. rewrite V. reflexivity.
    + rewrite filter_without_domain. reflexivity.
  - intros config shown. unfold Popup.checkCurrentSiteBlacklist. cbn zeta.
    rewrite S. reflexivity.
Qed.

Lemma blacklist_button_without_domain_witness :
  Popup.toggle true Config.DEFAULT_SETTINGS "192.168.0.1" Cases.listing_settings
  = Throw TypeError
  /\ forall config shown,
       Popup.checkCurrentSiteBlacklist true config "192.168.0.1" shown = None.
Proof.
  exact (blacklist_button_without_domain Config.DEFAULT_SETTINGS Cases.listing_settings
           "192.168.0.1" [VString "example.com"; VString "other.org"]
           eq_refl eq_refl eq_refl).
Defined.
